(** * Commodore 64 Universal USB Keyboard: the scan, debounce and dispatch
      pipeline of [c64_universal_usb_kb.ino]

    The sketch is a single-threaded program over global variables.  It is
    embedded here as state transformers over a record of those globals; each
    transformer also returns, in program order, the calls it makes to the
    outside world (the HID keyboard, the pins, [delay], the EEPROM).  The
    values the program reads from the outside world ([digitalRead],
    [millis]) are inputs of the model. *)

From Stdlib Require Import ZArith Ascii Bool Lia.
From stdpp Require Import base list strings.

Local Open Scope Z_scope.
Local Open Scope nat_scope.

(** ** Constants of the sketch *)

Definition ASCII : Z := 1%Z.
Definition VICE2_BMC64 : Z := 2%Z.
Definition VICE3 : Z := 3%Z.
Definition MISTER : Z := 4%Z.

Definition MAXTARGETS : Z := 4%Z.
Definition BLINK_RATE : Z := 75%Z.
Definition LED_START_DELAY : Z := 1000%Z.

Definition allowBlink : bool := true.
Definition debounceDelay : Z := 5%Z.
Definition rowPinMap : list Z := [9; 3; 4; 5; 6; 7; 8; 2]%Z.
Definition colPinMap : list Z := [10; 16; 14; 21; 18; 19; 20; 15; 1]%Z.

(** Pins of the two onboard LEDs (board constants of the Pro Micro). *)
Definition LED_BUILTIN_RX : Z := 17%Z.
Definition LED_BUILTIN_TX : Z := 30%Z.

(** ** Symbols given to the HID keyboard *)

(** The named keys of the HID library that the sketch mentions. *)
Inductive hidkey : Set :=
| KEY_END | KEY_HOME | KEY_BACKSPACE | KEY_TAB | KEY_PAGE_UP | KEY_PAGE_DOWN
| KEY_ESC | KEY_ENTER | KEY_RETURN | KEY_INSERT | KEY_DELETE
| KEY_LEFT_SHIFT | KEY_RIGHT_SHIFT | KEY_LEFT_CTRL | KEY_LEFT_ALT
| KEY_LEFT_WINDOWS
| KEY_UP_ARROW | KEY_DOWN_ARROW | KEY_LEFT_ARROW | KEY_RIGHT_ARROW
| KEY_F1 | KEY_F2 | KEY_F3 | KEY_F4 | KEY_F5 | KEY_F6
| KEY_F7 | KEY_F8 | KEY_F9 | KEY_F10 | KEY_F11 | KEY_F12.

(** What a call of [BootKeyboard.press] or [BootKeyboard.release] is given:
    a character, a named key passed by its macro, or the value of a macro
    that went through a [char] cell of [keymap] ([Raw]). *)
Inductive symbol : Set :=
| Chr (c : ascii)
| Named (k : hidkey)
| Raw (k : hidkey).

#[global] Instance hidkey_eq_dec : EqDecision hidkey.
Proof. solve_decision. Defined.

#[global] Instance symbol_eq_dec : EqDecision symbol.
Proof. solve_decision. Defined.

(** A [char] cell that was never assigned holds 0. *)
#[global] Instance symbol_inhabited : Inhabited symbol := populate (Chr zero).

Definition dquote : ascii := ascii_of_nat 34.
Definition squote : ascii := ascii_of_nat 39.
Definition backslash : ascii := ascii_of_nat 92.

(** ** Calls to the outside world *)

Inductive pinmode : Set := INPUT | OUTPUT | INPUT_PULLUP.

(** Levels are booleans: [true] is HIGH, [false] is LOW. *)
Inductive event : Set :=
| KbBegin
| KbPress (x : symbol)
| KbRelease (x : symbol)
| KbReleaseAll
| EepromWrite (addr : nat) (v : Z)
| Delay (ms : Z)
| PinMode (pin : Z) (m : pinmode)
| DigitalWrite (pin : Z) (level : bool).

(** ** The globals *)

Record state : Type := State {
  thisKey : nat;
  isKeyDown : bool;
  lShifted : bool;
  rShifted : bool;
  ctrlPressed : bool;
  cmdrPressed : bool;
  enterMenu : bool;
  pageScr : bool;
  clrPressed : bool;
  lastKeyState : list bool;
  lastDebounceTime : list Z;
  shifted : list bool;
  keymap : list symbol;
  activeLED : Z;
  target : Z;
  eeprom : list Z
}.

Definition set_thisKey (v : nat) (s : state) : state :=
  State v (isKeyDown s) (lShifted s) (rShifted s) (ctrlPressed s)
    (cmdrPressed s) (enterMenu s) (pageScr s) (clrPressed s) (lastKeyState s)
    (lastDebounceTime s) (shifted s) (keymap s) (activeLED s) (target s)
    (eeprom s).

Definition set_isKeyDown (v : bool) (s : state) : state :=
  State (thisKey s) v (lShifted s) (rShifted s) (ctrlPressed s)
    (cmdrPressed s) (enterMenu s) (pageScr s) (clrPressed s) (lastKeyState s)
    (lastDebounceTime s) (shifted s) (keymap s) (activeLED s) (target s)
    (eeprom s).

Definition set_lShifted (v : bool) (s : state) : state :=
  State (thisKey s) (isKeyDown s) v (rShifted s) (ctrlPressed s)
    (cmdrPressed s) (enterMenu s) (pageScr s) (clrPressed s) (lastKeyState s)
    (lastDebounceTime s) (shifted s) (keymap s) (activeLED s) (target s)
    (eeprom s).

Definition set_rShifted (v : bool) (s : state) : state :=
  State (thisKey s) (isKeyDown s) (lShifted s) v (ctrlPressed s)
    (cmdrPressed s) (enterMenu s) (pageScr s) (clrPressed s) (lastKeyState s)
    (lastDebounceTime s) (shifted s) (keymap s) (activeLED s) (target s)
    (eeprom s).

Definition set_ctrlPressed (v : bool) (s : state) : state :=
  State (thisKey s) (isKeyDown s) (lShifted s) (rShifted s) v
    (cmdrPressed s) (enterMenu s) (pageScr s) (clrPressed s) (lastKeyState s)
    (lastDebounceTime s) (shifted s) (keymap s) (activeLED s) (target s)
    (eeprom s).

Definition set_cmdrPressed (v : bool) (s : state) : state :=
  State (thisKey s) (isKeyDown s) (lShifted s) (rShifted s) (ctrlPressed s)
    v (enterMenu s) (pageScr s) (clrPressed s) (lastKeyState s)
    (lastDebounceTime s) (shifted s) (keymap s) (activeLED s) (target s)
    (eeprom s).

Definition set_enterMenu (v : bool) (s : state) : state :=
  State (thisKey s) (isKeyDown s) (lShifted s) (rShifted s) (ctrlPressed s)
    (cmdrPressed s) v (pageScr s) (clrPressed s) (lastKeyState s)
    (lastDebounceTime s) (shifted s) (keymap s) (activeLED s) (target s)
    (eeprom s).

Definition set_pageScr (v : bool) (s : state) : state :=
  State (thisKey s) (isKeyDown s) (lShifted s) (rShifted s) (ctrlPressed s)
    (cmdrPressed s) (enterMenu s) v (clrPressed s) (lastKeyState s)
    (lastDebounceTime s) (shifted s) (keymap s) (activeLED s) (target s)
    (eeprom s).

Definition set_clrPressed (v : bool) (s : state) : state :=
  State (thisKey s) (isKeyDown s) (lShifted s) (rShifted s) (ctrlPressed s)
    (cmdrPressed s) (enterMenu s) (pageScr s) v (lastKeyState s)
    (lastDebounceTime s) (shifted s) (keymap s) (activeLED s) (target s)
    (eeprom s).

Definition set_lastKeyState (v : list bool) (s : state) : state :=
  State (thisKey s) (isKeyDown s) (lShifted s) (rShifted s) (ctrlPressed s)
    (cmdrPressed s) (enterMenu s) (pageScr s) (clrPressed s) v
    (lastDebounceTime s) (shifted s) (keymap s) (activeLED s) (target s)
    (eeprom s).

Definition set_lastDebounceTime (v : list Z) (s : state) : state :=
  State (thisKey s) (isKeyDown s) (lShifted s) (rShifted s) (ctrlPressed s)
    (cmdrPressed s) (enterMenu s) (pageScr s) (clrPressed s) (lastKeyState s)
    v (shifted s) (keymap s) (activeLED s) (target s) (eeprom s).

Definition set_shifted (v : list bool) (s : state) : state :=
  State (thisKey s) (isKeyDown s) (lShifted s) (rShifted s) (ctrlPressed s)
    (cmdrPressed s) (enterMenu s) (pageScr s) (clrPressed s) (lastKeyState s)
    (lastDebounceTime s) v (keymap s) (activeLED s) (target s) (eeprom s).

Definition set_keymap (v : list symbol) (s : state) : state :=
  State (thisKey s) (isKeyDown s) (lShifted s) (rShifted s) (ctrlPressed s)
    (cmdrPressed s) (enterMenu s) (pageScr s) (clrPressed s) (lastKeyState s)
    (lastDebounceTime s) (shifted s) v (activeLED s) (target s) (eeprom s).

Definition set_activeLED (v : Z) (s : state) : state :=
  State (thisKey s) (isKeyDown s) (lShifted s) (rShifted s) (ctrlPressed s)
    (cmdrPressed s) (enterMenu s) (pageScr s) (clrPressed s) (lastKeyState s)
    (lastDebounceTime s) (shifted s) (keymap s) v (target s) (eeprom s).

Definition set_target (v : Z) (s : state) : state :=
  State (thisKey s) (isKeyDown s) (lShifted s) (rShifted s) (ctrlPressed s)
    (cmdrPressed s) (enterMenu s) (pageScr s) (clrPressed s) (lastKeyState s)
    (lastDebounceTime s) (shifted s) (keymap s) (activeLED s) v (eeprom s).

Definition set_eeprom (v : list Z) (s : state) : state :=
  State (thisKey s) (isKeyDown s) (lShifted s) (rShifted s) (ctrlPressed s)
    (cmdrPressed s) (enterMenu s) (pageScr s) (clrPressed s) (lastKeyState s)
    (lastDebounceTime s) (shifted s) (keymap s) (activeLED s) (target s) v.

(** The globals as the C runtime zero-initialises them, over a given EEPROM
    content. *)
Definition power_on (rom : list Z) : state :=
  State 0 false false false false false false false false
    (replicate 80 false) (replicate 80 0%Z) (replicate 80 false)
    (replicate 80 (Chr zero)) 0%Z 0%Z rom.

(** ** Commands: a state transformer with the calls it made *)

Definition cmd : Type := state -> state * list event.

Definition skip : cmd := fun s => (s, []).

Definition andThen (a b : cmd) : cmd := fun s =>
  let r1 := a s in
  let r2 := b (fst r1) in
  (fst r2, snd r1 ++ snd r2).

Declare Scope cmd_scope.
Delimit Scope cmd_scope with cmd.
Bind Scope cmd_scope with cmd.
Notation "a ;; b" := (andThen a b)
  (at level 100, b at level 200, right associativity) : cmd_scope.
Local Open Scope cmd_scope.

Definition call (e : event) : cmd := fun s => (s, [e]).

Definition assign (f : state -> state) : cmd := fun s => (f s, []).

Definition ifc (c : state -> bool) (a b : cmd) : cmd := fun s =>
  if c s then a s else b s.

Definition when (c : state -> bool) (a : cmd) : cmd := ifc c a skip.

(** A command whose arguments are read from the globals. *)
Definition reading (f : state -> cmd) : cmd := fun s => f s s.

Fixpoint times (n : nat) (body : cmd) : cmd :=
  match n with
  | O => skip
  | S n' => body ;; times n' body
  end.

Definition run (c : cmd) (s : state) : state := fst (c s).
Definition calls (c : cmd) (s : state) : list event := snd (c s).

(** The HID keyboard. *)
Definition BootKeyboard_press (x : symbol) : cmd := call (KbPress x).
Definition BootKeyboard_release (x : symbol) : cmd := call (KbRelease x).
Definition BootKeyboard_releaseAll : cmd := call KbReleaseAll.

(** [press(keymap[key])] and [release(keymap[key])]. *)
Definition press_keymap (key : nat) : cmd :=
  reading (fun s => BootKeyboard_press (keymap s !!! key)).
Definition release_keymap (key : nat) : cmd :=
  reading (fun s => BootKeyboard_release (keymap s !!! key)).

(** [EEPROM.write(addr, v)]: the cell takes the value as a byte. *)
Definition EEPROM_write (addr : nat) (v : state -> Z) : cmd := fun s =>
  (set_eeprom (<[addr := (v s mod 256)%Z]> (eeprom s)) s,
   [EepromWrite addr (v s mod 256)%Z]).

Definition is_target (t : Z) : state -> bool := fun s => (target s =? t)%Z.
Definition latch (key : nat) : cmd :=
  assign (fun s => set_shifted (<[key := true]> (shifted s)) s).
Definition unlatch (key : nat) : cmd :=
  assign (fun s => set_shifted (<[key := false]> (shifted s)) s).
Definition latched (key : nat) : state -> bool := fun s => shifted s !!! key.

(** ** [setKeymap] *)

(** The assignments that [setKeymap] makes for every target, in the order
    of the source. *)
Definition base_assignments : list (nat * symbol) :=
  [ (* first row *)
    (71, Chr "`"); (70, Chr "1"); (73, Chr "2"); (10, Chr "3"); (13, Chr "4");
    (20, Chr "5"); (23, Chr "6"); (30, Chr "7"); (33, Chr "8"); (40, Chr "9");
    (43, Chr "0"); (50, Chr "-"); (53, Chr "="); (60, Raw KEY_END);
    (63, Raw KEY_HOME); (0, Raw KEY_BACKSPACE);
    (* second row *)
    (72, Raw KEY_TAB); (76, Chr "q"); (11, Chr "w"); (16, Chr "e");
    (21, Chr "r"); (26, Chr "t"); (31, Chr "y"); (36, Chr "u"); (41, Chr "i");
    (46, Chr "o"); (51, Chr "p"); (56, Chr "["); (61, Chr "]");
    (66, Chr backslash); (68, Raw KEY_PAGE_UP);
    (* third row *)
    (77, Raw KEY_ESC); (17, Raw KEY_LEFT_SHIFT); (12, Chr "a"); (15, Chr "s");
    (22, Chr "d"); (25, Chr "f"); (32, Chr "g"); (35, Chr "h"); (42, Chr "j");
    (45, Chr "k"); (52, Chr "l"); (55, Chr ";"); (62, Chr squote);
    (65, Raw KEY_PAGE_DOWN); (1, Raw KEY_ENTER);
    (* fourth row *)
    (75, Raw KEY_LEFT_CTRL); (17, Raw KEY_LEFT_SHIFT); (14, Chr "z");
    (27, Chr "x"); (24, Chr "c"); (37, Chr "v"); (34, Chr "b"); (47, Chr "n");
    (44, Chr "m"); (57, Chr ","); (54, Chr "."); (67, Chr "/");
    (64, Raw KEY_RIGHT_SHIFT); (7, Raw KEY_DOWN_ARROW);
    (2, Raw KEY_RIGHT_ARROW);
    (* space and function keys *)
    (74, Chr " "); (4, Raw KEY_F1); (5, Raw KEY_F3); (6, Raw KEY_F5);
    (3, Raw KEY_F7) ]%char.

(** The [switch (target)] at the end of [setKeymap]. *)
Definition target_assignments (t : Z) : list (nat * symbol) :=
  if (t =? ASCII)%Z then
    [ (50, Chr "+"); (53, Chr "-"); (60, Chr backslash);
      (72, Raw KEY_LEFT_CTRL); (56, Chr "@"); (61, Chr "*"); (66, Chr "^");
      (68, Raw KEY_TAB); (55, Chr ":"); (62, Chr ";"); (65, Chr "=");
      (75, Raw KEY_LEFT_ALT) ]%char
  else if (t =? VICE2_BMC64)%Z then
    [ (60, Raw KEY_INSERT); (66, Raw KEY_DELETE); (65, Chr backslash) ]
  else if (t =? MISTER)%Z then
    [ (50, Chr "="); (53, Chr "-"); (60, Chr backslash);
      (72, Raw KEY_LEFT_CTRL); (66, Raw KEY_F9); (68, Raw KEY_F11);
      (65, Raw KEY_F10); (75, Raw KEY_LEFT_ALT) ]%char
  else [].

Definition store_all (l : list (nat * symbol)) (m : list symbol) : list symbol :=
  foldl (fun m kv => <[fst kv := snd kv]> m) m l.

Definition setKeymap : cmd :=
  assign (fun s =>
    set_keymap
      (store_all (target_assignments (target s))
         (store_all base_assignments (keymap s))) s).

(** ** Helpers of the dispatch *)

Definition shiftedKey (s : state) : bool := lShifted s || rShifted s.

Definition misterOrASCII (s : state) : bool :=
  (target s =? MISTER)%Z || (target s =? ASCII)%Z.

Definition unshift : cmd :=
  when lShifted (BootKeyboard_release (Named KEY_LEFT_SHIFT)) ;;
  when rShifted (BootKeyboard_release (Named KEY_RIGHT_SHIFT)).

(** One turn of the loop of [blinkLED]. *)
Definition blink_once : cmd :=
  when (fun s => negb (activeLED s =? 0)%Z)
       (reading (fun s => call (PinMode (activeLED s) OUTPUT))) ;;
  reading (fun s => call (DigitalWrite (activeLED s) false)) ;;
  call (Delay BLINK_RATE) ;;
  ifc (fun s => negb (activeLED s =? 0)%Z)
      (reading (fun s => call (PinMode (activeLED s) INPUT)))
      (reading (fun s => call (DigitalWrite (activeLED s) true))) ;;
  call (Delay BLINK_RATE).

Definition blinkLED (n : Z) : cmd :=
  if allowBlink then times (Z.to_nat n) blink_once else skip.

(** ** [setup] *)

(** The first part of [setup], up to the initialisation of the pins.
    [led_level] is what [digitalRead(activeLED)] returns during the
    detection of the external LED. *)
Definition setup_pins (led_level : bool) : cmd :=
  call (PinMode LED_BUILTIN_RX INPUT) ;;
  call (PinMode LED_BUILTIN_TX INPUT) ;;
  assign (set_activeLED 0%Z) ;;
  call (PinMode 0%Z INPUT_PULLUP) ;;
  call (DigitalWrite 0%Z false) ;;
  (if negb led_level
   then call (PinMode 0%Z OUTPUT) ;; call (DigitalWrite 0%Z true)
   else assign (set_activeLED 17%Z)) ;;
  call KbBegin ;;
  BootKeyboard_releaseAll ;;
  assign (fun s => set_lastKeyState (replicate 80 false) s) ;;
  foldr (fun pin k => call (PinMode pin INPUT_PULLUP) ;; k) skip rowPinMap ;;
  foldr (fun pin k => call (PinMode pin INPUT_PULLUP) ;; k) skip colPinMap.

(** The second part: read EEPROM value for keyboard target; target not
    valid, reset to 1. *)
Definition load_target : cmd :=
  assign (fun s => set_target (eeprom s !!! 0) s) ;;
  when (fun s => (target s <? 1)%Z || (MAXTARGETS <? target s)%Z)
       (assign (set_target 1%Z) ;; EEPROM_write 0 target).

Definition setup (led_level : bool) : cmd :=
  setup_pins led_level ;;
  load_target ;;
  setKeymap ;;
  call (Delay LED_START_DELAY) ;;
  reading (fun s => blinkLED (target s)).

(** ** [press] *)

(** The body of [if (cmdrPressed)] under [case 4] of [press]: the target
    rotation and what follows it. *)
Definition rotate_target : cmd :=
  ifc ctrlPressed
      (* Reset target if C= and CTRL are active *)
      (assign (set_target 1%Z))
      (ifc shiftedKey
           (* If SHIFT is active, rotate backward *)
           (assign (fun s => set_target (target s - 1)%Z s) ;;
            when (fun s => (target s <? 1)%Z) (assign (set_target MAXTARGETS)))
           (* Otherwise rotate forward *)
           (assign (fun s => set_target (target s + 1)%Z s) ;;
            when (fun s => (MAXTARGETS <? target s)%Z) (assign (set_target 1%Z)))).

Definition cycle_target : cmd :=
  rotate_target ;;
  EEPROM_write 0 target ;;
  (* Reset keyboard *)
  BootKeyboard_releaseAll ;;
  setKeymap ;;
  reading (fun s => blinkLED (target s)).

(** The Shift-held alternate of a position on the ASCII target, with the
    host shift taken away first: F1, F3, F5, [:] and [;]. *)
Definition press_ascii_unshifted (key : nat) (alt : symbol) (plain : cmd) : cmd :=
  ifc (fun s => is_target ASCII s && shiftedKey s)
      (latch key ;; unshift ;; BootKeyboard_press alt)
      plain.

(** The same without touching the host shift: [@], [*] and [2]. *)
Definition press_ascii_alt (key : nat) (alt : symbol) : cmd :=
  ifc (fun s => is_target ASCII s && shiftedKey s)
      (latch key ;; BootKeyboard_press alt)
      (press_keymap key).

(** The digits 6, 8 and 9 on MiSTer and ASCII. *)
Definition press_digit (key : nat) (alt : symbol) : cmd :=
  ifc (fun s => shiftedKey s && misterOrASCII s)
      (latch key ;; BootKeyboard_press alt)
      (press_keymap key).

Definition press (key : nat) : cmd :=
  match key with
  | 23 => press_digit 23 (Chr "&")
  | 30 =>
      ifc shiftedKey
        (latch 30 ;;
         ifc (is_target MISTER) (BootKeyboard_press (Chr "^"))
        (ifc (is_target ASCII) (unshift ;; BootKeyboard_press (Chr squote))
             (press_keymap 30)))
        (press_keymap 30)
  | 33 => press_digit 33 (Chr "(")
  | 40 => press_digit 40 (Chr ")")
  | 43 => unshift ;; press_keymap 43
  | 0 =>
      ifc (fun s => is_target ASCII s && shiftedKey s)
        (latch 0 ;; unshift ;; BootKeyboard_press (Named KEY_DELETE))
        (BootKeyboard_press (Named KEY_BACKSPACE))
  | 1 => BootKeyboard_press (Named KEY_RETURN)
  | 2 =>
      ifc shiftedKey
        (latch 2 ;;
         when (is_target ASCII) unshift ;;
         BootKeyboard_press (Named KEY_LEFT_ARROW))
        (BootKeyboard_press (Named KEY_RIGHT_ARROW))
  | 3 =>
      ifc (is_target MISTER)
        (ifc cmdrPressed
           (assign (set_enterMenu true) ;;
            BootKeyboard_release (Named KEY_LEFT_ALT) ;;
            call (Delay 25%Z) ;;
            BootKeyboard_press (Named KEY_F12) ;;
            call (Delay 25%Z) ;;
            BootKeyboard_press (Named KEY_LEFT_ALT))
           (BootKeyboard_press (Named KEY_F7)))
     (ifc (is_target ASCII)
        (ifc cmdrPressed
           (assign (set_enterMenu true) ;;
            BootKeyboard_release (Named KEY_LEFT_ALT) ;;
            BootKeyboard_press (Named KEY_LEFT_WINDOWS))
        (ifc shiftedKey
           (latch 3 ;; unshift ;; BootKeyboard_press (Named KEY_F8))
           (BootKeyboard_press (Named KEY_F7))))
        (BootKeyboard_press (Named KEY_F7)))
  | 4 =>
      ifc cmdrPressed cycle_target
        (press_ascii_unshifted 4 (Named KEY_F2)
           (BootKeyboard_press (Named KEY_F1)))
  | 5 =>
      press_ascii_unshifted 5 (Named KEY_F4) (BootKeyboard_press (Named KEY_F3))
  | 6 =>
      press_ascii_unshifted 6 (Named KEY_F6) (BootKeyboard_press (Named KEY_F5))
  | 7 =>
      ifc shiftedKey
        (latch 7 ;;
         ifc (is_target ASCII)
           (unshift ;;
            ifc ctrlPressed
              (assign (set_pageScr true) ;;
               BootKeyboard_release (Named KEY_LEFT_CTRL) ;;
               BootKeyboard_press (Named KEY_PAGE_UP))
              (BootKeyboard_press (Named KEY_UP_ARROW)))
           (BootKeyboard_press (Named KEY_UP_ARROW)))
        (ifc (is_target ASCII)
           (ifc ctrlPressed
              (assign (set_pageScr true) ;;
               BootKeyboard_release (Named KEY_LEFT_CTRL) ;;
               BootKeyboard_press (Named KEY_PAGE_DOWN))
              (BootKeyboard_press (Named KEY_DOWN_ARROW)))
           (BootKeyboard_press (Named KEY_DOWN_ARROW)))
  | 17 =>
      assign (set_lShifted true) ;; BootKeyboard_press (Named KEY_LEFT_SHIFT)
  | 55 => press_ascii_unshifted 55 (Chr "[") (press_keymap 55)
  | 56 => press_ascii_alt 56 (Chr "{")
  | 60 =>
      ifc (is_target VICE3) (BootKeyboard_press (Named KEY_END))
     (ifc (is_target VICE2_BMC64) (BootKeyboard_press (Named KEY_INSERT))
          (press_keymap 60))
  | 61 => press_ascii_alt 61 (Chr "}")
  | 62 => press_ascii_unshifted 62 (Chr "]") (press_keymap 62)
  | 63 =>
      ifc (fun s => is_target ASCII s && shiftedKey s)
        (assign (set_clrPressed true) ;; unshift ;;
         BootKeyboard_press (Named KEY_END))
        (BootKeyboard_press (Named KEY_HOME))
  | 64 =>
      assign (set_rShifted true) ;; BootKeyboard_press (Named KEY_RIGHT_SHIFT)
  | 65 =>
      when (is_target ASCII) unshift ;;
      ifc (is_target VICE3) (BootKeyboard_press (Named KEY_PAGE_DOWN))
     (ifc (is_target MISTER) (BootKeyboard_press (Named KEY_F10))
          (press_keymap 65))
  | 66 =>
      ifc (is_target MISTER) (BootKeyboard_press (Named KEY_F9))
     (ifc (is_target VICE2_BMC64) (BootKeyboard_press (Named KEY_DELETE))
          (press_keymap 66))
  | 68 =>
      ifc (is_target MISTER) (BootKeyboard_press (Named KEY_F11))
     (ifc (is_target ASCII) (BootKeyboard_press (Named KEY_TAB))
          (BootKeyboard_press (Named KEY_PAGE_UP)))
  | 72 =>
      assign (set_ctrlPressed true) ;;
      ifc (fun s => is_target VICE3 s || is_target VICE2_BMC64 s)
        (BootKeyboard_press (Named KEY_TAB))
        (BootKeyboard_press (Named KEY_LEFT_CTRL))
  | 73 => press_ascii_alt 73 (Chr dquote)
  | 75 =>
      assign (set_cmdrPressed true) ;;
      ifc misterOrASCII
        (BootKeyboard_press (Named KEY_LEFT_ALT))
        (BootKeyboard_press (Named KEY_LEFT_CTRL))
  | 77 => BootKeyboard_press (Named KEY_ESC)
  | _ => press_keymap key
  end%char.

(** ** [release] *)

(** Release of a position whose alternate is latched on every target: the
    digits 6, 8 and 9. *)
Definition release_digit (key : nat) (alt : symbol) : cmd :=
  ifc (latched key)
      (unlatch key ;; BootKeyboard_release alt)
      (release_keymap key).

(** Release of a position whose alternate exists on the ASCII target only. *)
Definition release_ascii_alt (key : nat) (alt : symbol) (plain : cmd) : cmd :=
  ifc (fun s => is_target ASCII s && latched key s)
      (unlatch key ;; BootKeyboard_release alt)
      plain.

(** The [switch (key)] of [release]. *)
Definition release_key (key : nat) : cmd :=
  match key with
  | 23 => release_digit 23 (Chr "&")
  | 30 =>
      ifc (latched 30)
        (unlatch 30 ;;
         ifc (is_target MISTER) (BootKeyboard_release (Chr "^"))
        (ifc (is_target ASCII) (BootKeyboard_release (Chr squote))
             (release_keymap 30)))
        (release_keymap 30)
  | 33 => release_digit 33 (Chr "(")
  | 40 => release_digit 40 (Chr ")")
  | 0 =>
      release_ascii_alt 0 (Named KEY_DELETE)
        (BootKeyboard_release (Named KEY_BACKSPACE))
  | 1 => BootKeyboard_release (Named KEY_RETURN)
  | 2 =>
      ifc (latched 2)
        (unlatch 2 ;; BootKeyboard_release (Named KEY_LEFT_ARROW))
        (BootKeyboard_release (Named KEY_RIGHT_ARROW))
  | 3 =>
      ifc (is_target MISTER)
        (ifc enterMenu
           (assign (set_enterMenu false) ;;
            BootKeyboard_release (Named KEY_F12))
           (BootKeyboard_release (Named KEY_F7)))
     (ifc (is_target ASCII)
        (* this case has no [break]: control falls into [default] *)
        (ifc enterMenu
           (assign (set_enterMenu false) ;;
            BootKeyboard_release (Named KEY_LEFT_WINDOWS))
        (ifc (latched 3)
           (unlatch 3 ;; BootKeyboard_release (Named KEY_F8))
           (BootKeyboard_release (Named KEY_F7))) ;;
         BootKeyboard_release (Named KEY_F7))
        (BootKeyboard_release (Named KEY_F7)))
  | 4 =>
      release_ascii_alt 4 (Named KEY_F2) (BootKeyboard_release (Named KEY_F1))
  | 5 =>
      release_ascii_alt 5 (Named KEY_F4) (BootKeyboard_release (Named KEY_F3))
  | 6 =>
      release_ascii_alt 6 (Named KEY_F6) (BootKeyboard_release (Named KEY_F5))
  | 7 =>
      ifc (latched 7)
        (unlatch 7 ;;
         ifc (fun s => pageScr s && is_target ASCII s)
           (assign (set_pageScr false) ;;
            BootKeyboard_release (Named KEY_PAGE_UP) ;;
            (* Restore CTRL if held down *)
            when ctrlPressed (BootKeyboard_press (Named KEY_LEFT_CTRL)))
           (BootKeyboard_release (Named KEY_UP_ARROW)))
        (ifc (fun s => pageScr s && is_target ASCII s)
           (assign (set_pageScr false) ;;
            BootKeyboard_release (Named KEY_PAGE_DOWN) ;;
            (* Restore CTRL if held down *)
            when ctrlPressed (BootKeyboard_press (Named KEY_LEFT_CTRL)))
           (BootKeyboard_release (Named KEY_DOWN_ARROW)))
  | 17 =>
      assign (set_lShifted false) ;;
      BootKeyboard_release (Named KEY_LEFT_SHIFT)
  | 55 => release_ascii_alt 55 (Chr "[") (release_keymap 55)
  | 56 => release_ascii_alt 56 (Chr "{") (release_keymap 56)
  | 60 =>
      ifc (is_target VICE3) (BootKeyboard_release (Named KEY_END))
     (ifc (is_target VICE2_BMC64) (BootKeyboard_release (Named KEY_INSERT))
          (release_keymap 60))
  | 61 => release_ascii_alt 61 (Chr "}") (release_keymap 61)
  | 62 => release_ascii_alt 62 (Chr "]") (release_keymap 62)
  | 63 =>
      ifc (fun s => clrPressed s && is_target ASCII s)
        (assign (set_clrPressed false) ;;
         BootKeyboard_release (Named KEY_END))
        (BootKeyboard_release (Named KEY_HOME))
  | 64 =>
      assign (set_rShifted false) ;;
      BootKeyboard_release (Named KEY_RIGHT_SHIFT)
  | 65 =>
      ifc (is_target VICE3) (BootKeyboard_release (Named KEY_PAGE_DOWN))
     (ifc (is_target MISTER) (BootKeyboard_release (Named KEY_F10))
          (release_keymap 65))
  | 66 =>
      ifc (is_target MISTER) (BootKeyboard_release (Named KEY_F9))
     (ifc (is_target VICE2_BMC64) (BootKeyboard_release (Named KEY_DELETE))
          (release_keymap 66))
  | 68 =>
      ifc (is_target MISTER) (BootKeyboard_release (Named KEY_F11))
     (ifc (is_target ASCII) (BootKeyboard_release (Named KEY_TAB))
          (BootKeyboard_release (Named KEY_PAGE_UP)))
  | 72 =>
      assign (set_ctrlPressed false) ;;
      ifc (fun s => is_target VICE3 s || is_target VICE2_BMC64 s)
        (BootKeyboard_release (Named KEY_TAB))
        (BootKeyboard_release (Named KEY_LEFT_CTRL))
  | 73 => release_ascii_alt 73 (Chr dquote) (release_keymap 73)
  | 75 =>
      assign (set_cmdrPressed false) ;;
      ifc misterOrASCII
        (BootKeyboard_release (Named KEY_LEFT_ALT))
        (BootKeyboard_release (Named KEY_LEFT_CTRL))
  | 77 => BootKeyboard_release (Named KEY_ESC)
  | _ => release_keymap key
  end%char.

(** The end of [release]: restore SHIFTed keyboard state. *)
Definition restore_shift : cmd :=
  when lShifted (BootKeyboard_press (Named KEY_LEFT_SHIFT)) ;;
  when rShifted (BootKeyboard_press (Named KEY_RIGHT_SHIFT)).

Definition release (key : nat) : cmd :=
  release_key key ;; restore_shift.

(** ** [loop] *)

(** What one pass of [loop] reads from the outside world. *)
Record sweep : Type := Sweep {
  (** [digitalRead(pin)] while the given row is driven low; [true] is HIGH *)
  digitalRead : nat -> Z -> bool;
  (** [millis()] at the debounce test of cell (row, col) *)
  millis_cell : nat -> nat -> Z;
  (** [millis()] at the end of a row *)
  millis_row : nat -> Z
}.

(** [unsigned long] and [long] are 32 bits wide on this board. *)
Definition to_ulong (z : Z) : Z := (z mod 2 ^ 32)%Z.
Definition to_long (z : Z) : Z := ((z + 2 ^ 31) mod 2 ^ 32 - 2 ^ 31)%Z.

(** [millis() < lastDebounceTime[thisKey] + debounceDelay]: the sum is a
    [long], converted to [unsigned long] for the comparison. *)
Definition debouncing (now : Z) (s : state) : bool :=
  (to_ulong now <?
   to_ulong (to_long (lastDebounceTime s !!! thisKey s + debounceDelay)))%Z.

Definition key_went_down : cmd :=
  when (fun s => isKeyDown s && negb (lastKeyState s !!! thisKey s))
       (assign (fun s =>
          set_lastKeyState (<[thisKey s := true]> (lastKeyState s)) s) ;;
        reading (fun s => press (thisKey s))).

Definition key_went_up : cmd :=
  when (fun s => negb (isKeyDown s) && lastKeyState s !!! thisKey s)
       (assign (fun s =>
          set_lastKeyState (<[thisKey s := false]> (lastKeyState s)) s) ;;
        reading (fun s => release (thisKey s))).

(** The inner [for] over the columns still to visit; the first branch is
    the [break], the second the [continue]. *)
Fixpoint scan_columns (io : sweep) (row : nat) (cols : list nat) : cmd :=
  match cols with
  | [] => skip
  | col :: rest =>
      assign (set_thisKey (col + row * 10)) ;;
      assign (set_isKeyDown (negb (digitalRead io row (colPinMap !!! col)))) ;;
      ifc (fun s => (thisKey s mod 10 =? 8) && negb (thisKey s =? 68))
        skip
        (ifc (debouncing (millis_cell io row col))
           (scan_columns io row rest)
           (key_went_down ;; key_went_up ;; scan_columns io row rest))
  end.

(** The body of the outer [for]. *)
Definition scan_row (io : sweep) (row : nat) : cmd :=
  call (PinMode (rowPinMap !!! row) OUTPUT) ;;
  call (DigitalWrite (rowPinMap !!! row) false) ;;
  scan_columns io row (seq 0 9) ;;
  assign (fun s =>
    set_lastDebounceTime
      (<[thisKey s := to_long (millis_row io row)]> (lastDebounceTime s)) s) ;;
  call (DigitalWrite (rowPinMap !!! row) true) ;;
  call (Delay 1%Z) ;;
  call (PinMode (rowPinMap !!! row) INPUT_PULLUP).

Fixpoint scan_rows (io : sweep) (rows : list nat) : cmd :=
  match rows with
  | [] => skip
  | row :: rest => scan_row io row ;; scan_rows io rest
  end.

Definition loop (io : sweep) : cmd :=
  assign (set_thisKey 0) ;;
  assign (set_isKeyDown false) ;;
  scan_rows io (seq 0 8).

(** The program after power-on: [setup], then [loop] once per element of
    [ios]. *)
Fixpoint loops (ios : list sweep) : cmd :=
  match ios with
  | [] => skip
  | io :: rest => loop io ;; loops rest
  end.

Definition sketch (led_level : bool) (ios : list sweep) : cmd :=
  setup led_level ;; loops ios.

(** ** Observations on the calls *)

(** The calls that reach the HID keyboard. *)
Definition is_keyboard (e : event) : bool :=
  match e with
  | KbPress _ | KbRelease _ | KbReleaseAll => true
  | _ => false
  end.

Definition keyboard (l : list event) : list event := List.filter is_keyboard l.

(** The stores to the EEPROM. *)
Definition eeprom_writes (l : list event) : list (nat * Z) :=
  omap (fun e => match e with EepromWrite a v => Some (a, v) | _ => None end) l.

(** The host's view of one key: down after a press, up after a release or
    a release of everything. *)
Definition sink_step (x : symbol) (down : bool) (e : event) : bool :=
  match e with
  | KbPress y => if decide (y = x) then true else down
  | KbRelease y => if decide (y = x) then false else down
  | KbReleaseAll => false
  | _ => down
  end.

Definition sink_after (down : bool) (l : list event) (x : symbol) : bool :=
  foldl (sink_step x) down l.





(** ** The key matrix as the pins see it *)

Definition col_of_pin (pin : Z) : option nat :=
  fst <$> list_find (fun p => p = pin) colPinMap.

(** A pass of [loop] over a matrix whose closed positions are given by
    [down], every [millis()] of the pass returning [now]: a column pin reads
    LOW when the cell on the driven row is closed. *)
Definition matrix (down : nat -> bool) (now : Z) : sweep :=
  Sweep
    (fun row pin =>
       match col_of_pin pin with
       | Some col => negb (down (col + row * 10))
       | None => true
       end)
    (fun _ _ => now)
    (fun _ => now).

Definition only (keys : list nat) : nat -> bool :=
  fun k => bool_decide (k ∈ keys).

(** What [key] reads in a pass. *)
Definition reads_down (io : sweep) (row col : nat) : bool :=
  negb (digitalRead io row (colPinMap !!! col)).

(** A pass over the matrix [down] that begins at [t0] milliseconds and
    reads each row one millisecond after the row before it: the time of
    the [delay(1)] that ends every row. *)
Definition timed (down : nat -> bool) (t0 : Z) : sweep :=
  Sweep (digitalRead (matrix down 0))
        (fun row _ => (t0 + Z.of_nat row)%Z)
        (fun row => (t0 + Z.of_nat row)%Z).

(** ** The clock

    [millis()] counts the milliseconds since power-on, and [delay(ms)]
    returns no sooner than [ms] milliseconds later.  [clock_reads] lists
    the readings of [millis()] that a pass takes, in the order in which
    [loop] takes them, each with the time that [loop] itself then spends in
    [delay] before the next reading: none after the test of a cell, 1 ms
    after the reading that ends a row.  Column 8 is tested on the row of
    RESTORE only.  A dispatch that calls [delay] only makes the next
    reading later still. *)
Definition clock_reads (io : sweep) : list (Z * Z) :=
  row ← seq 0 8;
  ((fun col => (millis_cell io row col, 0%Z))
     <$> seq 0 (if row =? 6 then 9 else 8))
  ++ [(millis_row io row, 1%Z)].

(** The readings are possible for a clock that is at [t] or later when the
    first of them is taken. *)
Fixpoint ticks (t : Z) (reads : list (Z * Z)) : bool :=
  match reads with
  | [] => true
  | (now, wait) :: rest => (t <=? now)%Z && ticks (now + wait) rest
  end.

Definition clocked (t : Z) (ios : list sweep) : bool :=
  ticks t (ios ≫= clock_reads).

(** No key is down in a pass: every column pin reads HIGH on every row. *)
Definition untouched (io : sweep) : Prop :=
  forall row pin, digitalRead io row pin = true.

(** A pass ends before [millis()] rolls over. *)
Definition before_rollover (io : sweep) : Prop := (millis_row io 7 < 2 ^ 32)%Z.

(** ** Notions used by the statements *)

(** The target after the rotation of Commodore+F1, as the documentation
    states it: reset with Ctrl, backward with Shift, forward otherwise. *)
Definition next_target (s : state) : Z :=
  if ctrlPressed s then 1%Z
  else if shiftedKey s
       then (if (target s =? 1)%Z then MAXTARGETS else target s - 1)%Z
       else (if (target s =? MAXTARGETS)%Z then 1 else target s + 1)%Z.

Definition valid_target (t : Z) : Prop := (1 <= t <= MAXTARGETS)%Z.


(** No latch that the release of [key] reads is set. *)
Definition latches_clear (key : nat) (s : state) : bool :=
  negb (shifted s !!! key)
  && (if key =? 3 then negb (enterMenu s) else true)
  && (if key =? 7 then negb (pageScr s) else true)
  && (if key =? 63 then negb (clrPressed s) else true).

(** [s2] has the target, the table and the latches of [key] that [s1] has:
    [shifted[key]], and the one of [enterMenu], [pageScr] and [clrPressed]
    that the release of [key] reads, if it reads one.  The modifier flags,
    the latches of the other positions and everything else may differ. *)
Definition kept_for (key : nat) (s1 s2 : state) : Prop :=
  target s2 = target s1 /\ keymap s2 = keymap s1 /\
  shifted s2 !!! key = shifted s1 !!! key /\
  (if key =? 3 then enterMenu s2 = enterMenu s1 else True) /\
  (if key =? 7 then pageScr s2 = pageScr s1 else True) /\
  (if key =? 63 then clrPressed s2 = clrPressed s1 else True).

(** The globals when the tests of cell (row, col) are made. *)
Definition visited (io : sweep) (row col : nat) (s : state) : state :=
  set_isKeyDown (negb (digitalRead io row (colPinMap !!! col)))
    (set_thisKey (col + row * 10) s).

(** The column-8 filter at the current position. *)
Definition filtered (s : state) : bool :=
  (thisKey s mod 10 =? 8) && negb (thisKey s =? 68).

(** A command that leaves an observation of the globals as it was. *)
Definition keeps {A : Type} (f : state -> A) (c : cmd) : Prop :=
  forall s, f (run c s) = f s.

(** What the scan itself keeps track of. *)
Definition scan_view (s : state) : nat * bool * list bool * list Z :=
  (thisKey s, isKeyDown s, lastKeyState s, lastDebounceTime s).

(** In a pass, columns 0 to 7 of a row read what [lks] already records. *)
Definition unchanged_row (io : sweep) (row : nat) (lks : list bool) : Prop :=
  forall col, col < 8 -> reads_down io row col = lks !!! (col + row * 10).

(** The positions that a pass dispatches: columns 0 to 7 of the eight rows,
    and RESTORE. *)
Definition scanned (key : nat) : bool :=
  (key <? 80) && ((key mod 10 <? 8) || (key =? 68)).

(** The last value that a list of assignments gives to a cell, if any. *)
Definition assigned (l : list (nat * symbol)) (k : nat) : option symbol :=
  foldl (fun o kv => if fst kv =? k then Some (snd kv) else o) None l.

(** The table of a target over an array that was never written. *)
Definition table (t : Z) : list symbol :=
  store_all (target_assignments t)
    (store_all base_assignments (replicate 80 (Chr zero))).

(** [keymap] is the table that [setKeymap] builds for the current target. *)
Definition table_built (s : state) : Prop :=
  keymap (run setKeymap s) = keymap s.

(** The configuration: the target, its table and the EEPROM. *)
Definition config_view (s : state) : Z * list symbol * list Z :=
  (target s, keymap s, eeprom s).

(** The modifier flags. *)
Definition modifier_view (s : state) : bool * bool * bool * bool :=
  (lShifted s, rShifted s, ctrlPressed s, cmdrPressed s).

(** A command that, run in a state where [I] holds, leaves [I] holding and
    makes only calls that satisfy [E]. *)
Definition respects (I : state -> Prop) (E : event -> Prop) (c : cmd) : Prop :=
  forall s, I s -> I (run c s) /\ Forall E (calls c s).

(** The keyboard is not given the value of a key macro as a character. *)
Definition no_raw (e : event) : bool :=
  match e with
  | KbPress (Raw _) | KbRelease (Raw _) => false
  | _ => true
  end.

(** The configuration is consistent: the target is one of the four, slot 0
    of the EEPROM holds it, and [keymap] is its table. *)
Definition synced (s : state) : Prop :=
  valid_target (target s) /\ 0 < length (eeprom s) /\
  eeprom s !!! 0 = target s /\ length (keymap s) = 80 /\ table_built s.

(** Everything but the bookkeeping of the scan ([thisKey], [isKeyDown] and
    the debounce stamps). *)
Definition outside_scan (s : state) :=
  (modifier_view s, (enterMenu s, pageScr s, clrPressed s),
   (lastKeyState s, shifted s), config_view s, activeLED s).

(** The milliseconds that a sequence of calls spends in [delay]. *)
Definition total_delay (l : list event) : Z :=
  foldr (fun e acc => match e with Delay ms => (ms + acc)%Z | _ => acc end)
    0%Z l.

(** The number of times a sequence of calls drives a pin LOW. *)
Definition low_writes (l : list event) : nat :=
  length (List.filter
            (fun e => match e with DigitalWrite _ false => true | _ => false end)
            l).

(** What the scan calls for a position that went down or up. *)
Definition dispatch (down : bool) (key : nat) : cmd :=
  if down then press key else release key.

(** In a pass, a cell of columns 0 to 7 reads what [lks] records for it. *)
Definition cell_unchanged (io : sweep) (lks : list bool) (row col : nat) : Prop :=
  reads_down io row col = lks !!! (col + row * 10).

(** A [delay] is given no negative time. *)
Definition delay_ok (e : event) : Prop :=
  match e with
  | Delay ms => (0 <= ms)%Z
  | _ => True
  end.

(** A command that never stores to the EEPROM. *)
Definition no_store (c : cmd) : Prop :=
  forall s, eeprom_writes (calls c s) = [].

(** A command stores to the EEPROM only if it changes the target. *)
Definition writes_only_on_change (c : cmd) (s : state) : Prop :=
  target (run c s) = target s -> eeprom_writes (calls c s) = [].

(** The debounce stamps are behind a clock that is at [t]: the stamps
    outside column 8 are 0, and the stamp of RESTORE is a reading of the
    clock that was taken at [t] or before. *)
Definition stamps_behind (t : Z) (s : state) : Prop :=
  length (lastDebounceTime s) = 80
  /\ (forall k, k < 80 -> k mod 10 <> 8 -> lastDebounceTime s !!! k = 0%Z)
  /\ exists t68, (0 <= t68 <= t)%Z /\ lastDebounceTime s !!! 68 = to_long t68.

(** A pass dispatches the press of F1 with Commodore held: F1 is read
    down, is recorded as up and is not being debounced, and the Commodore
    flag is set. *)
Definition cycle_trigger (io : sweep) (s : state) : bool :=
  reads_down io 0 4 && negb (lastKeyState s !!! 4) && cmdrPressed s
  && negb (debouncing (millis_cell io 0 4) (set_thisKey 4 s)).

(** An erased EEPROM, and one whose slot 0 holds [t]. *)
Definition blank_rom : list Z := replicate 1024 255%Z.
Definition rom_with (t : Z) : list Z := <[0 := t]> blank_rom.

(** The state in which [loop] first runs, for a stored target [t] and no
    external LED. *)
Definition booted (t : Z) : state := run (setup true) (power_on (rom_with t)).

(** ** Laws of the commands *)

Lemma run_andThen (a b : cmd) s : run (a ;; b) s = run b (run a s).
Proof. reflexivity. Qed.

Lemma calls_andThen (a b : cmd) s :
  calls (a ;; b) s = calls a s ++ calls b (run a s).
Proof. reflexivity. Qed.

Lemma run_ifc c a b s : run (ifc c a b) s = if c s then run a s else run b s.
Proof. unfold run, ifc. destruct (c s); reflexivity. Qed.

Lemma calls_ifc c a b s :
  calls (ifc c a b) s = if c s then calls a s else calls b s.
Proof. unfold calls, ifc. destruct (c s); reflexivity. Qed.

Lemma run_when c a s : run (when c a) s = if c s then run a s else s.
Proof. unfold when. rewrite run_ifc. reflexivity. Qed.

Lemma calls_when c a s : calls (when c a) s = if c s then calls a s else [].
Proof. unfold when. rewrite calls_ifc. reflexivity. Qed.

Lemma run_call e s : run (call e) s = s.
Proof. reflexivity. Qed.

Lemma calls_call e s : calls (call e) s = [e].
Proof. reflexivity. Qed.

Lemma run_assign f s : run (assign f) s = f s.
Proof. reflexivity. Qed.

Lemma calls_assign f s : calls (assign f) s = [].
Proof. reflexivity. Qed.

Lemma run_reading f s : run (reading f) s = run (f s) s.
Proof. reflexivity. Qed.

Lemma calls_reading f s : calls (reading f) s = calls (f s) s.
Proof. reflexivity. Qed.

Lemma run_skip s : run skip s = s.
Proof. reflexivity. Qed.

Lemma calls_skip s : calls skip s = [].
Proof. reflexivity. Qed.

Lemma cmd_eta (c : cmd) s : c s = (run c s, calls c s).
Proof. unfold run, calls. destruct (c s); reflexivity. Qed.

Lemma keyboard_app l1 l2 : keyboard (l1 ++ l2) = keyboard l1 ++ keyboard l2.
Proof. apply List.filter_app. Qed.

Lemma eeprom_writes_app l1 l2 :
  eeprom_writes (l1 ++ l2) = eeprom_writes l1 ++ eeprom_writes l2.
Proof. apply omap_app. Qed.

Lemma sink_after_app down l1 l2 x :
  sink_after down (l1 ++ l2) x = sink_after (sink_after down l1 x) l2 x.
Proof. apply foldl_app. Qed.

(** ** Tactics *)

Ltac split_ifs :=
  repeat (cbn; match goal with
               | |- context [if ?b then _ else _] => destruct b eqn:?
               end); cbn.

Ltac unfold_cmds :=
  unfold release, release_key, release_digit, release_ascii_alt,
    release_keymap, press, press_digit, press_ascii_alt,
    press_ascii_unshifted, press_keymap, restore_shift, unshift, latch,
    unlatch, latched, is_target, misterOrASCII, shiftedKey,
    BootKeyboard_press, BootKeyboard_release, BootKeyboard_releaseAll,
    run, calls, andThen, when, ifc, call, assign, reading, skip.

(** ** The LED *)

Lemma blink_once_run s : run blink_once s = s.
Proof. unfold blink_once. unfold_cmds. split_ifs; reflexivity. Qed.

Lemma times_fixed n (c : cmd) s :
  run c s = s ->
  run (times n c) s = s /\ calls (times n c) s = mjoin (replicate n (calls c s)).
Proof.
  intros Hc. induction n as [|n [IHr IHc]]; simpl.
  - split; reflexivity.
  - rewrite run_andThen, calls_andThen, Hc.
    split; [exact IHr | now rewrite IHc].
Qed.

Lemma blinkLED_run n s : run (blinkLED n) s = s.
Proof. unfold blinkLED; simpl. apply times_fixed, blink_once_run. Qed.

Lemma blinkLED_calls n s :
  calls (blinkLED n) s = mjoin (replicate (Z.to_nat n) (calls blink_once s)).
Proof. unfold blinkLED; simpl. apply times_fixed, blink_once_run. Qed.

Lemma blink_once_calls_led s s' :
  activeLED s' = activeLED s -> calls blink_once s' = calls blink_once s.
Proof.
  destruct s, s'; cbn; intros ->.
  unfold blink_once. unfold_cmds. split_ifs; congruence.
Qed.

(** ** Target rotation *)

Lemma rotate_target_run s :
  valid_target (target s) ->
  run rotate_target s = set_target (next_target s) s.
Proof.
  unfold valid_target, MAXTARGETS. intros Ht.
  unfold rotate_target, next_target, MAXTARGETS.
  rewrite run_ifc. destruct (ctrlPressed s); [reflexivity|].
  rewrite run_ifc. destruct (shiftedKey s).
  - rewrite run_andThen, run_when, !run_assign. cbn [target set_target].
    destruct (Z.eqb_spec (target s) 1) as [->|Hne]; [reflexivity|].
    destruct (Z.ltb_spec (target s - 1) 1); [lia|reflexivity].
  - rewrite run_andThen, run_when, !run_assign. cbn [target set_target].
    destruct (Z.eqb_spec (target s) 4) as [->|Hne]; [reflexivity|].
    destruct (Z.ltb_spec 4 (target s + 1)); [lia|reflexivity].
Qed.

Lemma rotate_target_calls s : calls rotate_target s = [].
Proof. unfold rotate_target. unfold_cmds. split_ifs; reflexivity. Qed.

Lemma next_target_valid s : valid_target (target s) -> valid_target (next_target s).
Proof.
  unfold valid_target, next_target, MAXTARGETS. intros Ht.
  destruct (ctrlPressed s); [lia|].
  destruct (shiftedKey s).
  - destruct (Z.eqb_spec (target s) 1); lia.
  - destruct (Z.eqb_spec (target s) 4); lia.
Qed.

Lemma press_F1_commodore s :
  cmdrPressed s = true -> press 4 s = cycle_target s.
Proof. intros H. unfold press, ifc. rewrite H. reflexivity. Qed.

Lemma cycle_target_run s :
  valid_target (target s) ->
  run cycle_target s =
  run setKeymap
    (set_eeprom (<[0 := next_target s]> (eeprom s))
       (set_target (next_target s) s)).
Proof.
  intros Ht. unfold cycle_target.
  rewrite !run_andThen, rotate_target_run by assumption.
  rewrite run_reading, blinkLED_run.
  pose proof (next_target_valid s Ht) as Hv.
  unfold valid_target, MAXTARGETS in Hv.
  unfold EEPROM_write, BootKeyboard_releaseAll, run at 2 3; cbn.
  rewrite Z.mod_small by lia. reflexivity.
Qed.

Lemma cycle_target_calls s :
  valid_target (target s) ->
  calls cycle_target s =
  [EepromWrite 0 (next_target s); KbReleaseAll]
  ++ mjoin (replicate (Z.to_nat (next_target s)) (calls blink_once s)).
Proof.
  intros Ht. unfold cycle_target.
  pose proof (next_target_valid s Ht) as Hv.
  unfold valid_target, MAXTARGETS in Hv.
  rewrite !calls_andThen, ?run_andThen, rotate_target_calls,
    rotate_target_run by assumption.
  rewrite calls_reading, blinkLED_calls.
  rewrite (blink_once_calls_led s) by reflexivity.
  unfold EEPROM_write, BootKeyboard_releaseAll, setKeymap, calls at 1 2 3,
    run at 1 2 3 4; cbn -[calls].
  rewrite Z.mod_small by lia. reflexivity.
Qed.

(** C6.  Pressing F1 (position 4) while Commodore is held moves the target
    as follows: to 1 if Ctrl is held; otherwise one down if a Shift is held,
    from 1 to 4; otherwise one up, from 4 to 1. *)
Theorem target_cycling s :
  cmdrPressed s = true ->
  valid_target (target s) ->
  target (run (press 4) s) =
    (if ctrlPressed s then 1
     else if lShifted s || rShifted s
          then (if target s =? 1 then 4 else target s - 1)
          else (if target s =? 4 then 1 else target s + 1))%Z
  /\ valid_target (target (run (press 4) s)).
Proof.
  intros Hc Ht. unfold run at 1 2. rewrite press_F1_commodore by assumption.
  fold (run cycle_target s). rewrite cycle_target_run by assumption.
  cbn. split; [reflexivity|]. apply next_target_valid, Ht.
Qed.

Lemma target_cycling_witness :
  let s := set_cmdrPressed true (booted 4) in
  cmdrPressed s = true /\ valid_target (target s) /\
  target (run (press 4) s) = 1%Z.
Proof.
  assert (Hv : valid_target (target (set_cmdrPressed true (booted 4))))
    by (vm_compute; split; discriminate).
  split; [reflexivity | split; [exact Hv |]].
  exact (proj1 (target_cycling (set_cmdrPressed true (booted 4)) eq_refl Hv)).
Defined.

(** ** Stores to the EEPROM *)

Lemma no_store_skip : no_store skip.
Proof. intros s. reflexivity. Qed.

Lemma no_store_assign f : no_store (assign f).
Proof. intros s. reflexivity. Qed.

Lemma no_store_andThen a b : no_store a -> no_store b -> no_store (a ;; b).
Proof.
  intros Ha Hb s. rewrite calls_andThen, eeprom_writes_app, Ha, Hb.
  reflexivity.
Qed.

Lemma no_store_ifc c a b : no_store a -> no_store b -> no_store (ifc c a b).
Proof. intros Ha Hb s. rewrite calls_ifc. destruct (c s); auto. Qed.

Lemma no_store_when c a : no_store a -> no_store (when c a).
Proof. intros Ha. apply no_store_ifc; [assumption | apply no_store_skip]. Qed.

Lemma no_store_reading f : (forall s, no_store (f s)) -> no_store (reading f).
Proof. intros Hf s. rewrite calls_reading. apply Hf. Qed.

Lemma no_store_times n c : no_store c -> no_store (times n c).
Proof.
  intros Hc. induction n; simpl;
    [apply no_store_skip | now apply no_store_andThen].
Qed.

Lemma no_store_KbPress x : no_store (BootKeyboard_press x).
Proof. intros s. reflexivity. Qed.

Lemma no_store_KbRelease x : no_store (BootKeyboard_release x).
Proof. intros s. reflexivity. Qed.

Lemma no_store_KbReleaseAll : no_store BootKeyboard_releaseAll.
Proof. intros s. reflexivity. Qed.

Lemma no_store_Delay ms : no_store (call (Delay ms)).
Proof. intros s. reflexivity. Qed.

Lemma no_store_PinMode p m : no_store (call (PinMode p m)).
Proof. intros s. reflexivity. Qed.

Lemma no_store_DigitalWrite p l : no_store (call (DigitalWrite p l)).
Proof. intros s. reflexivity. Qed.

Lemma no_store_KbBegin : no_store (call KbBegin).
Proof. intros s. reflexivity. Qed.

Lemma no_store_setKeymap : no_store setKeymap.
Proof. intros s. reflexivity. Qed.

Ltac no_store_tac :=
  unfold press, press_digit, press_ascii_alt, press_ascii_unshifted,
    press_keymap, release, release_key, release_digit, release_ascii_alt,
    release_keymap, restore_shift, unshift, latch, unlatch, blinkLED,
    blink_once, allowBlink;
  cbv beta iota;
  repeat first
    [ apply no_store_setKeymap | apply no_store_andThen | apply no_store_ifc | apply no_store_when
    | apply no_store_reading; intro | apply no_store_times
    | apply no_store_skip | apply no_store_assign | apply no_store_KbPress
    | apply no_store_KbRelease | apply no_store_KbReleaseAll
    | apply no_store_Delay | apply no_store_PinMode
    | apply no_store_DigitalWrite | apply no_store_KbBegin ].

Lemma no_store_blinkLED n : no_store (blinkLED n).
Proof. no_store_tac. Qed.

Lemma no_store_release key : no_store (release key).
Proof.
  do 78 (destruct key as [|key]; [no_store_tac|]). no_store_tac.
Qed.

Lemma no_store_press key : key <> 4 -> no_store (press key).
Proof.
  intros Hne.
  do 4 (destruct key as [|key]; [no_store_tac|]).
  destruct key as [|key]; [congruence|].
  do 73 (destruct key as [|key]; [no_store_tac|]). no_store_tac.
Qed.

Lemma no_store_press_F1 s :
  cmdrPressed s = false -> eeprom_writes (calls (press 4) s) = [].
Proof.
  intros Hc. unfold press. rewrite calls_ifc, Hc.
  revert s Hc. 
  assert (H : no_store (press_ascii_unshifted 4 (Named KEY_F2)
           (BootKeyboard_press (Named KEY_F1)))) by no_store_tac.
  intros s _. apply H.
Qed.

Lemma cycle_target_stores s :
  eeprom_writes (calls cycle_target s)
  = [(0, (target (run cycle_target s) mod 256)%Z)].
Proof.
  unfold cycle_target.
  rewrite !calls_andThen, !eeprom_writes_app, !run_andThen.
  rewrite rotate_target_calls.
  rewrite calls_reading, run_reading, blinkLED_run.
  rewrite (no_store_blinkLED _ _).
  reflexivity.
Qed.

Lemma scan_columns_cons io row col rest s :
  scan_columns io row (col :: rest) s =
  (if filtered (visited io row col s) then (visited io row col s, [])
   else if debouncing (millis_cell io row col) (visited io row col s)
        then scan_columns io row rest (visited io row col s)
        else (key_went_down ;; key_went_up ;; scan_columns io row rest)
               (visited io row col s)).
Proof.
  cbn [scan_columns]. unfold andThen at 1 2, assign, ifc, skip.
  cbn [fst snd app]. fold (visited io row col s).
  fold (filtered (visited io row col s)).
  destruct (filtered _); [reflexivity|].
  destruct (debouncing _ _); symmetry; apply surjective_pairing.
Qed.

Lemma visited_thisKey io row col s :
  thisKey (visited io row col s) = col + row * 10.
Proof. reflexivity. Qed.

Lemma visited_isKeyDown io row col s :
  isKeyDown (visited io row col s) = reads_down io row col.
Proof. reflexivity. Qed.

(** ** Startup *)

Lemma setup_pins_no_store led : no_store (setup_pins led).
Proof. destruct led; unfold setup_pins; no_store_tac. Qed.

Lemma setup_pins_eeprom led s : eeprom (run (setup_pins led) s) = eeprom s.
Proof. destruct led; reflexivity. Qed.

Lemma load_target_valid s b :
  eeprom s !!! 0 = b -> valid_target b ->
  run load_target s = set_target b s /\ calls load_target s = [].
Proof.
  unfold valid_target, MAXTARGETS. intros <- Hv. unfold load_target, MAXTARGETS.
  rewrite run_andThen, calls_andThen, run_when, calls_when, run_assign,
    calls_assign. cbn [target set_target].
  destruct (Z.ltb_spec (eeprom s !!! 0) 1); [lia|].
  destruct (Z.ltb_spec 4 (eeprom s !!! 0)); [lia|].
  split; reflexivity.
Qed.

Lemma load_target_invalid s b :
  eeprom s !!! 0 = b -> ~ valid_target b ->
  run load_target s = set_eeprom (<[0 := 1%Z]> (eeprom s)) (set_target 1%Z s)
  /\ calls load_target s = [EepromWrite 0 1%Z].
Proof.
  unfold valid_target, MAXTARGETS. intros <- Hv. unfold load_target, MAXTARGETS.
  rewrite run_andThen, calls_andThen, run_when, calls_when, run_assign,
    calls_assign. cbn [target set_target].
  destruct (Z.ltb_spec (eeprom s !!! 0) 1);
    [split; reflexivity|].
  destruct (Z.ltb_spec 4 (eeprom s !!! 0)); [split; reflexivity | lia].
Qed.

Lemma setup_tail_run s :
  run (setKeymap ;; call (Delay LED_START_DELAY) ;;
       reading (fun s => blinkLED (target s))) s = run setKeymap s.
Proof. rewrite !run_andThen, run_reading, blinkLED_run. reflexivity. Qed.

Lemma setup_tail_no_store :
  no_store (setKeymap ;; call (Delay LED_START_DELAY) ;;
            reading (fun s => blinkLED (target s))).
Proof.
  apply no_store_andThen; [apply no_store_setKeymap|].
  apply no_store_andThen; [apply no_store_Delay|].
  apply no_store_reading; intro; apply no_store_blinkLED.
Qed.

Lemma setup_valid led s b :
  eeprom s !!! 0 = b -> valid_target b ->
  target (run (setup led) s) = b /\ eeprom (run (setup led) s) = eeprom s
  /\ eeprom_writes (calls (setup led) s) = [].
Proof.
  intros Hb Hv. unfold setup.
  rewrite <- (setup_pins_eeprom led) in Hb.
  destruct (load_target_valid _ _ Hb Hv) as [Hr Hc].
  rewrite run_andThen, run_andThen, setup_tail_run, Hr.
  rewrite calls_andThen, calls_andThen, !eeprom_writes_app, Hc,
    (setup_pins_no_store led s), (setup_tail_no_store _).
  repeat split.
  change (eeprom (run (setup_pins led) s) = eeprom s).
  apply setup_pins_eeprom.
Qed.

Lemma setup_invalid led s b :
  eeprom s !!! 0 = b -> ~ valid_target b ->
  target (run (setup led) s) = 1%Z
  /\ eeprom (run (setup led) s) = <[0 := 1%Z]> (eeprom s)
  /\ eeprom_writes (calls (setup led) s) = [(0, 1%Z)].
Proof.
  intros Hb Hv. unfold setup.
  rewrite <- (setup_pins_eeprom led) in Hb.
  destruct (load_target_invalid _ _ Hb Hv) as [Hr Hc].
  rewrite run_andThen, run_andThen, setup_tail_run, Hr.
  rewrite calls_andThen, calls_andThen, !eeprom_writes_app, Hc,
    (setup_pins_no_store led s), (setup_tail_no_store _).
  repeat split.
  change (<[0 := 1%Z]> (eeprom (run (setup_pins led) s))
          = <[0 := 1%Z]> (eeprom s)).
  now rewrite setup_pins_eeprom.
Qed.

(** C9.  [setup] takes the target from slot 0 of the EEPROM.  A value from
    1 to 4 is used as it is and nothing is stored; any other byte makes the
    target 1, and 1 is stored in slot 0 at once.  Hence a target that was
    stored is the target after the next power-on. *)
Theorem startup_target led s b :
  eeprom s !! 0 = Some b ->
  (0 <= b < 256)%Z ->
  let s' := run (setup led) s in
  (valid_target b ->
     target s' = b /\ eeprom s' = eeprom s
     /\ eeprom_writes (calls (setup led) s) = [])
  /\ (~ valid_target b ->
        target s' = 1%Z /\ eeprom s' = <[0 := 1%Z]> (eeprom s)
        /\ eeprom_writes (calls (setup led) s) = [(0, 1%Z)])
  /\ (forall n, valid_target n ->
        target (run (setup led)
                  (power_on (eeprom (run (EEPROM_write 0 (fun _ => n)) s))))
        = n).
Proof.
  intros Hb Hr. apply list_lookup_total_correct in Hb as Hb'.
  cbv zeta. split; [|split].
  - intros Hv. exact (setup_valid led s b Hb' Hv).
  - intros Hv. exact (setup_invalid led s b Hb' Hv).
  - intros n Hn. apply (setup_valid led _ n); [|assumption].
    unfold valid_target, MAXTARGETS in Hn.
    change (<[0 := (n mod 256)%Z]> (eeprom s) !!! 0 = n).
    rewrite Z.mod_small by lia.
    apply list_lookup_total_insert_eq.
    apply lookup_lt_Some in Hb. exact Hb.
Qed.

Lemma startup_target_witness :
  let s := power_on blank_rom in
  eeprom s !! 0 = Some 255%Z /\ (0 <= 255 < 256)%Z /\
  target (run (setup true) s) = 1%Z /\
  eeprom (run (setup true) s) !! 0 = Some 1%Z /\
  target (run (setup true) (power_on (rom_with 3))) = 3%Z.
Proof.
  assert (Hb : eeprom (power_on blank_rom) !! 0 = Some 255%Z) by reflexivity.
  assert (Hr : (0 <= 255 < 256)%Z) by lia.
  pose proof (startup_target true (power_on blank_rom) 255%Z Hb Hr) as H.
  cbv zeta in H. destruct H as (_ & Hbad & Hrt).
  assert (Hn : ~ valid_target 255) by (unfold valid_target, MAXTARGETS; lia).
  destruct (Hbad Hn) as (Ht & He & _).
  split; [exact Hb | split; [exact Hr | split; [exact Ht | split]]].
  - rewrite He. reflexivity.
  - apply (Hrt 3%Z). unfold valid_target, MAXTARGETS. lia.
Defined.

(** ** Shift restoration *)

Lemma restore_shift_run s : run restore_shift s = s.
Proof. unfold restore_shift. unfold_cmds. split_ifs; reflexivity. Qed.

Lemma restore_shift_calls s :
  calls restore_shift s =
  (if lShifted s then [KbPress (Named KEY_LEFT_SHIFT)] else [])
  ++ (if rShifted s then [KbPress (Named KEY_RIGHT_SHIFT)] else []).
Proof. unfold restore_shift. unfold_cmds. split_ifs; reflexivity. Qed.

(** The switch of [release] never leaves a Shift down at the host that is
    not held on the keyboard. *)
Lemma release_key_left_shift key s dn :
  (dn = true -> lShifted s = true) ->
  sink_after dn (calls (release_key key) s) (Named KEY_LEFT_SHIFT) = true ->
  lShifted (run (release_key key) s) = true.
Proof.
  intros Hinv. destruct s. cbn in Hinv. unfold sink_after.
  do 78 (destruct key as [|key];
         [unfold_cmds; split_ifs; try congruence; auto |]).
  unfold_cmds; split_ifs; try congruence; auto.
Qed.

Lemma release_key_right_shift key s dn :
  (dn = true -> rShifted s = true) ->
  sink_after dn (calls (release_key key) s) (Named KEY_RIGHT_SHIFT) = true ->
  rShifted (run (release_key key) s) = true.
Proof.
  intros Hinv. destruct s. cbn in Hinv. unfold sink_after.
  do 78 (destruct key as [|key];
         [unfold_cmds; split_ifs; try congruence; auto |]).
  unfold_cmds; split_ifs; try congruence; auto.
Qed.

(** C3.  Every release, of any key, ends with a press of the left Shift
    key if [lShifted] is set and a press of the right Shift key if
    [rShifted] is set.  So, provided no Shift was down at the host without
    being held, after the release each Shift key is down at the host
    exactly if it is held. *)
Theorem release_restores_shift key s ldown rdown :
  (ldown = true -> lShifted s = true) ->
  (rdown = true -> rShifted s = true) ->
  let s' := run (release key) s in
  calls (release key) s =
    calls (release_key key) s
    ++ (if lShifted s' then [KbPress (Named KEY_LEFT_SHIFT)] else [])
    ++ (if rShifted s' then [KbPress (Named KEY_RIGHT_SHIFT)] else [])
  /\ sink_after ldown (calls (release key) s) (Named KEY_LEFT_SHIFT)
     = lShifted s'
  /\ sink_after rdown (calls (release key) s) (Named KEY_RIGHT_SHIFT)
     = rShifted s'.
Proof.
  intros Hl Hr. cbv zeta. unfold release.
  rewrite run_andThen, calls_andThen, restore_shift_run, restore_shift_calls.
  split; [reflexivity|].
  pose proof (release_key_left_shift key s ldown Hl) as HL.
  pose proof (release_key_right_shift key s rdown Hr) as HR.
  rewrite !sink_after_app.
  destruct (lShifted (run (release_key key) s)),
           (rShifted (run (release_key key) s)); cbn;
    repeat match goal with
    | |- context [sink_after ?d ?l ?x] => destruct (sink_after d l x)
    end; cbn; split; auto; try reflexivity;
    try (symmetry; auto).
Qed.

Lemma release_restores_shift_witness :
  let s := run (press 17 ;; press 43) (booted 1) in
  let ldown :=
    sink_after false (calls (press 17 ;; press 43) (booted 1))
      (Named KEY_LEFT_SHIFT) in
  (ldown = true -> lShifted s = true) /\
  (false = true -> rShifted s = true) /\
  calls (press 17 ;; press 43) (booted 1)
  = [KbPress (Named KEY_LEFT_SHIFT); KbRelease (Named KEY_LEFT_SHIFT);
     KbPress (Chr "0")] /\
  calls (release 43) s = [KbRelease (Chr "0"); KbPress (Named KEY_LEFT_SHIFT)] /\
  sink_after ldown (calls (release 43) s) (Named KEY_LEFT_SHIFT) = true.
Proof.
  cbv zeta.
  assert (Hl : sink_after false (calls (press 17 ;; press 43) (booted 1))
                 (Named KEY_LEFT_SHIFT) = true ->
               lShifted (run (press 17 ;; press 43) (booted 1)) = true)
    by (intros _; reflexivity).
  assert (Hr : false = true ->
               rShifted (run (press 17 ;; press 43) (booted 1)) = true)
    by discriminate.
  pose proof (release_restores_shift 43 _ _ _ Hl Hr) as (Hc & Hs & _).
  split; [exact Hl | split; [exact Hr | split; [reflexivity | split]]].
  - exact Hc.
  - exact Hs.
Defined.

(** ** The menu key *)

(** C4, as the program has it.  With Commodore held, a press of F7
    (position 3) calls, on MiSTer: release Alt, [delay(25)], press F12,
    [delay(25)], press Alt; on ASCII: release Alt, press Left Windows.  Both
    set [enterMenu].  The release that follows, on MiSTer, releases F12 and
    then only restores the Shift keys; on ASCII it releases Left Windows and
    then also releases F7, the literal key, before restoring the Shift
    keys. *)
Theorem menu_key_sequence s :
  cmdrPressed s = true ->
  (target s = MISTER ->
     calls (press 3) s
     = [KbRelease (Named KEY_LEFT_ALT); Delay 25; KbPress (Named KEY_F12);
        Delay 25; KbPress (Named KEY_LEFT_ALT)]
     /\ enterMenu (run (press 3) s) = true
     /\ forall s', target s' = MISTER -> enterMenu s' = true ->
          calls (release 3) s'
          = KbRelease (Named KEY_F12) :: calls restore_shift s'
          /\ enterMenu (run (release 3) s') = false)
  /\ (target s = ASCII ->
        calls (press 3) s
        = [KbRelease (Named KEY_LEFT_ALT); KbPress (Named KEY_LEFT_WINDOWS)]
        /\ enterMenu (run (press 3) s) = true
        /\ forall s', target s' = ASCII -> enterMenu s' = true ->
             calls (release 3) s'
             = [KbRelease (Named KEY_LEFT_WINDOWS); KbRelease (Named KEY_F7)]
               ++ calls restore_shift s'
             /\ enterMenu (run (release 3) s') = false).
Proof.
  intros Hc. destruct s; cbn in Hc; subst.
  split; cbn [target]; intros ->.
  - split; [reflexivity | split; [reflexivity |]].
    intros [] Ht He; cbn in Ht, He; subst.
    unfold_cmds; split_ifs; split; reflexivity.
  - split; [reflexivity | split; [reflexivity |]].
    intros [] Ht He; cbn in Ht, He; subst.
    unfold_cmds; split_ifs; split; reflexivity.
Qed.

Lemma menu_key_sequence_witness :
  let s := run (press 75) (booted 1) in
  cmdrPressed s = true /\ target s = ASCII /\
  calls (press 3 ;; release 3) s
  = [KbRelease (Named KEY_LEFT_ALT); KbPress (Named KEY_LEFT_WINDOWS);
     KbRelease (Named KEY_LEFT_WINDOWS); KbRelease (Named KEY_F7)].
Proof.
  cbv zeta.
  pose proof (menu_key_sequence (run (press 75) (booted 1)) eq_refl) as [_ H].
  destruct (H eq_refl) as (Hp & Hm & Hrel).
  destruct (Hrel (run (press 3) (run (press 75) (booted 1))) eq_refl Hm)
    as [Hr _].
  split; [reflexivity | split; [reflexivity |]].
  rewrite calls_andThen, Hp, Hr. reflexivity.
Defined.

(** ** Press and release of one position *)

Lemma mjoin_replicate_keyboard n l :
  keyboard l = [] -> keyboard (mjoin (replicate n l)) = [].
Proof.
  intros Hl. induction n as [|n IH]; [reflexivity|].
  simpl. now rewrite keyboard_app, Hl, IH.
Qed.

Lemma blinkLED_keyboard n s : keyboard (calls (blinkLED n) s) = [].
Proof.
  rewrite blinkLED_calls. apply mjoin_replicate_keyboard.
  unfold blink_once. unfold_cmds. split_ifs; reflexivity.
Qed.


Ltac unfold_cmds_all :=
  unfold release, release_key, release_digit, release_ascii_alt,
    release_keymap, press, press_digit, press_ascii_alt,
    press_ascii_unshifted, press_keymap, restore_shift, unshift, latch,
    unlatch, latched, is_target, misterOrASCII, shiftedKey,
    BootKeyboard_press, BootKeyboard_release, BootKeyboard_releaseAll,
    run, calls, andThen, when, ifc, call, assign, reading, skip in *.

Ltac atom b :=
  lazymatch b with
  | andb ?a _ => atom a
  | orb ?a _ => atom a
  | negb ?a => atom a
  | Z.eqb ?t ?c => destruct (Z.eqb_spec t c); try subst t
  | _ => destruct b eqn:?
  end.

Ltac split_atoms :=
  repeat (cbn in *;
          rewrite ?list_lookup_total_insert_eq in * by lia;
          match goal with
          | H : context [if ?b then _ else _] |- _ => atom b
          | |- context [if ?b then _ else _] => atom b
          end);
  cbn in *.

Ltac use_clear H :=
  cbn in H;
  repeat match type of H with
         | context [?l !!! ?k] => destruct (l !!! k) eqn:?; cbn in H
         | context [negb ?v] => is_var v; destruct v; cbn in H
         end;
  try discriminate H.





(** The example of C2: on MiSTer, 6 pressed with Shift held puts [&] down;
    after Shift is released, the release of 6 lets [&] up, not [6]. *)
Lemma six_with_shift_on_mister :
  let s := run (press 17) (booted 4) in
  keyboard (calls (press 23) s) = [KbPress (Chr "&")]
  /\ keyboard (calls (release 17) (run (press 23) s))
     = [KbRelease (Named KEY_LEFT_SHIFT)]
  /\ keyboard (calls (release 23) (run (release 17) (run (press 23) s)))
     = [KbRelease (Chr "&")].
Proof. vm_compute. repeat split; reflexivity. Qed.


(** ** What a command keeps *)

Section Keeps.
Context {A : Type} (f : state -> A).

Lemma keeps_skip : keeps f skip.
Proof. intros s. reflexivity. Qed.

Lemma keeps_call e : keeps f (call e).
Proof. intros s. reflexivity. Qed.

Lemma keeps_andThen a b : keeps f a -> keeps f b -> keeps f (a ;; b).
Proof. intros Ha Hb s. rewrite run_andThen, Hb, Ha. reflexivity. Qed.

Lemma keeps_ifc c a b : keeps f a -> keeps f b -> keeps f (ifc c a b).
Proof. intros Ha Hb s. rewrite run_ifc. destruct (c s); auto. Qed.

Lemma keeps_when c a : keeps f a -> keeps f (when c a).
Proof. intros Ha. apply keeps_ifc; [assumption | apply keeps_skip]. Qed.

Lemma keeps_reading g : (forall s, keeps f (g s)) -> keeps f (reading g).
Proof. intros Hg s. rewrite run_reading. apply Hg. Qed.

Lemma keeps_times n c : keeps f c -> keeps f (times n c).
Proof.
  intros Hc. induction n; simpl;
    [apply keeps_skip | now apply keeps_andThen].
Qed.

Lemma keeps_assign g : (forall s, f (g s) = f s) -> keeps f (assign g).
Proof. intros Hg s. apply Hg. Qed.

Lemma keeps_EEPROM_write a v :
  (forall r s, f (set_eeprom r s) = f s) -> keeps f (EEPROM_write a v).
Proof. intros Hg s. apply Hg. Qed.
End Keeps.

Ltac keeps_tac :=
  unfold press, press_digit, press_ascii_alt, press_ascii_unshifted,
    press_keymap, release, release_key, release_digit, release_ascii_alt,
    release_keymap, restore_shift, unshift, latch, unlatch, cycle_target,
    rotate_target, blinkLED, blink_once, allowBlink, setKeymap,
    BootKeyboard_press, BootKeyboard_release, BootKeyboard_releaseAll;
  cbv beta iota;
  repeat first
    [ apply keeps_andThen | apply keeps_ifc | apply keeps_when
    | apply keeps_reading; intro | apply keeps_times
    | apply keeps_skip | apply keeps_call
    | apply keeps_assign; intro; reflexivity
    | apply keeps_EEPROM_write; intros; reflexivity ].

Lemma press_keeps_scan key : keeps scan_view (press key).
Proof. do 78 (destruct key as [|key]; [keeps_tac|]). keeps_tac. Qed.

Lemma release_keeps_scan key : keeps scan_view (release key).
Proof. do 78 (destruct key as [|key]; [keeps_tac|]). keeps_tac. Qed.

Lemma scan_view_thisKey s s' : scan_view s' = scan_view s -> thisKey s' = thisKey s.
Proof. unfold scan_view. congruence. Qed.

Lemma scan_view_stamps s s' :
  scan_view s' = scan_view s -> lastDebounceTime s' = lastDebounceTime s.
Proof. unfold scan_view. congruence. Qed.

Lemma key_went_down_keeps_thisKey : keeps thisKey key_went_down.
Proof.
  unfold key_went_down. apply keeps_when, keeps_andThen.
  - apply keeps_assign; intro; reflexivity.
  - apply keeps_reading; intros s0 s. apply scan_view_thisKey, press_keeps_scan.
Qed.

Lemma key_went_up_keeps_thisKey : keeps thisKey key_went_up.
Proof.
  unfold key_went_up. apply keeps_when, keeps_andThen.
  - apply keeps_assign; intro; reflexivity.
  - apply keeps_reading; intros s0 s. apply scan_view_thisKey, release_keeps_scan.
Qed.

Lemma key_went_down_keeps_stamps : keeps lastDebounceTime key_went_down.
Proof.
  unfold key_went_down. apply keeps_when, keeps_andThen.
  - apply keeps_assign; intro; reflexivity.
  - apply keeps_reading; intros s0 s. apply scan_view_stamps, press_keeps_scan.
Qed.

Lemma key_went_up_keeps_stamps : keeps lastDebounceTime key_went_up.
Proof.
  unfold key_went_up. apply keeps_when, keeps_andThen.
  - apply keeps_assign; intro; reflexivity.
  - apply keeps_reading; intros s0 s. apply scan_view_stamps, release_keeps_scan.
Qed.

Lemma run_scan_columns_cons io row col rest s :
  run (scan_columns io row (col :: rest)) s =
  (if filtered (visited io row col s) then visited io row col s
   else if debouncing (millis_cell io row col) (visited io row col s)
        then run (scan_columns io row rest) (visited io row col s)
        else run (scan_columns io row rest)
               (run key_went_up (run key_went_down (visited io row col s)))).
Proof.
  unfold run at 1. rewrite scan_columns_cons.
  destruct (filtered _); [reflexivity|].
  destruct (debouncing _ _); reflexivity.
Qed.

Lemma scan_columns_keeps_stamps io row cols :
  keeps lastDebounceTime (scan_columns io row cols).
Proof.
  induction cols as [|col rest IH]; intros s; [reflexivity|].
  rewrite run_scan_columns_cons.
  destruct (filtered _); [reflexivity|].
  destruct (debouncing _ _); rewrite IH; [reflexivity|].
  rewrite key_went_up_keeps_stamps, key_went_down_keeps_stamps. reflexivity.
Qed.

Lemma filtered_visited io row col s :
  filtered (visited io row col s)
  = (col mod 10 =? 8) && negb (col + row * 10 =? 68).
Proof.
  unfold filtered. rewrite visited_thisKey.
  now rewrite Nat.Div0.mod_add.
Qed.

Lemma scan_columns_exit_last io row s :
  thisKey (run (scan_columns io row [8]) s) = row * 10 + 8.
Proof.
  rewrite run_scan_columns_cons.
  destruct (filtered _); [rewrite visited_thisKey; lia|].
  destruct (debouncing _ _); cbn [scan_columns]; rewrite run_skip.
  - rewrite visited_thisKey; lia.
  - rewrite key_went_up_keeps_thisKey, key_went_down_keeps_thisKey,
      visited_thisKey. lia.
Qed.

Lemma scan_columns_exit_step io row col rest k :
  col < 8 ->
  (forall s, thisKey (run (scan_columns io row rest) s) = k) ->
  forall s, thisKey (run (scan_columns io row (col :: rest)) s) = k.
Proof.
  intros Hcol IH s. rewrite run_scan_columns_cons, filtered_visited.
  rewrite Nat.mod_small by lia.
  destruct (Nat.eqb_spec col 8); [lia|]. cbn [andb].
  destruct (debouncing _ _); apply IH.
Qed.

Lemma scan_columns_exit io row s :
  thisKey (run (scan_columns io row (seq 0 9)) s) = row * 10 + 8.
Proof.
  revert s. cbn [seq].
  do 8 (apply scan_columns_exit_step; [lia|]).
  apply scan_columns_exit_last.
Qed.

Lemma scan_row_stamps io row s :
  lastDebounceTime (run (scan_row io row) s)
  = <[row * 10 + 8 := to_long (millis_row io row)]> (lastDebounceTime s).
Proof.
  unfold scan_row. rewrite !run_andThen, !run_call, run_assign.
  cbn [lastDebounceTime set_lastDebounceTime].
  rewrite scan_columns_exit, scan_columns_keeps_stamps. reflexivity.
Qed.

Lemma scan_rows_stamp io rows k s :
  k mod 10 <> 8 ->
  lastDebounceTime (run (scan_rows io rows) s) !!! k = lastDebounceTime s !!! k.
Proof.
  intros Hk. revert s. induction rows as [|row rest IH]; intros s;
    [reflexivity|].
  cbn [scan_rows]. rewrite run_andThen, IH, scan_row_stamps.
  apply list_lookup_total_insert_ne.
  intros <-. apply Hk. rewrite Nat.add_comm, Nat.Div0.mod_add. reflexivity.
Qed.

Lemma loop_stamp io k s :
  k mod 10 <> 8 ->
  lastDebounceTime (run (loop io) s) !!! k = lastDebounceTime s !!! k.
Proof.
  intros Hk. unfold loop. rewrite !run_andThen, !run_assign.
  now rewrite scan_rows_stamp.
Qed.

Lemma loops_stamp ios k s :
  k mod 10 <> 8 ->
  lastDebounceTime (run (loops ios) s) !!! k = lastDebounceTime s !!! k.
Proof.
  intros Hk. revert s. induction ios as [|io rest IH]; intros s;
    [reflexivity|].
  cbn [loops]. now rewrite run_andThen, IH, loop_stamp.
Qed.

Lemma setup_keeps_stamps led : keeps lastDebounceTime (setup led).
Proof.
  unfold setup, setup_pins, load_target. destruct led; cbn [negb foldr rowPinMap colPinMap]; keeps_tac.
Qed.

(** C10.  When the loop over the columns of a row is left, [thisKey] is
    the column-8 position of that row, so the time stamp written at the end
    of the row goes to that position.  Hence no pass of [loop] changes the
    stamp of a position outside column 8, in particular of any position of
    columns 0 to 7, and such a stamp is 0, its initial value, however long
    the program has run. *)
Theorem stamp_written_at_column_8 led rom ios io row s k :
  k < 80 ->
  k mod 10 <> 8 ->
  thisKey (run (scan_columns io row (seq 0 9)) s) = row * 10 + 8
  /\ lastDebounceTime (run (scan_row io row) s)
     = <[row * 10 + 8 := to_long (millis_row io row)]> (lastDebounceTime s)
  /\ lastDebounceTime (run (loop io) s) !!! k = lastDebounceTime s !!! k
  /\ lastDebounceTime (run (sketch led ios) (power_on rom)) !!! k = 0%Z.
Proof.
  intros Hk Hcol. split; [apply scan_columns_exit|].
  split; [apply scan_row_stamps|].
  split; [now apply loop_stamp|].
  unfold sketch. rewrite run_andThen, loops_stamp, setup_keeps_stamps by assumption.
  cbn [lastDebounceTime power_on].
  now apply lookup_total_replicate_2.
Qed.

Lemma stamp_written_at_column_8_witness :
  let ios := [matrix (only [23]) 1000; matrix (only []) 1010] in
  23 < 80 /\ 23 mod 10 <> 8 /\
  lastDebounceTime (run (sketch true ios) (power_on blank_rom)) !!! 23 = 0%Z.
Proof.
  cbv zeta.
  assert (H1 : 23 < 80) by lia.
  assert (H2 : 23 mod 10 <> 8) by (vm_compute; discriminate).
  split; [exact H1 | split; [exact H2 |]].
  exact (proj2 (proj2 (proj2
    (stamp_written_at_column_8 true blank_rom
       [matrix (only [23]) 1000; matrix (only []) 1010]
       (matrix (only []) 0) 0 (power_on blank_rom) 23 H1 H2)))).
Defined.

(** ** The RESTORE column *)

Lemma press_RESTORE s :
  press 68 s =
  (s, [KbPress (Named (if (target s =? MISTER)%Z then KEY_F11
                       else if (target s =? ASCII)%Z then KEY_TAB
                       else KEY_PAGE_UP))]).
Proof.
  unfold press, ifc, is_target, BootKeyboard_press, call.
  destruct (target s =? MISTER)%Z; [reflexivity|].
  destruct (target s =? ASCII)%Z; reflexivity.
Qed.

(** A cell whose reading is the state it already has calls nothing and
    changes nothing. *)
Lemma key_went_down_quiet s :
  isKeyDown s = lastKeyState s !!! thisKey s -> key_went_down s = (s, []).
Proof.
  intros Hq. unfold key_went_down, when, ifc, skip. rewrite Hq.
  destruct (lastKeyState s !!! thisKey s); reflexivity.
Qed.

Lemma key_went_up_quiet s :
  isKeyDown s = lastKeyState s !!! thisKey s -> key_went_up s = (s, []).
Proof.
  intros Hq. unfold key_went_up, when, ifc, skip. rewrite Hq.
  destruct (lastKeyState s !!! thisKey s); reflexivity.
Qed.

Lemma scan_columns_quiet_cell io row col rest s :
  filtered (visited io row col s) = false ->
  reads_down io row col = lastKeyState s !!! (col + row * 10) ->
  scan_columns io row (col :: rest) s
  = scan_columns io row rest (visited io row col s).
Proof.
  intros Hf Hq. rewrite scan_columns_cons, Hf.
  destruct (debouncing _ _); [reflexivity|].
  unfold andThen at 1. rewrite key_went_down_quiet by exact Hq.
  cbn [fst snd app]. unfold andThen. rewrite key_went_up_quiet by exact Hq.
  cbn [fst snd app]. symmetry. apply surjective_pairing.
Qed.

Lemma key_went_down_fires s :
  isKeyDown s = true ->
  lastKeyState s !!! thisKey s = false ->
  key_went_down s
  = press (thisKey s)
      (set_lastKeyState (<[thisKey s := true]> (lastKeyState s)) s).
Proof.
  intros Hd Hup. unfold key_went_down, when, ifc. rewrite Hd, Hup.
  cbn [negb andb]. unfold andThen, assign, reading. cbn [fst snd app].
  symmetry. apply surjective_pairing.
Qed.

Lemma key_went_up_idle s : isKeyDown s = true -> key_went_up s = (s, []).
Proof.
  intros Hd. unfold key_went_up, when, ifc. rewrite Hd. reflexivity.
Qed.

(** The cell of RESTORE when it is read down, was up and is not being
    debounced. *)
Lemma scan_columns_restore_cell io rest s :
  reads_down io 6 8 = true ->
  lastKeyState s !!! 68 = false ->
  debouncing (millis_cell io 6 8) (visited io 6 8 s) = false ->
  scan_columns io 6 (8 :: rest) s
  = (press 68 ;; scan_columns io 6 rest)
      (set_lastKeyState (<[68 := true]> (lastKeyState s)) (visited io 6 8 s)).
Proof.
  intros Hd Hup Hdeb. rewrite scan_columns_cons, Hdeb.
  change (filtered (visited io 6 8 s)) with false. cbv iota.
  unfold andThen.
  rewrite (key_went_down_fires (visited io 6 8 s)) by assumption.
  change (thisKey (visited io 6 8 s)) with 68.
  change (lastKeyState (visited io 6 8 s)) with (lastKeyState s).
  rewrite !press_RESTORE. cbn [fst snd].
  rewrite !(key_went_up_idle
             (set_lastKeyState (<[68 := true]> (lastKeyState s))
                (visited io 6 8 s))) by exact Hd.
  cbn [fst snd app]. reflexivity.
Qed.
Lemma visited_visited io row col col' s :
  visited io row col (visited io row col' s) = visited io row col s.
Proof. reflexivity. Qed.

Lemma filtered_low io row col s :
  col < 8 -> filtered (visited io row col s) = false.
Proof.
  intros Hc. rewrite filtered_visited, Nat.mod_small by lia.
  destruct (Nat.eqb_spec col 8); [lia | reflexivity].
Qed.

(** Columns 0 to 7 of a row in which nothing changed. *)
Lemma scan_columns_unchanged io row rest s :
  unchanged_row io row (lastKeyState s) ->
  scan_columns io row ([0; 1; 2; 3; 4; 5; 6; 7] ++ rest) s
  = scan_columns io row rest (visited io row 7 s).
Proof.
  intros Hq. cbn [app].
  do 8 (rewrite scan_columns_quiet_cell;
        [ rewrite ?visited_visited
        | apply filtered_low; lia
        | apply Hq; lia ]).
  reflexivity.
Qed.

Lemma scan_columns_other_row io row s :
  row <> 6 ->
  unchanged_row io row (lastKeyState s) ->
  scan_columns io row (seq 0 9) s = (visited io row 8 s, []).
Proof.
  intros Hrow Hq.
  change (seq 0 9) with ([0; 1; 2; 3; 4; 5; 6; 7] ++ [8]).
  rewrite scan_columns_unchanged by assumption.
  rewrite scan_columns_cons, visited_visited, filtered_visited.
  change (8 mod 10 =? 8) with true.
  destruct (Nat.eqb_spec (8 + row * 10) 68); [lia | reflexivity].
Qed.

Lemma scan_columns_restore_row io s :
  unchanged_row io 6 (lastKeyState s) ->
  reads_down io 6 8 = true ->
  lastKeyState s !!! 68 = false ->
  debouncing (millis_cell io 6 8) (visited io 6 8 s) = false ->
  scan_columns io 6 (seq 0 9) s
  = (set_lastKeyState (<[68 := true]> (lastKeyState s)) (visited io 6 8 s),
     snd (press 68 s)).
Proof.
  intros Hq Hd Hup Hdeb.
  change (seq 0 9) with ([0; 1; 2; 3; 4; 5; 6; 7] ++ [8]).
  rewrite scan_columns_unchanged by assumption.
  rewrite scan_columns_restore_cell; rewrite ?visited_visited; try assumption.
  unfold andThen. rewrite !press_RESTORE. cbn [fst snd scan_columns skip].
  rewrite app_nil_r. reflexivity.
Qed.

Lemma debouncing_depends now s s' :
  thisKey s' = thisKey s ->
  lastDebounceTime s' !!! thisKey s = lastDebounceTime s !!! thisKey s ->
  debouncing now s' = debouncing now s.
Proof. unfold debouncing. intros -> ->. reflexivity. Qed.

(** What a pass does to a row other than row 6 in which nothing changed. *)
Lemma scan_row_other io row s :
  row <> 6 ->
  unchanged_row io row (lastKeyState s) ->
  keyboard (calls (scan_row io row) s) = []
  /\ lastKeyState (run (scan_row io row) s) = lastKeyState s
  /\ target (run (scan_row io row) s) = target s
  /\ lastDebounceTime (run (scan_row io row) s) !!! 68
     = lastDebounceTime s !!! 68.
Proof.
  intros Hrow Hq. unfold scan_row.
  rewrite !calls_andThen, !run_andThen, !run_call, !calls_call, run_assign,
    calls_assign.
  unfold run, calls. rewrite scan_columns_other_row by assumption.
  cbn [fst snd]. repeat split.
  cbn [lastDebounceTime set_lastDebounceTime thisKey visited set_isKeyDown set_thisKey].
  apply list_lookup_total_insert_ne. lia.
Qed.

Lemma scan_row_restore io s :
  unchanged_row io 6 (lastKeyState s) ->
  reads_down io 6 8 = true ->
  lastKeyState s !!! 68 = false ->
  debouncing (millis_cell io 6 8) (visited io 6 8 s) = false ->
  keyboard (calls (scan_row io 6) s) = snd (press 68 s)
  /\ lastKeyState (run (scan_row io 6) s) = <[68 := true]> (lastKeyState s)
  /\ target (run (scan_row io 6) s) = target s.
Proof.
  intros Hq Hd Hup Hdeb. unfold scan_row.
  rewrite !calls_andThen, !run_andThen, !run_call, !calls_call, run_assign,
    calls_assign.
  unfold run, calls. rewrite scan_columns_restore_row by assumption.
  rewrite press_RESTORE. cbn [fst snd]. repeat split.
Qed.

Lemma run_scan_rows_app io rows1 rows2 s :
  run (scan_rows io (rows1 ++ rows2)) s
  = run (scan_rows io rows2) (run (scan_rows io rows1) s).
Proof.
  revert s. induction rows1 as [|row rest IH]; intros s; [reflexivity|].
  cbn [app scan_rows]. now rewrite !run_andThen, IH.
Qed.

Lemma calls_scan_rows_app io rows1 rows2 s :
  calls (scan_rows io (rows1 ++ rows2)) s
  = calls (scan_rows io rows1) s
    ++ calls (scan_rows io rows2) (run (scan_rows io rows1) s).
Proof.
  revert s. induction rows1 as [|row rest IH]; intros s; [reflexivity|].
  cbn [app scan_rows]. rewrite !calls_andThen, !run_andThen, IH.
  now rewrite app_assoc.
Qed.

Lemma scan_rows_other io rows s :
  (forall row, row ∈ rows -> row <> 6 /\ unchanged_row io row (lastKeyState s)) ->
  keyboard (calls (scan_rows io rows) s) = []
  /\ lastKeyState (run (scan_rows io rows) s) = lastKeyState s
  /\ target (run (scan_rows io rows) s) = target s
  /\ lastDebounceTime (run (scan_rows io rows) s) !!! 68
     = lastDebounceTime s !!! 68.
Proof.
  revert s. induction rows as [|row rest IH]; intros s Hrows.
  - repeat split.
  - destruct (Hrows row) as [Hne Hq]; [left|].
    destruct (scan_row_other io row s Hne Hq) as (Hk & Hl & Ht & Hs).
    destruct (IH (run (scan_row io row) s)) as (Hk' & Hl' & Ht' & Hs').
    { intros r Hr. rewrite Hl. apply Hrows. now right. }
    cbn [scan_rows]. rewrite calls_andThen, run_andThen, keyboard_app.
    rewrite Hk, Hk', Hl', Ht', Hs'. repeat split; assumption.
Qed.

(** C5.  Let a pass of [loop] read column 8 active on every row, as when
    RESTORE is held, while no other cell changes; let RESTORE be up so far
    and its debounce delay be over.  Then the pass calls the keyboard
    exactly once: the press of position 68.  No other position of column 8
    is dispatched or even recorded as down. *)
Theorem restore_column_one_event io s :
  (forall row, row < 8 -> reads_down io row 8 = true) ->
  (forall row, row < 8 -> unchanged_row io row (lastKeyState s)) ->
  lastKeyState s !!! 68 = false ->
  debouncing (millis_cell io 6 8) (set_thisKey 68 s) = false ->
  keyboard (calls (loop io) s)
  = [KbPress (Named (if (target s =? MISTER)%Z then KEY_F11
                     else if (target s =? ASCII)%Z then KEY_TAB
                     else KEY_PAGE_UP))]
  /\ keyboard (calls (loop io) s) = keyboard (calls (press 68) s)
  /\ lastKeyState (run (loop io) s) = <[68 := true]> (lastKeyState s).
Proof.
  intros H8 Hq Hup Hdeb.
  assert (Hloop : forall s0 : state,
    lastKeyState s0 = lastKeyState s -> target s0 = target s ->
    lastDebounceTime s0 !!! 68 = lastDebounceTime s !!! 68 ->
    keyboard (calls (scan_rows io (seq 0 8)) s0) = snd (press 68 s)
    /\ lastKeyState (run (scan_rows io (seq 0 8)) s0)
       = <[68 := true]> (lastKeyState s)).
  { intros s0 Hl0 Ht0 Hs0.
    change (seq 0 8) with ([0; 1; 2; 3; 4; 5] ++ [6] ++ [7]).
    destruct (scan_rows_other io [0; 1; 2; 3; 4; 5] s0)
      as (Hk1 & Hl1 & Ht1 & Hs1).
    { intros r Hr. rewrite Hl0. split.
      - intros ->. repeat (apply elem_of_cons in Hr as [Hr|Hr]; [discriminate|]).
        inversion Hr.
      - apply Hq. repeat (apply elem_of_cons in Hr as [->|Hr]; [lia|]).
        inversion Hr. }
    set (s1 := run (scan_rows io [0; 1; 2; 3; 4; 5]) s0) in *.
    destruct (scan_row_restore io s1) as (Hk2 & Hl2 & Ht2).
    { rewrite Hl1, Hl0. apply Hq. lia. }
    { apply H8. lia. }
    { now rewrite Hl1, Hl0. }
    { rewrite <- Hdeb. apply debouncing_depends; [reflexivity|].
      change (lastDebounceTime s1 !!! 68 = lastDebounceTime s !!! 68).
      now rewrite Hs1, Hs0. }
    set (s2 := run (scan_row io 6) s1) in *.
    destruct (scan_rows_other io [7] s2) as (Hk3 & Hl3 & Ht3 & _).
    { intros r Hr. apply list_elem_of_singleton in Hr as ->.
      split; [lia|]. intros col Hcol.
      rewrite Hl2, Hl1, Hl0, list_lookup_total_insert_ne by lia.
      apply Hq; lia. }
    assert (E6r : run (scan_rows io [6]) s1 = s2) by reflexivity.
    assert (E6c : calls (scan_rows io [6]) s1 = calls (scan_row io 6) s1 ++ [])
      by reflexivity.
    rewrite !calls_scan_rows_app, !run_scan_rows_app, !keyboard_app.
    fold s1. rewrite E6r, E6c, app_nil_r, Hk1, Hk2, Hk3, Hl3, Hl2, Hl1, Hl0.
    rewrite !press_RESTORE, Ht1, Ht0. cbn [snd app].
    split; reflexivity. }
  unfold loop. rewrite !calls_andThen, !run_andThen, !calls_assign,
    !run_assign. cbn [app].
  destruct (Hloop (set_isKeyDown false (set_thisKey 0 s)))
    as [Hk Hl]; try reflexivity.
  rewrite Hk, Hl. unfold calls. rewrite press_RESTORE.
  split; [reflexivity | split; reflexivity].
Qed.

Lemma restore_column_one_event_witness :
  let io := matrix (only [8; 18; 28; 38; 48; 58; 68; 78]) 2000 in
  let s := booted 1 in
  (forall row, row < 8 -> reads_down io row 8 = true) /\
  (forall row, row < 8 -> unchanged_row io row (lastKeyState s)) /\
  lastKeyState s !!! 68 = false /\
  debouncing (millis_cell io 6 8) (set_thisKey 68 s) = false /\
  keyboard (calls (loop io) s) = [KbPress (Named KEY_TAB)].
Proof.
  cbv zeta.
  assert (H8 : forall row, row < 8 ->
            reads_down (matrix (only [8; 18; 28; 38; 48; 58; 68; 78]) 2000)
              row 8 = true).
  { intros row Hr. do 8 (destruct row as [|row]; [vm_compute; reflexivity|]).
    lia. }
  assert (Hq : forall row, row < 8 ->
            unchanged_row (matrix (only [8; 18; 28; 38; 48; 58; 68; 78]) 2000)
              row (lastKeyState (booted 1))).
  { intros row Hr col Hc.
    do 8 (destruct row as [|row];
      [do 8 (destruct col as [|col]; [vm_compute; reflexivity|]); lia|]).
    lia. }
  assert (Hup : lastKeyState (booted 1) !!! 68 = false)
    by (vm_compute; reflexivity).
  assert (Hdeb : debouncing
            (millis_cell (matrix (only [8; 18; 28; 38; 48; 58; 68; 78]) 2000)
               6 8) (set_thisKey 68 (booted 1)) = false)
    by (vm_compute; reflexivity).
  repeat (split; [assumption|]).
  exact (proj1 (restore_column_one_event _ _ H8 Hq Hup Hdeb)).
Defined.

(** ** Debounce *)

Lemma sketch_stamp led rom ios k :
  k < 80 -> k mod 10 <> 8 ->
  lastDebounceTime (run (sketch led ios) (power_on rom)) !!! k = 0%Z.
Proof.
  intros Hk Hcol. unfold sketch.
  rewrite run_andThen, loops_stamp, setup_keeps_stamps by assumption.
  cbn [lastDebounceTime power_on]. now apply lookup_total_replicate_2.
Qed.

(** X1.  However long the program has run, the debounce test lets every sample
    of a position outside column 8 through, once [millis()] is 5 or more:
    the stamp it compares with is still 0. *)
Theorem no_debounce_outside_column_8 led rom ios now k :
  k < 80 ->
  k mod 10 <> 8 ->
  (5 <= now < 2 ^ 32)%Z ->
  debouncing now (set_thisKey k (run (sketch led ios) (power_on rom))) = false.
Proof.
  intros Hk Hcol Hnow. unfold debouncing.
  cbn [thisKey lastDebounceTime set_thisKey].
  rewrite sketch_stamp by assumption.
  change (to_ulong (to_long (0 + debounceDelay))) with 5%Z.
  unfold to_ulong. rewrite Z.mod_small by lia.
  apply Z.ltb_ge. lia.
Qed.

Lemma no_debounce_outside_column_8_witness :
  23 < 80 /\ 23 mod 10 <> 8 /\ (5 <= 1002 < 2 ^ 32)%Z /\
  debouncing 1002
    (set_thisKey 23
       (run (sketch true [matrix (only [23]) 1000]) (power_on (rom_with 4))))
  = false.
Proof.
  assert (H1 : 23 < 80) by lia.
  assert (H2 : 23 mod 10 <> 8) by (vm_compute; discriminate).
  assert (H3 : (5 <= 1002 < 2 ^ 32)%Z) by lia.
  repeat (split; [assumption|]).
  exact (no_debounce_outside_column_8 true (rom_with 4)
           [matrix (only [23]) 1000] 1002 23 H1 H2 H3).
Defined.

(** ** The translation table *)

Lemma store_all_length l m : length (store_all l m) = length m.
Proof.
  revert m. induction l as [|kv l IH]; intros m; [reflexivity|].
  unfold store_all in *. cbn [foldl]. rewrite IH. apply length_insert.
Qed.

Lemma store_all_app l1 l2 m :
  store_all (l1 ++ l2) m = store_all l2 (store_all l1 m).
Proof. unfold store_all. apply foldl_app. Qed.

Lemma assigned_snoc l kv k :
  assigned (l ++ [kv]) k = if fst kv =? k then Some (snd kv) else assigned l k.
Proof. unfold assigned. rewrite foldl_app. reflexivity. Qed.

Lemma store_all_lookup l m k :
  k < length m ->
  store_all l m !!! k = default (m !!! k) (assigned l k).
Proof.
  intros Hk. induction l as [|kv l IH] using rev_ind; [reflexivity|].
  rewrite store_all_app, assigned_snoc. unfold store_all at 1. cbn [foldl].
  destruct (Nat.eqb_spec (fst kv) k) as [->|Hne].
  - apply list_lookup_total_insert_eq. now rewrite store_all_length.
  - rewrite list_lookup_total_insert_ne by assumption. exact IH.
Qed.

Lemma keymap_after_setKeymap s :
  keymap (run setKeymap s)
  = store_all (target_assignments (target s))
      (store_all base_assignments (keymap s)).
Proof. reflexivity. Qed.

Lemma setKeymap_lookup s k :
  k < length (keymap s) ->
  keymap (run setKeymap s) !!! k
  = default (keymap s !!! k)
      (assigned (base_assignments ++ target_assignments (target s)) k).
Proof.
  intros Hk. rewrite keymap_after_setKeymap, <- store_all_app.
  now apply store_all_lookup.
Qed.

Lemma assigned_app_Some l1 l2 k :
  is_Some (assigned l1 k) -> is_Some (assigned (l1 ++ l2) k).
Proof.
  intros H1. induction l2 as [|kv l2 IH] using rev_ind.
  - now rewrite app_nil_r.
  - rewrite app_assoc, assigned_snoc. destruct (fst kv =? k); [eauto | exact IH].
Qed.

Lemma scanned_assigned k : scanned k = true -> is_Some (assigned base_assignments k).
Proof.
  intros Hk.
  do 80 (destruct k as [|k]; [first [discriminate Hk | vm_compute; eauto] |]).
  exfalso. unfold scanned in Hk. apply andb_prop in Hk as [Hk _].
  apply Nat.ltb_lt in Hk. lia.
Qed.

Lemma assigned_targets_scanned t k :
  is_Some (assigned (target_assignments t) k) -> scanned k = true.
Proof.
  unfold target_assignments.
  destruct (t =? ASCII)%Z; [|destruct (t =? VICE2_BMC64)%Z;
    [|destruct (t =? MISTER)%Z]]; intros [v Hv];
    do 80 (destruct k as [|k]; [first [reflexivity | discriminate Hv] |]);
    discriminate Hv.
Qed.

Lemma assigned_app l1 l2 k :
  assigned (l1 ++ l2) k
  = match assigned l2 k with Some v => Some v | None => assigned l1 k end.
Proof.
  induction l2 as [|kv l2 IH] using rev_ind.
  - now rewrite app_nil_r.
  - rewrite app_assoc, !assigned_snoc. destruct (fst kv =? k); [reflexivity | exact IH].
Qed.

Lemma unscanned_unassigned t k :
  k < 80 -> scanned k = false ->
  assigned (base_assignments ++ target_assignments t) k = None.
Proof.
  intros Hk Hs. rewrite assigned_app.
  destruct (assigned (target_assignments t) k) eqn:Ht.
  - assert (scanned k = true) by (apply (assigned_targets_scanned t); eauto).
    congruence.
  - do 80 (destruct k as [|k]; [first [discriminate Hs | reflexivity] |]).
    lia.
Qed.

Lemma setKeymap_twice s :
  run setKeymap (run setKeymap s) = run setKeymap s.
Proof.
  assert (Hk : keymap (run setKeymap (run setKeymap s)) = keymap (run setKeymap s)).
  { apply (list_eq_same_length _ _ (length (keymap s))).
    - rewrite keymap_after_setKeymap, !store_all_length. reflexivity.
    - rewrite !keymap_after_setKeymap, !store_all_length. reflexivity.
    - intros i x y Hi Hx Hy.
      apply list_lookup_total_correct in Hx, Hy. subst x y.
      rewrite (setKeymap_lookup (run setKeymap s)).
      + change (target (run setKeymap s)) with (target s).
        rewrite setKeymap_lookup by assumption.
        destruct (assigned _ i); reflexivity.
      + rewrite keymap_after_setKeymap, !store_all_length. exact Hi. }
  change (run setKeymap (run setKeymap s))
    with (set_keymap (keymap (run setKeymap (run setKeymap s)))
            (run setKeymap s)).
  rewrite Hk. reflexivity.
Qed.

Lemma setKeymap_lookup_table s k :
  length (keymap s) = 80 ->
  k < 80 ->
  keymap (run setKeymap s) !!! k
  = if scanned k then table (target s) !!! k else keymap s !!! k.
Proof.
  intros Hlen Hk.
  rewrite setKeymap_lookup by lia.
  destruct (scanned k) eqn:Hs.
  - unfold table. rewrite <- store_all_app, store_all_lookup
      by (rewrite length_replicate; exact Hk).
    destruct (assigned_app_Some base_assignments
                (target_assignments (target s)) k (scanned_assigned k Hs))
      as [v ->].
    reflexivity.
  - now rewrite unscanned_unassigned.
Qed.

Lemma scanned_lt k : scanned k = true -> k < 80.
Proof.
  unfold scanned. intros H. apply andb_prop in H as [H _].
  now apply Nat.ltb_lt.
Qed.

Lemma setKeymap_from_any s km :
  length (keymap s) = 80 ->
  length km = 80 ->
  (forall k, k < 80 -> scanned k = false -> km !!! k = keymap s !!! k) ->
  run setKeymap (set_keymap km s) = run setKeymap s.
Proof.
  intros Hlen Hkm Hrest.
  assert (Hk : keymap (run setKeymap (set_keymap km s))
               = keymap (run setKeymap s)).
  { apply (list_eq_same_length _ _ 80).
    - rewrite keymap_after_setKeymap, !store_all_length. exact Hlen.
    - rewrite keymap_after_setKeymap, !store_all_length. exact Hkm.
    - intros i x y Hi Hx Hy.
      apply list_lookup_total_correct in Hx, Hy. subst x y.
      rewrite !setKeymap_lookup_table by assumption.
      change (target (set_keymap km s)) with (target s).
      destruct (scanned i) eqn:Hs; [reflexivity|].
      now apply Hrest. }
  change (run setKeymap (set_keymap km s))
    with (set_keymap (keymap (run setKeymap (set_keymap km s))) s).
  rewrite Hk. reflexivity.
Qed.

(** X2.  [setKeymap] rebuilds the table, it does not patch it from its
    history.  Whatever the cells of the scanned positions held before the
    call, the state after it is the same: overwrite them at will (the
    cells of the positions that are never scanned left as they are) and
    [setKeymap] brings back the state that it built from the original
    array.  In particular a second call changes nothing.  It makes no call
    to the outside world and keeps the size of the array. *)
Theorem setKeymap_rebuilds s km :
  length (keymap s) = 80 ->
  length km = 80 ->
  (forall k, k < 80 -> scanned k = false -> km !!! k = keymap s !!! k) ->
  run setKeymap (set_keymap km s) = run setKeymap s
  /\ run setKeymap (run setKeymap s) = run setKeymap s
  /\ calls setKeymap s = []
  /\ length (keymap (run setKeymap s)) = 80.
Proof.
  intros Hlen Hkm Hrest.
  split; [now apply setKeymap_from_any|].
  split; [apply setKeymap_twice|]. split; [reflexivity|].
  rewrite keymap_after_setKeymap, !store_all_length. exact Hlen.
Qed.

Lemma setKeymap_rebuilds_witness :
  let s := booted 3 in
  let km := <[23 := Chr "x"]> (<[0 := Chr "y"]> (keymap s)) in
  length (keymap s) = 80 /\ length km = 80 /\
  (forall k, k < 80 -> scanned k = false -> km !!! k = keymap s !!! k) /\
  km <> keymap s /\
  run setKeymap (set_keymap km s) = s.
Proof.
  cbv zeta.
  set (s := booted 3).
  set (km := <[23 := Chr "x"]> (<[0 := Chr "y"]> (keymap s))).
  assert (H1 : length (keymap s) = 80) by (vm_compute; reflexivity).
  assert (H2 : length km = 80) by (vm_compute; reflexivity).
  assert (H3 : forall k, k < 80 -> scanned k = false ->
                 km !!! k = keymap s !!! k).
  { intros k Hk Hs. unfold km.
    rewrite !list_lookup_total_insert_ne; [reflexivity | |];
      intros <-; discriminate Hs. }
  assert (H4 : km <> keymap s) by (vm_compute; discriminate).
  assert (Hs : run setKeymap s = s) by (vm_compute; reflexivity).
  split; [exact H1 | split; [exact H2 | split; [exact H3 | split;
    [exact H4 |]]]].
  etransitivity; [|exact Hs].
  exact (proj1 (setKeymap_rebuilds s km H1 H2 H3)).
Defined.

(** X3.  The table is a function of the target.  After [setKeymap], the
    cell of every scanned position holds what the table of the target
    holds, whatever [keymap] held before, so that two states with the same
    target get the same cells; the cells of the positions that are never
    scanned are left as they were. *)
Theorem setKeymap_table s s' k :
  length (keymap s) = 80 ->
  length (keymap s') = 80 ->
  target s' = target s ->
  k < 80 ->
  keymap (run setKeymap s) !!! k
  = (if scanned k then table (target s) !!! k else keymap s !!! k)
  /\ (scanned k = true ->
      keymap (run setKeymap s') !!! k = keymap (run setKeymap s) !!! k).
Proof.
  intros Hlen Hlen' Ht Hk. split; [now apply setKeymap_lookup_table|].
  intros Hs. rewrite !setKeymap_lookup_table, Hs, Ht by assumption.
  reflexivity.
Qed.

Lemma setKeymap_table_witness :
  let s := set_target 4 (power_on blank_rom) in
  let s' := set_target 4 (run (setup true) (power_on (rom_with 1))) in
  length (keymap s) = 80 /\ length (keymap s') = 80 /\
  target s' = target s /\ 65 < 80 /\
  keymap (run setKeymap s) !!! 65 = Raw KEY_F10 /\
  keymap (run setKeymap s') !!! 65 = Raw KEY_F10.
Proof.
  cbv zeta.
  assert (Hl : length (keymap (set_target 4 (power_on blank_rom))) = 80)
    by reflexivity.
  assert (Hl' : length (keymap (set_target 4
                  (run (setup true) (power_on (rom_with 1))))) = 80)
    by (vm_compute; reflexivity).
  assert (Ht : target (set_target 4 (run (setup true) (power_on (rom_with 1))))
               = target (set_target 4 (power_on blank_rom))) by reflexivity.
  assert (Hk : 65 < 80) by lia.
  destruct (setKeymap_table _ _ 65 Hl Hl' Ht Hk) as [H1 H2].
  assert (E : keymap (run setKeymap (set_target 4 (power_on blank_rom))) !!! 65
              = Raw KEY_F10)
    by (rewrite H1; vm_compute; reflexivity).
  split; [exact Hl | split; [exact Hl' | split; [exact Ht | split;
    [exact Hk | split; [exact E |]]]]].
  rewrite (H2 eq_refl). exact E.
Defined.

(** ** The change of target *)

(** C7.  A press of F1 with Commodore held does, in this order: store the
    new target in slot 0 of the EEPROM, release every key of the HID
    keyboard, rebuild [keymap] for the new target, and blink the LED as many
    times as the number of the new target, which is one of 1 to 4.  After
    it the cell of every scanned position holds the entry of the table of
    the new target.  All of it happens inside the one call of [press]. *)
Theorem target_change_sequence s :
  cmdrPressed s = true ->
  valid_target (target s) ->
  0 < length (eeprom s) ->
  let t' := target (run (press 4) s) in
  press 4 s =
    (EEPROM_write 0 target ;; BootKeyboard_releaseAll ;; setKeymap ;;
     reading (fun s => blinkLED (target s))) (set_target t' s)
  /\ calls (press 4) s =
       [EepromWrite 0 t'; KbReleaseAll]
       ++ mjoin (replicate (Z.to_nat t') (calls blink_once s))
  /\ eeprom (run (press 4) s) !!! 0 = t'
  /\ keymap (run (press 4) s) = keymap (run setKeymap (set_target t' s))
  /\ (length (keymap s) = 80 ->
      forall k, scanned k = true ->
        keymap (run (press 4) s) !!! k = table t' !!! k)
  /\ valid_target t'.
Proof.
  intros Hc Ht Hrom.
  assert (Hrun : run (press 4) s = run cycle_target s)
    by (unfold run; now rewrite press_F1_commodore).
  assert (Hcalls : calls (press 4) s = calls cycle_target s)
    by (unfold calls; now rewrite press_F1_commodore).
  assert (Ht' : target (run (press 4) s) = next_target s)
    by (rewrite Hrun, cycle_target_run by assumption; reflexivity).
  cbv zeta. rewrite Ht'.
  split; [|split; [|split; [|split; [|split]]]].
  - rewrite press_F1_commodore by assumption.
    unfold cycle_target at 1.
    rewrite (cmd_eta (_ ;; _) s), (cmd_eta (_ ;; _) (set_target _ s)).
    rewrite run_andThen, calls_andThen, rotate_target_calls,
      rotate_target_run by assumption.
    reflexivity.
  - rewrite Hcalls. apply cycle_target_calls, Ht.
  - rewrite Hrun, cycle_target_run by assumption. cbn.
    apply list_lookup_total_insert_eq, Hrom.
  - rewrite Hrun, cycle_target_run by assumption. reflexivity.
  - intros Hlen k Hk. rewrite Hrun, cycle_target_run by assumption.
    rewrite setKeymap_lookup_table; [|exact Hlen | now apply scanned_lt].
    rewrite Hk. reflexivity.
  - apply next_target_valid, Ht.
Qed.

Lemma target_change_sequence_witness :
  let s := set_cmdrPressed true (booted 2) in
  cmdrPressed s = true /\ valid_target (target s) /\ 0 < length (eeprom s) /\
  length (keymap s) = 80 /\ scanned 65 = true /\
  calls (press 4) s =
    [EepromWrite 0 3; KbReleaseAll;
     PinMode 17 OUTPUT; DigitalWrite 17 false; Delay 75; PinMode 17 INPUT;
     Delay 75;
     PinMode 17 OUTPUT; DigitalWrite 17 false; Delay 75; PinMode 17 INPUT;
     Delay 75;
     PinMode 17 OUTPUT; DigitalWrite 17 false; Delay 75; PinMode 17 INPUT;
     Delay 75]%Z /\
  keymap s !!! 65 = Chr backslash /\
  keymap (run (press 4) s) !!! 65 = Raw KEY_PAGE_DOWN.
Proof.
  cbv zeta.
  set (s := set_cmdrPressed true (booted 2)).
  assert (Hv : valid_target (target s)) by (vm_compute; split; discriminate).
  assert (Hl : 0 < length (eeprom s)) by (vm_compute; lia).
  assert (Hk : length (keymap s) = 80) by (vm_compute; reflexivity).
  assert (H65 : scanned 65 = true) by reflexivity.
  pose proof (target_change_sequence s eq_refl Hv Hl) as H.
  cbv zeta in H. destruct H as (_ & Hcalls & _ & _ & Htable & _).
  split; [reflexivity | split; [exact Hv | split; [exact Hl | split;
    [exact Hk | split; [exact H65 | split; [exact Hcalls | split]]]]]].
  - vm_compute. reflexivity.
  - rewrite (Htable Hk 65 H65). vm_compute. reflexivity.
Defined.

(** ** What press and release leave alone *)

Lemma press_keeps_config key : key <> 4 -> keeps config_view (press key).
Proof.
  intros Hne.
  do 4 (destruct key as [|key]; [keeps_tac|]).
  destruct key as [|key]; [congruence|].
  do 73 (destruct key as [|key]; [keeps_tac|]). keeps_tac.
Qed.

Lemma press_F1_keeps_config s :
  cmdrPressed s = false -> config_view (run (press 4) s) = config_view s.
Proof.
  intros Hc. unfold press. rewrite run_ifc, Hc.
  assert (H : keeps config_view (press_ascii_unshifted 4 (Named KEY_F2)
           (BootKeyboard_press (Named KEY_F1)))) by keeps_tac.
  apply H.
Qed.

Lemma release_keeps_config key : keeps config_view (release key).
Proof. do 78 (destruct key as [|key]; [keeps_tac|]). keeps_tac. Qed.

(** X4.  The target, the table and the EEPROM are changed by the press of F1
    with Commodore held and by nothing else that is dispatched. *)
Theorem configuration_changed_only_by_cycle key s :
  config_view (run (release key) s) = config_view s
  /\ ((key =? 4) && cmdrPressed s = false ->
      config_view (run (press key) s) = config_view s).
Proof.
  split; [apply release_keeps_config|].
  intros H. destruct (Nat.eqb_spec key 4) as [->|Hne].
  - apply press_F1_keeps_config. exact H.
  - now apply press_keeps_config.
Qed.

Lemma configuration_changed_only_by_cycle_witness :
  let s := run (press 17) (booted 1) in
  (4 =? 4) && cmdrPressed s = false /\
  config_view (run (press 4) s) = config_view s.
Proof.
  cbv zeta.
  assert (H : (4 =? 4) && cmdrPressed (run (press 17) (booted 1)) = false)
    by reflexivity.
  split; [exact H|].
  exact (proj2 (configuration_changed_only_by_cycle 4 _) H).
Defined.

(** X5.  Press and release never touch what the scan keeps track of: the
    current position, its reading, the recorded key states and the
    debounce stamps. *)
Theorem dispatch_keeps_scan key s :
  scan_view (run (press key) s) = scan_view s
  /\ scan_view (run (release key) s) = scan_view s.
Proof. split; [apply press_keeps_scan | apply release_keeps_scan]. Qed.

Lemma press_keeps_modifiers key :
  key <> 17 -> key <> 64 -> key <> 72 -> key <> 75 ->
  keeps modifier_view (press key).
Proof.
  intros H17 H64 H72 H75.
  do 78 (destruct key as [|key]; [first [congruence | solve [keeps_tac]]|]).
  keeps_tac.
Qed.

Lemma release_keeps_modifiers key :
  key <> 17 -> key <> 64 -> key <> 72 -> key <> 75 ->
  keeps modifier_view (release key).
Proof.
  intros H17 H64 H72 H75.
  do 78 (destruct key as [|key]; [first [congruence | solve [keeps_tac]]|]).
  keeps_tac.
Qed.

(** X6.  Modifier tracking.  A press sets the flag of the modifier key that
    is pressed and a release clears it; no other position changes any of
    the four flags. *)
Theorem modifiers_follow_their_keys key s :
  modifier_view (run (press key) s)
  = (lShifted s || (key =? 17), rShifted s || (key =? 64),
     ctrlPressed s || (key =? 72), cmdrPressed s || (key =? 75))
  /\ modifier_view (run (release key) s)
     = (lShifted s && negb (key =? 17), rShifted s && negb (key =? 64),
        ctrlPressed s && negb (key =? 72), cmdrPressed s && negb (key =? 75)).
Proof.
  assert (Hown : forall k, k = 17 \/ k = 64 \/ k = 72 \/ k = 75 ->
    modifier_view (run (press k) s)
    = (lShifted s || (k =? 17), rShifted s || (k =? 64),
       ctrlPressed s || (k =? 72), cmdrPressed s || (k =? 75))
    /\ modifier_view (run (release k) s)
       = (lShifted s && negb (k =? 17), rShifted s && negb (k =? 64),
          ctrlPressed s && negb (k =? 72), cmdrPressed s && negb (k =? 75))).
  { intros k Hk.
    destruct s as [tk kd ls rs ct cm em ps cl lks ldt sh km led tg rom].
    destruct Hk as [-> | [-> | [-> | ->]]]; destruct ls, rs, ct, cm;
      unfold modifier_view; unfold_cmds; split_ifs; split; reflexivity. }
  destruct (Nat.eqb_spec key 17) as [->|H17]; [apply Hown; auto|].
  destruct (Nat.eqb_spec key 64) as [->|H64]; [apply Hown; auto|].
  destruct (Nat.eqb_spec key 72) as [->|H72]; [apply Hown; auto|].
  destruct (Nat.eqb_spec key 75) as [->|H75]; [apply Hown; auto|].
  rewrite press_keeps_modifiers, release_keeps_modifiers by assumption.
  unfold modifier_view. cbn [negb].
  now rewrite !orb_false_r, !andb_true_r.
Qed.

(** ** Invariants of a whole run *)

Section Respects.
Context (I : state -> Prop) (E : event -> Prop).

Lemma respects_skip : respects I E skip.
Proof. intros s Hs. split; [exact Hs | constructor]. Qed.

Lemma respects_call e : E e -> respects I E (call e).
Proof. intros He s Hs. split; [exact Hs | repeat constructor; exact He]. Qed.

Lemma respects_assign f : (forall s, I s -> I (f s)) -> respects I E (assign f).
Proof. intros Hf s Hs. split; [apply Hf, Hs | constructor]. Qed.

Lemma respects_andThen a b :
  respects I E a -> respects I E b -> respects I E (a ;; b).
Proof.
  intros Ha Hb s Hs. destruct (Ha s Hs) as [Ha1 Ha2].
  destruct (Hb _ Ha1) as [Hb1 Hb2].
  rewrite run_andThen, calls_andThen. split; [exact Hb1|].
  apply Forall_app; split; assumption.
Qed.

Lemma respects_ifc c a b :
  respects I E a -> respects I E b -> respects I E (ifc c a b).
Proof.
  intros Ha Hb s Hs. rewrite run_ifc, calls_ifc.
  destruct (c s); [apply Ha | apply Hb]; exact Hs.
Qed.

Lemma respects_when c a : respects I E a -> respects I E (when c a).
Proof. intros Ha. apply respects_ifc; [exact Ha | apply respects_skip]. Qed.

Lemma respects_reading f :
  (forall s0, respects I E (f s0)) -> respects I E (reading f).
Proof. intros Hf s Hs. rewrite run_reading, calls_reading. now apply Hf. Qed.

Lemma respects_times n c : respects I E c -> respects I E (times n c).
Proof.
  intros Hc. induction n; simpl;
    [apply respects_skip | now apply respects_andThen].
Qed.

(** The scan respects whatever the dispatch of every scanned position
    respects, if it does not depend on the bookkeeping of the scan. *)
Hypothesis I_thisKey : forall s k, I s -> I (set_thisKey k s).
Hypothesis I_isKeyDown : forall s b, I s -> I (set_isKeyDown b s).
Hypothesis I_lastKeyState : forall s l, I s -> I (set_lastKeyState l s).
Hypothesis I_lastDebounceTime : forall s l, I s -> I (set_lastDebounceTime l s).
Hypothesis E_PinMode : forall p m, E (PinMode p m).
Hypothesis E_DigitalWrite : forall p l, E (DigitalWrite p l).
Hypothesis E_Delay : forall ms, E (Delay ms).
Hypothesis press_respects :
  forall key, scanned key = true -> respects I E (press key).
Hypothesis release_respects :
  forall key, scanned key = true -> respects I E (release key).

Lemma cell_scanned io row col s :
  row < 8 -> col < 9 ->
  filtered (visited io row col s) = false ->
  scanned (col + row * 10) = true.
Proof.
  intros Hr Hc Hf. rewrite filtered_visited in Hf.
  unfold scanned. rewrite Nat.Div0.mod_add.
  assert (Hlt : col + row * 10 < 80) by lia.
  apply Nat.ltb_lt in Hlt. rewrite Hlt. cbn [andb].
  destruct (Nat.eqb_spec (col mod 10) 8) as [H8|H8].
  - cbn [andb] in Hf. apply negb_false_iff in Hf. rewrite Hf.
    now rewrite orb_true_r.
  - rewrite Nat.mod_small in * by lia.
    assert (Hc8 : col < 8) by lia. apply Nat.ltb_lt in Hc8. now rewrite Hc8.
Qed.

Lemma key_went_down_respects s :
  scanned (thisKey s) = true -> I s ->
  I (run key_went_down s) /\ Forall E (calls key_went_down s).
Proof.
  intros Hk Hs. unfold key_went_down. rewrite run_when, calls_when.
  destruct (_ && _); [|split; [exact Hs | constructor]].
  rewrite run_andThen, calls_andThen, run_assign, calls_assign,
    run_reading, calls_reading.
  cbn [app thisKey set_lastKeyState].
  apply press_respects; [exact Hk | apply I_lastKeyState, Hs].
Qed.

Lemma key_went_up_respects s :
  scanned (thisKey s) = true -> I s ->
  I (run key_went_up s) /\ Forall E (calls key_went_up s).
Proof.
  intros Hk Hs. unfold key_went_up. rewrite run_when, calls_when.
  destruct (_ && _); [|split; [exact Hs | constructor]].
  rewrite run_andThen, calls_andThen, run_assign, calls_assign,
    run_reading, calls_reading.
  cbn [app thisKey set_lastKeyState].
  apply release_respects; [exact Hk | apply I_lastKeyState, Hs].
Qed.

Lemma scan_columns_respects io row cols :
  row < 8 -> Forall (fun col => col < 9) cols ->
  respects I E (scan_columns io row cols).
Proof.
  intros Hr Hcols. induction Hcols as [|col rest Hc _ IH]; intros s Hs.
  - split; [exact Hs | constructor].
  - assert (Hv : I (visited io row col s))
      by (apply I_isKeyDown, I_thisKey, Hs).
    unfold run, calls. rewrite scan_columns_cons.
    destruct (filtered _) eqn:Hf; [split; [exact Hv | constructor]|].
    destruct (debouncing _ _); [apply IH, Hv|].
    pose proof (cell_scanned io row col s Hr Hc Hf) as Hsc.
    destruct (key_went_down_respects (visited io row col s) Hsc Hv)
      as [Hd1 Hd2].
    assert (Hk : thisKey (run key_went_down (visited io row col s))
                 = col + row * 10)
      by (rewrite key_went_down_keeps_thisKey; reflexivity).
    destruct (key_went_up_respects _ (eq_ind_r (fun k => scanned k = true) Hsc Hk) Hd1)
      as [Hu1 Hu2].
    destruct (IH _ Hu1) as [Hr1 Hr2].
    fold (run (key_went_down ;; key_went_up ;; scan_columns io row rest)
            (visited io row col s)).
    fold (calls (key_went_down ;; key_went_up ;; scan_columns io row rest)
            (visited io row col s)).
    rewrite !run_andThen, !calls_andThen. split; [exact Hr1|].
    repeat (apply Forall_app; split); assumption.
Qed.

Lemma scan_row_respects io row : row < 8 -> respects I E (scan_row io row).
Proof.
  intros Hr. unfold scan_row.
  apply respects_andThen; [apply respects_call, E_PinMode|].
  apply respects_andThen; [apply respects_call, E_DigitalWrite|].
  apply respects_andThen.
  { apply scan_columns_respects; [exact Hr|].
    cbn [seq]. repeat constructor; lia. }
  apply respects_andThen.
  { apply respects_assign. intros s Hs. cbv beta.
    apply I_lastDebounceTime, Hs. }
  apply respects_andThen; [apply respects_call, E_DigitalWrite|].
  apply respects_andThen; [apply respects_call, E_Delay|].
  apply respects_call, E_PinMode.
Qed.

Lemma scan_rows_respects io rows :
  Forall (fun row => row < 8) rows -> respects I E (scan_rows io rows).
Proof.
  intros Hrows. induction Hrows as [|row rest Hr _ IH]; cbn [scan_rows].
  - apply respects_skip.
  - apply respects_andThen; [now apply scan_row_respects | exact IH].
Qed.

Lemma loop_respects io : respects I E (loop io).
Proof.
  unfold loop.
  apply respects_andThen; [apply respects_assign; intros; now apply I_thisKey|].
  apply respects_andThen; [apply respects_assign; intros; now apply I_isKeyDown|].
  apply scan_rows_respects. cbn [seq]. repeat constructor; lia.
Qed.

Lemma loops_respects ios : respects I E (loops ios).
Proof.
  induction ios as [|io rest IH]; cbn [loops];
    [apply respects_skip | apply respects_andThen; [apply loop_respects | exact IH]].
Qed.

End Respects.

Lemma forallb_Forall {A} (f : A -> bool) l :
  forallb f l = true -> Forall (fun x => f x = true) l.
Proof.
  induction l as [|x l IH]; cbn; intros H; constructor;
    apply andb_prop in H as [H1 H2]; auto.
Qed.

Lemma synced_config s s' :
  config_view s' = config_view s -> synced s -> synced s'.
Proof.
  unfold config_view, synced, table_built. intros Hc.
  injection Hc as Ht Hk He.
  rewrite !keymap_after_setKeymap, Ht, Hk, He. tauto.
Qed.

Lemma synced_cycle_target s : synced s -> synced (run cycle_target s).
Proof.
  intros (Hv & Hrom & Hslot & Hlen & Hb).
  rewrite cycle_target_run by assumption.
  pose proof (next_target_valid s Hv) as Hn.
  unfold synced, table_built.
  rewrite setKeymap_twice, !keymap_after_setKeymap.
  cbn [target keymap eeprom set_keymap set_eeprom set_target run setKeymap
       assign fst].
  rewrite !store_all_length, length_insert.
  repeat split; try assumption; try apply Hn.
  apply list_lookup_total_insert_eq, Hrom.
Qed.

Lemma press_synced key s : synced s -> synced (run (press key) s).
Proof.
  intros Hs. destruct ((key =? 4) && cmdrPressed s) eqn:Hc.
  - apply andb_prop in Hc as [Hk Hc]. apply Nat.eqb_eq in Hk as ->.
    unfold run. rewrite press_F1_commodore by assumption.
    now apply synced_cycle_target.
  - eapply synced_config; [|exact Hs].
    destruct (Nat.eqb_spec key 4) as [->|Hne].
    + apply press_F1_keeps_config. exact Hc.
    + now apply press_keeps_config.
Qed.

Lemma release_synced key s : synced s -> synced (run (release key) s).
Proof.
  intros Hs. eapply synced_config; [|exact Hs]. apply release_keeps_config.
Qed.

Lemma synced_lookup s key :
  synced s -> scanned key = true ->
  keymap s !!! key = table (target s) !!! key.
Proof.
  intros (_ & _ & _ & Hlen & Hb) Hsc. unfold table_built in Hb.
  rewrite <- Hb at 1.
  assert (Hk : key < 80).
  { unfold scanned in Hsc. apply andb_prop in Hsc as [Hsc _].
    now apply Nat.ltb_lt in Hsc. }
  rewrite setKeymap_lookup_table by assumption. now rewrite Hsc.
Qed.

Ltac table_value H :=
  match type of H with
  | _ = ?rhs => let v := eval vm_compute in rhs in change rhs with v in H
  end.

Lemma forallb_mjoin_replicate {A} (f : A -> bool) n l :
  forallb f l = true -> forallb f (mjoin (replicate n l)) = true.
Proof.
  intros Hl. induction n as [|n IH]; [reflexivity|].
  simpl. now rewrite forallb_app, Hl, IH.
Qed.

Lemma cycle_target_no_raw s : forallb no_raw (calls cycle_target s) = true.
Proof.
  unfold cycle_target.
  rewrite !calls_andThen, rotate_target_calls, calls_reading, blinkLED_calls.
  rewrite !forallb_app. cbn [forallb app].
  rewrite forallb_mjoin_replicate; [reflexivity|].
  unfold blink_once. unfold_cmds. split_ifs; reflexivity.
Qed.

Ltac no_raw_case Hk :=
  table_value Hk; unfold_cmds; cbn; rewrite ?Hk; split_ifs;
  rewrite ?Hk; reflexivity.

Lemma press_no_raw key s :
  scanned key = true -> synced s ->
  forallb no_raw (calls (press key) s) = true.
Proof.
  intros Hsc Hs. pose proof (synced_lookup s key Hs Hsc) as Hk.
  destruct Hs as (Hv & _). unfold valid_target, MAXTARGETS in Hv.
  destruct s as [tk kd ls rs ct cm em ps cl lks ldt sh km led tg rom].
  cbn [keymap target] in Hk, Hv.
  assert (Ht : (tg = 1 \/ tg = 2 \/ tg = 3 \/ tg = 4)%Z) by lia.
  destruct Ht as [Ht | [Ht | [Ht | Ht]]]; subst tg;
    (do 4 (destruct key as [|key]; [no_raw_case Hk |]));
    (destruct key as [|key];
       [destruct cm;
          [unfold calls; rewrite press_F1_commodore by reflexivity;
           apply cycle_target_no_raw
          | no_raw_case Hk] |]);
    (do 75 (destruct key as [|key];
       [first [discriminate Hsc | no_raw_case Hk] |]));
    discriminate Hsc.
Qed.

Lemma release_no_raw key s :
  scanned key = true -> synced s ->
  forallb no_raw (calls (release key) s) = true.
Proof.
  intros Hsc Hs. pose proof (synced_lookup s key Hs Hsc) as Hk.
  destruct Hs as (Hv & _). unfold valid_target, MAXTARGETS in Hv.
  destruct s as [tk kd ls rs ct cm em ps cl lks ldt sh km led tg rom].
  cbn [keymap target] in Hk, Hv.
  assert (Ht : (tg = 1 \/ tg = 2 \/ tg = 3 \/ tg = 4)%Z) by lia.
  destruct Ht as [Ht | [Ht | [Ht | Ht]]]; subst tg;
    (do 80 (destruct key as [|key];
       [first [discriminate Hsc | no_raw_case Hk] |]));
    discriminate Hsc.
Qed.

Lemma setup_pins_keeps_config led : keeps config_view (setup_pins led).
Proof.
  unfold setup_pins.
  destruct led; cbn [negb foldr rowPinMap colPinMap]; keeps_tac.
Qed.

Lemma setup_pins_no_raw led s : forallb no_raw (calls (setup_pins led) s) = true.
Proof. destruct led; reflexivity. Qed.

Lemma load_target_synced s :
  0 < length (eeprom s) ->
  valid_target (target (run load_target s))
  /\ eeprom (run load_target s) !!! 0 = target (run load_target s)
  /\ length (eeprom (run load_target s)) = length (eeprom s)
  /\ keymap (run load_target s) = keymap s
  /\ forallb no_raw (calls load_target s) = true.
Proof.
  intros Hrom.
  destruct (decide (valid_target (eeprom s !!! 0))) as [Hv|Hv].
  - destruct (load_target_valid s _ eq_refl Hv) as [-> ->].
    repeat split; apply Hv.
  - destruct (load_target_invalid s _ eq_refl Hv) as [-> ->].
    cbn [target eeprom keymap set_eeprom set_target].
    rewrite length_insert, list_lookup_total_insert_eq by exact Hrom.
    unfold valid_target, MAXTARGETS. repeat split; lia.
Qed.

Lemma setup_synced led s :
  0 < length (eeprom s) -> length (keymap s) = 80 ->
  synced (run (setup led) s)
  /\ forallb no_raw (calls (setup led) s) = true.
Proof.
  intros Hrom Hlen. unfold setup.
  set (s1 := run (setup_pins led) s).
  assert (Hc : config_view s1 = config_view s)
    by apply setup_pins_keeps_config.
  assert (Hk : keymap s1 = keymap s)
    by exact (f_equal (fun c => snd (fst c)) Hc).
  assert (He : eeprom s1 = eeprom s) by exact (f_equal snd Hc).
  destruct (load_target_synced s1) as (Hv & Hslot & Hl & Hkm & Hraw);
    [rewrite He; exact Hrom|].
  set (s2 := run load_target s1) in *.
  rewrite run_andThen, run_andThen, calls_andThen, calls_andThen.
  fold s1 s2. rewrite setup_tail_run. split.
  - unfold synced, table_built.
    rewrite setKeymap_twice, keymap_after_setKeymap, !store_all_length.
    change (target (run setKeymap s2)) with (target s2).
    change (eeprom (run setKeymap s2)) with (eeprom s2).
    rewrite Hkm, Hk, Hl, He. repeat split; try assumption; apply Hv.
  - rewrite !forallb_app, setup_pins_no_raw, Hraw.
    rewrite !calls_andThen, calls_reading, blinkLED_calls, !forallb_app.
    rewrite forallb_mjoin_replicate; [reflexivity|].
    unfold blink_once. unfold_cmds. split_ifs; reflexivity.
Qed.

Lemma loops_synced ios :
  respects synced (fun e => no_raw e = true) (loops ios).
Proof.
  apply loops_respects.
  - intros s k. apply synced_config. reflexivity.
  - intros s b. apply synced_config. reflexivity.
  - intros s l. apply synced_config. reflexivity.
  - intros s l. apply synced_config. reflexivity.
  - reflexivity.
  - reflexivity.
  - reflexivity.
  - intros key Hk s Hs. split; [apply press_synced, Hs|].
    apply forallb_Forall, press_no_raw; assumption.
  - intros key Hk s Hs. split; [apply release_synced, Hs|].
    apply forallb_Forall, release_no_raw; assumption.
Qed.

Lemma sketch_synced led ios rom :
  0 < length rom ->
  synced (run (sketch led ios) (power_on rom))
  /\ Forall (fun e => no_raw e = true) (calls (sketch led ios) (power_on rom)).
Proof.
  intros Hrom. unfold sketch. rewrite run_andThen, calls_andThen.
  destruct (setup_synced led (power_on rom)) as [Hs Hc];
    [exact Hrom | apply length_replicate |].
  destruct (loops_synced ios _ Hs) as [Hs' Hc'].
  split; [exact Hs'|]. apply Forall_app. split; [|exact Hc'].
  now apply forallb_Forall.
Qed.

(** X7.  The configuration stays consistent.  After [setup] and any number
    of passes of [loop], whatever is read from the matrix: the target is
    one of 1 to 4, slot 0 of the EEPROM holds it, and [keymap] is the table
    of that target. *)
Theorem run_keeps_configuration_synced led ios rom :
  0 < length rom ->
  let s := run (sketch led ios) (power_on rom) in
  valid_target (target s) /\ eeprom s !!! 0 = target s
  /\ keymap (run setKeymap s) = keymap s /\ length (keymap s) = 80.
Proof.
  intros Hrom. destruct (sketch_synced led ios rom Hrom) as [Hs _].
  destruct Hs as (Hv & _ & Hslot & Hlen & Hb). cbv zeta. auto.
Qed.

Lemma run_keeps_configuration_synced_witness :
  let ios := [matrix (only [75]) 2000; matrix (only [75; 4]) 2010] in
  0 < length blank_rom /\
  eeprom (run (sketch true ios) (power_on blank_rom)) !!! 0
  = target (run (sketch true ios) (power_on blank_rom)).
Proof.
  cbv zeta.
  assert (H : 0 < length blank_rom) by (vm_compute; lia).
  split; [exact H|].
  exact (proj1 (proj2 (run_keeps_configuration_synced true
    [matrix (only [75]) 2000; matrix (only [75; 4]) 2010] blank_rom H))).
Defined.

(** X8.  The keyboard is never given the value of a key macro as a
    character.  In every call that a run makes to the HID keyboard, a named
    key is passed by its macro; what is passed from [keymap] is a
    character. *)
Theorem keyboard_never_gets_raw_macro led ios rom :
  0 < length rom ->
  Forall (fun e => no_raw e = true) (calls (sketch led ios) (power_on rom)).
Proof. intros Hrom. now apply sketch_synced. Qed.

Lemma keyboard_never_gets_raw_macro_witness :
  let ios := [matrix (only [60; 65; 66]) 2000] in
  0 < length (rom_with 3) /\
  Forall (fun e => no_raw e = true)
    (calls (sketch true ios) (power_on (rom_with 3))).
Proof.
  cbv zeta.
  assert (H : 0 < length (rom_with 3)) by (vm_compute; lia).
  split; [exact H|].
  exact (keyboard_never_gets_raw_macro true
           [matrix (only [60; 65; 66]) 2000] (rom_with 3) H).
Defined.

(** ** A pass in which nothing changes *)

Lemma scan_columns_idle io row s :
  unchanged_row io row (lastKeyState s) ->
  reads_down io 6 8 = lastKeyState s !!! 68 ->
  scan_columns io row (seq 0 9) s = (visited io row 8 s, []).
Proof.
  intros Hq H68.
  change (seq 0 9) with ([0; 1; 2; 3; 4; 5; 6; 7] ++ [8]).
  rewrite scan_columns_unchanged by assumption.
  destruct (filtered (visited io row 8 (visited io row 7 s))) eqn:Hf.
  - rewrite scan_columns_cons, Hf. reflexivity.
  - assert (Hrow : row = 6).
    { rewrite filtered_visited in Hf. change (8 mod 10 =? 8) with true in Hf.
      cbn [andb] in Hf. apply negb_false_iff, Nat.eqb_eq in Hf. lia. }
    subst row. rewrite scan_columns_quiet_cell; [reflexivity | exact Hf |].
    exact H68.
Qed.

Lemma scan_row_idle io row s :
  unchanged_row io row (lastKeyState s) ->
  reads_down io 6 8 = lastKeyState s !!! 68 ->
  keyboard (calls (scan_row io row) s) = []
  /\ eeprom_writes (calls (scan_row io row) s) = []
  /\ outside_scan (run (scan_row io row) s) = outside_scan s.
Proof.
  intros Hq H68. unfold scan_row.
  rewrite !calls_andThen, !run_andThen, !run_call, !calls_call, run_assign,
    calls_assign.
  unfold run, calls. rewrite scan_columns_idle by assumption.
  cbn [fst snd]. repeat split.
Qed.

Lemma outside_scan_lastKeyState s s' :
  outside_scan s' = outside_scan s -> lastKeyState s' = lastKeyState s.
Proof.
  intros H. exact (f_equal (fun v => fst (snd (fst (fst v)))) H).
Qed.

Lemma scan_rows_idle io rows s :
  (forall row, row ∈ rows -> unchanged_row io row (lastKeyState s)) ->
  reads_down io 6 8 = lastKeyState s !!! 68 ->
  keyboard (calls (scan_rows io rows) s) = []
  /\ eeprom_writes (calls (scan_rows io rows) s) = []
  /\ outside_scan (run (scan_rows io rows) s) = outside_scan s.
Proof.
  revert s. induction rows as [|row rest IH]; intros s Hq H68.
  - repeat split.
  - destruct (scan_row_idle io row s) as (Hk & He & Ho);
      [apply Hq; left | exact H68 |].
    pose proof (outside_scan_lastKeyState _ _ Ho) as Hl.
    destruct (IH (run (scan_row io row) s)) as (Hk' & He' & Ho').
    { intros r Hr. rewrite Hl. apply Hq. now right. }
    { now rewrite Hl. }
    cbn [scan_rows].
    rewrite calls_andThen, run_andThen, keyboard_app, eeprom_writes_app.
    rewrite Hk, Hk', He, He', Ho', Ho. repeat split.
Qed.

(** X9.  A pass in which every scanned cell reads what is already recorded
    for it is silent: no call to the keyboard, no store to the EEPROM, and
    nothing changed but the bookkeeping of the scan.  Keys that are held do
    not repeat, whatever the clock says. *)
Theorem idle_pass_is_silent io s :
  (forall row, row < 8 -> unchanged_row io row (lastKeyState s)) ->
  reads_down io 6 8 = lastKeyState s !!! 68 ->
  keyboard (calls (loop io) s) = []
  /\ eeprom_writes (calls (loop io) s) = []
  /\ outside_scan (run (loop io) s) = outside_scan s.
Proof.
  intros Hq H68. unfold loop.
  rewrite !calls_andThen, !run_andThen, !calls_assign, !run_assign.
  cbn [app].
  destruct (scan_rows_idle io (seq 0 8)
              (set_isKeyDown false (set_thisKey 0 s))) as (Hk & He & Ho).
  - intros row Hr. apply Hq.
    cbn [seq] in Hr.
    repeat (apply elem_of_cons in Hr as [->|Hr]; [lia|]). inversion Hr.
  - exact H68.
  - rewrite Hk, He, Ho. repeat split.
Qed.

Lemma idle_pass_is_silent_witness :
  let s := run (loop (matrix (only [12; 17]) 2000)) (booted 1) in
  let io := matrix (only [12; 17]) 2008 in
  (forall row, row < 8 -> unchanged_row io row (lastKeyState s)) /\
  reads_down io 6 8 = lastKeyState s !!! 68 /\
  keyboard (calls (loop io) s) = [].
Proof.
  cbv zeta.
  assert (Hq : forall row, row < 8 ->
            unchanged_row (matrix (only [12; 17]) 2008) row
              (lastKeyState (run (loop (matrix (only [12; 17]) 2000))
                               (booted 1)))).
  { intros row Hr col Hc.
    do 8 (destruct row as [|row];
      [do 8 (destruct col as [|col]; [vm_compute; reflexivity|]); lia|]).
    lia. }
  assert (H68 : reads_down (matrix (only [12; 17]) 2008) 6 8
                = lastKeyState (run (loop (matrix (only [12; 17]) 2000))
                                  (booted 1)) !!! 68)
    by (vm_compute; reflexivity).
  split; [exact Hq | split; [exact H68 |]].
  exact (proj1 (idle_pass_is_silent _ _ Hq H68)).
Defined.

(** ** Latches *)

Ltac latch_case Hclear :=
  use_clear Hclear; unfold latches_clear; unfold_cmds_all; split_atoms;
  try discriminate; try congruence; try lia;
  subst;
  rewrite ?list_lookup_total_insert_eq by lia;
  repeat match goal with
         | H : ?l !!! ?k = _ |- context [?l !!! ?k] => rewrite H
         end;
  cbn; first [reflexivity | congruence].

(** X10.  Latches are transient.  If the latches of a position are clear when
    it is pressed, and the target, the table and the latches of that
    position are untouched until it is released (the modifier flags and the
    latches of every other position may change), they are clear again
    after its release. *)
Theorem release_clears_latches key s s' :
  key < 80 ->
  length (shifted s) = 80 ->
  length (shifted s') = 80 ->
  latches_clear key s = true ->
  kept_for key (run (press key) s) s' ->
  latches_clear key (run (release key) s') = true.
Proof.
  intros Hkey Hlen Hlen' Hclear (Ht & Hk & Hs & Hm & Hp & Hcl).
  destruct s as [tk kd ls rs ct cm em ps cl lks ldt sh km led tg rom].
  destruct s' as [tk' kd' ls' rs' ct' cm' em' ps' cl' lks' ldt' sh' km' led' tg' rom'].
  cbn in Hlen, Hlen'. unfold latches_clear in Hclear.
  do 4 (destruct key as [|key]; [solve [latch_case Hclear] |]).
  destruct key as [|key].
  { destruct cm.
    - unfold run in Ht, Hs.
      rewrite press_F1_commodore in Ht, Hs by reflexivity.
      assert (Hsh : keeps shifted cycle_target) by keeps_tac.
      fold (run cycle_target
              (State tk kd ls rs ct true em ps cl lks ldt sh km led tg rom))
        in Hs.
      rewrite Hsh in Hs. clear Ht Hk Hm Hp Hcl Hsh.
      cbn [shifted] in Hs. use_clear Hclear.
      unfold latches_clear. unfold_cmds. cbn in *. rewrite Hs.
      destruct (tg' =? ASCII)%Z, ls', rs'; cbn; rewrite ?Hs; reflexivity.
    - latch_case Hclear. }
  do 73 (destruct key as [|key]; [solve [latch_case Hclear] |]).
  do 2 (destruct key as [|key]; [solve [latch_case Hclear] |]).
  exfalso; lia.
Qed.

Lemma release_clears_latches_witness :
  let s := run (press 17) (booted 4) in
  let s' := run (press 3)
              (run (press 75) (run (release 17) (run (press 23) s))) in
  23 < 80 /\ length (shifted s) = 80 /\ length (shifted s') = 80 /\
  latches_clear 23 s = true /\ kept_for 23 (run (press 23) s) s' /\
  enterMenu s' <> enterMenu (run (press 23) s) /\
  latches_clear 23 (run (press 23) s) = false /\
  latches_clear 23 (run (release 23) s') = true.
Proof.
  cbv zeta.
  set (s := run (press 17) (booted 4)).
  set (s' := run (press 3)
               (run (press 75) (run (release 17) (run (press 23) s)))).
  assert (H1 : 23 < 80) by lia.
  assert (H2 : length (shifted s) = 80) by (vm_compute; reflexivity).
  assert (H2' : length (shifted s') = 80) by (vm_compute; reflexivity).
  assert (H3 : latches_clear 23 s = true) by (vm_compute; reflexivity).
  assert (H4 : kept_for 23 (run (press 23) s) s')
    by (vm_compute; repeat split; reflexivity).
  assert (H5 : enterMenu s' <> enterMenu (run (press 23) s))
    by (vm_compute; discriminate).
  assert (H6 : latches_clear 23 (run (press 23) s) = false)
    by (vm_compute; reflexivity).
  repeat (split; [assumption|]).
  exact (release_clears_latches 23 _ _ H1 H2 H2' H3 H4).
Defined.

(** ** The LED and the startup *)

Lemma total_delay_cons e l :
  total_delay (e :: l)
  = match e with Delay ms => (ms + total_delay l)%Z | _ => total_delay l end.
Proof. reflexivity. Qed.

Lemma total_delay_app l1 l2 :
  total_delay (l1 ++ l2) = (total_delay l1 + total_delay l2)%Z.
Proof.
  induction l1 as [|e l1 IH]; [reflexivity|].
  rewrite <- app_comm_cons, !total_delay_cons, IH. destruct e; lia.
Qed.

Lemma low_writes_app l1 l2 :
  low_writes (l1 ++ l2) = low_writes l1 + low_writes l2.
Proof. unfold low_writes. now rewrite List.filter_app, length_app. Qed.

Lemma blink_once_counts s :
  total_delay (calls blink_once s) = (2 * BLINK_RATE)%Z
  /\ low_writes (calls blink_once s) = 1.
Proof.
  unfold blink_once. unfold_cmds. split_ifs; split; reflexivity.
Qed.

(** X11.  [blinkLED n] pulses the LED n times and takes 2 * 75 ms for each
    pulse; for n of 0 or less it does nothing at all.  It never touches the
    globals or the keyboard. *)
Theorem blinkLED_pulses n s :
  run (blinkLED n) s = s
  /\ low_writes (calls (blinkLED n) s) = Z.to_nat n
  /\ total_delay (calls (blinkLED n) s) = (2 * BLINK_RATE * Z.max 0 n)%Z
  /\ keyboard (calls (blinkLED n) s) = []
  /\ ((n <= 0)%Z -> calls (blinkLED n) s = []).
Proof.
  destruct (blink_once_counts s) as [Hd Hl].
  split; [apply blinkLED_run|].
  rewrite !blinkLED_calls.
  assert (Hn : forall k,
    low_writes (mjoin (replicate k (calls blink_once s))) = k
    /\ total_delay (mjoin (replicate k (calls blink_once s)))
       = (2 * BLINK_RATE * Z.of_nat k)%Z).
  { induction k as [|k [IH1 IH2]]; [split; reflexivity|].
    simpl mjoin. rewrite low_writes_app, total_delay_app, IH1, IH2, Hd, Hl.
    split; lia. }
  destruct (Hn (Z.to_nat n)) as [H1 H2].
  split; [exact H1|]. split; [rewrite H2; lia|].
  split.
  - rewrite <- blinkLED_calls. apply blinkLED_keyboard.
  - intros Hle. replace (Z.to_nat n) with 0 by lia. reflexivity.
Qed.

Lemma setup_pins_effects led s :
  lastKeyState (run (setup_pins led) s) = replicate 80 false
  /\ activeLED (run (setup_pins led) s) = (if led then 17 else 0)%Z
  /\ keyboard (calls (setup_pins led) s) = [KbReleaseAll]
  /\ modifier_view (run (setup_pins led) s) = modifier_view s.
Proof. destruct led; repeat split. Qed.

Lemma load_target_frame s :
  lastKeyState (run load_target s) = lastKeyState s
  /\ activeLED (run load_target s) = activeLED s
  /\ keyboard (calls load_target s) = []
  /\ modifier_view (run load_target s) = modifier_view s.
Proof.
  unfold load_target. unfold_cmds. unfold EEPROM_write. split_ifs;
    repeat split.
Qed.

(** X12.  What [setup] does besides loading the target.  It records every key
    as up, makes one call to the keyboard (release everything), takes pin 0
    for the LED if an LED is detected there (the pin reads LOW) and pin 17
    otherwise, and ends by waiting 1000 ms and blinking the LED as many
    times as the number of the target. *)
Theorem setup_effects led s :
  let s' := run (setup led) s in
  lastKeyState s' = replicate 80 false
  /\ activeLED s' = (if led then 17 else 0)%Z
  /\ modifier_view s' = modifier_view s
  /\ keyboard (calls (setup led) s) = [KbReleaseAll]
  /\ exists before,
       calls (setup led) s
       = before ++ [Delay LED_START_DELAY]
         ++ mjoin (replicate (Z.to_nat (target s')) (calls blink_once s'))
       /\ total_delay before = 0%Z /\ low_writes before = 1.
Proof.
  cbv zeta. unfold setup.
  destruct (setup_pins_effects led s) as (Hl & Ha & Hk & Hm).
  set (s1 := run (setup_pins led) s) in *.
  destruct (load_target_frame s1) as (Hl2 & Ha2 & Hk2 & Hm2).
  set (s2 := run load_target s1) in *.
  rewrite run_andThen, run_andThen, setup_tail_run. fold s1 s2.
  change (lastKeyState (run setKeymap s2)) with (lastKeyState s2).
  change (activeLED (run setKeymap s2)) with (activeLED s2).
  change (modifier_view (run setKeymap s2)) with (modifier_view s2).
  change (target (run setKeymap s2)) with (target s2).
  rewrite Hl2, Ha2, Hm2, Hl, Ha, Hm.
  split; [reflexivity | split; [reflexivity | split; [reflexivity |]]].
  rewrite calls_andThen, calls_andThen. fold s1 s2.
  rewrite !calls_andThen, calls_reading, blinkLED_calls.
  change (calls setKeymap s2) with (@nil event).
  change (calls (call (Delay LED_START_DELAY)) (run setKeymap s2))
    with [Delay LED_START_DELAY].
  split.
  - rewrite !keyboard_app, Hk, Hk2. cbn [app].
    rewrite <- blinkLED_calls. now rewrite blinkLED_keyboard.
  - exists (calls (setup_pins led) s ++ calls load_target s1).
    split.
    + rewrite <- !app_assoc. cbn [app].
      erewrite (blink_once_calls_led (run setKeymap s2)); [reflexivity|].
      reflexivity.
    + unfold load_target. destruct led; subst s1;
        unfold_cmds; unfold EEPROM_write; split_ifs; split; reflexivity.
Qed.

(** ** Rotating the target *)

Lemma cycle_target_keeps_modifiers : keeps modifier_view cycle_target.
Proof. keeps_tac. Qed.

Lemma press_F1_rotates s :
  cmdrPressed s = true -> valid_target (target s) ->
  target (run (press 4) s) = next_target s
  /\ modifier_view (run (press 4) s) = modifier_view s.
Proof.
  intros Hc Hv. unfold run. rewrite press_F1_commodore by assumption.
  fold (run cycle_target s). split.
  - rewrite cycle_target_run by assumption. reflexivity.
  - apply cycle_target_keeps_modifiers.
Qed.

Lemma modifier_view_flags s s' :
  modifier_view s' = modifier_view s ->
  lShifted s' = lShifted s /\ rShifted s' = rShifted s
  /\ ctrlPressed s' = ctrlPressed s /\ cmdrPressed s' = cmdrPressed s.
Proof. unfold modifier_view. intros H. injection H. auto. Qed.

(** X13.  The rotation of the target is a cycle of length four, and backward
    undoes forward.  With Commodore held and neither Ctrl nor Shift: four
    presses of F1 bring the target back; and one press of F1, then Shift
    held, then F1 again, leave the target where it was. *)
Theorem target_rotation_round_trip s :
  cmdrPressed s = true ->
  ctrlPressed s = false ->
  lShifted s = false ->
  rShifted s = false ->
  valid_target (target s) ->
  target (run (press 4 ;; press 4 ;; press 4 ;; press 4) s) = target s
  /\ target (run (press 4 ;; press 17 ;; press 4) s) = target s.
Proof.
  intros Hc Hctrl Hl Hr Hv.
  assert (Hstep : forall s0,
    cmdrPressed s0 = true -> ctrlPressed s0 = false -> lShifted s0 = false ->
    rShifted s0 = false -> valid_target (target s0) ->
    let s1 := run (press 4) s0 in
    cmdrPressed s1 = true /\ ctrlPressed s1 = false /\ lShifted s1 = false
    /\ rShifted s1 = false /\ valid_target (target s1)
    /\ target s1 = (if (target s0 =? 4)%Z then 1 else target s0 + 1)%Z).
  { intros s0 H1 H2 H3 H4 H5. cbv zeta.
    destruct (press_F1_rotates s0 H1 H5) as [Ht Hm].
    apply modifier_view_flags in Hm as (-> & -> & -> & ->).
    rewrite Ht. unfold next_target, shiftedKey, MAXTARGETS.
    rewrite H2, H3, H4. cbn [orb].
    unfold valid_target, MAXTARGETS in *.
    repeat split; try assumption;
      destruct (Z.eqb_spec (target s0) 4); lia. }
  split.
  - rewrite !run_andThen.
    destruct (Hstep s Hc Hctrl Hl Hr Hv) as (A1 & A2 & A3 & A4 & A5 & E1).
    destruct (Hstep _ A1 A2 A3 A4 A5) as (B1 & B2 & B3 & B4 & B5 & E2).
    destruct (Hstep _ B1 B2 B3 B4 B5) as (C1 & C2 & C3 & C4 & C5 & E3).
    destruct (Hstep _ C1 C2 C3 C4 C5) as (_ & _ & _ & _ & _ & E4).
    rewrite E4, E3, E2, E1. unfold valid_target, MAXTARGETS in Hv.
    assert (Ht : (target s = 1 \/ target s = 2 \/ target s = 3
                  \/ target s = 4)%Z) by lia.
    destruct Ht as [Ht | [Ht | [Ht | Ht]]]; rewrite Ht; reflexivity.
  - rewrite !run_andThen.
    destruct (Hstep s Hc Hctrl Hl Hr Hv) as (A1 & A2 & A3 & A4 & A5 & E1).
    set (s1 := run (press 4) s) in *.
    change (run (press 17) s1) with (set_lShifted true s1).
    destruct (press_F1_rotates (set_lShifted true s1)) as [Ht _];
      [exact A1 | exact A5 |].
    rewrite Ht. unfold next_target, shiftedKey, MAXTARGETS.
    cbn [ctrlPressed lShifted set_lShifted target orb]. rewrite A2, E1.
    unfold valid_target, MAXTARGETS in Hv.
    destruct (Z.eqb_spec (target s) 4) as [->|H4]; [reflexivity|].
    destruct (Z.eqb_spec (target s + 1) 1); lia.
Qed.

Lemma target_rotation_round_trip_witness :
  let s := run (press 75) (booted 3) in
  cmdrPressed s = true /\ ctrlPressed s = false /\ lShifted s = false /\
  rShifted s = false /\ valid_target (target s) /\
  target (run (press 4) s) = 4%Z /\
  target (run (press 4 ;; press 17 ;; press 4) s) = 3%Z.
Proof.
  cbv zeta.
  assert (Hv : valid_target (target (run (press 75) (booted 3))))
    by (vm_compute; split; discriminate).
  repeat (split; [first [exact Hv | vm_compute; reflexivity]|]).
  exact (proj2 (target_rotation_round_trip (run (press 75) (booted 3))
                  eq_refl eq_refl eq_refl eq_refl Hv)).
Defined.

(** ** A pass in which one key changes *)

Lemma scan_columns_restart io row col rest c s :
  scan_columns io row (col :: rest) (visited io row c s)
  = scan_columns io row (col :: rest) s.
Proof. rewrite !scan_columns_cons, visited_visited. reflexivity. Qed.

Lemma scan_columns_skip_unchanged io row cols col' rest s :
  Forall (fun c => c < 8 /\ cell_unchanged io (lastKeyState s) row c) cols ->
  scan_columns io row (cols ++ col' :: rest) s
  = scan_columns io row (col' :: rest) s.
Proof.
  intros Hq. revert s Hq. induction cols as [|c cols IH]; intros s Hq;
    [reflexivity|].
  apply Forall_cons in Hq as [[Hc Hu] Hq]. cbn [app].
  rewrite scan_columns_quiet_cell; [|now apply filtered_low | exact Hu].
  rewrite IH by exact Hq. apply scan_columns_restart.
Qed.

Lemma scan_columns_last_unchanged io row s :
  reads_down io 6 8 = lastKeyState s !!! 68 ->
  scan_columns io row [8] s = (visited io row 8 s, []).
Proof.
  intros H68. destruct (filtered (visited io row 8 s)) eqn:Hf.
  - rewrite scan_columns_cons, Hf. reflexivity.
  - assert (Hrow : row = 6).
    { rewrite filtered_visited in Hf. change (8 mod 10 =? 8) with true in Hf.
      cbn [andb] in Hf. apply negb_false_iff, Nat.eqb_eq in Hf. lia. }
    subst row. rewrite scan_columns_quiet_cell; [reflexivity | exact Hf |].
    exact H68.
Qed.

Lemma scan_columns_rest_unchanged io row cols s :
  Forall (fun c => c < 8 /\ cell_unchanged io (lastKeyState s) row c) cols ->
  reads_down io 6 8 = lastKeyState s !!! 68 ->
  scan_columns io row (cols ++ [8]) s = (visited io row 8 s, []).
Proof.
  intros Hq H68. rewrite scan_columns_skip_unchanged by exact Hq.
  now apply scan_columns_last_unchanged.
Qed.

Lemma scan_view_isKeyDown s s' :
  scan_view s' = scan_view s -> isKeyDown s' = isKeyDown s.
Proof. unfold scan_view. congruence. Qed.

Lemma scan_view_lastKeyState s s' :
  scan_view s' = scan_view s -> lastKeyState s' = lastKeyState s.
Proof. unfold scan_view. congruence. Qed.

Lemma dispatch_keeps_scan_view down key : keeps scan_view (dispatch down key).
Proof. destruct down; [apply press_keeps_scan | apply release_keeps_scan]. Qed.

(** The cell that changed, when it is not being debounced. *)
Lemma scan_columns_changed_cell io row col rest down s :
  col < 8 ->
  reads_down io row col = down ->
  lastKeyState s !!! (col + row * 10) = negb down ->
  debouncing (millis_cell io row col) (visited io row col s) = false ->
  scan_columns io row (col :: rest) s
  = (dispatch down (col + row * 10) ;; scan_columns io row rest)
      (set_lastKeyState (<[col + row * 10 := down]> (lastKeyState s))
         (visited io row col s)).
Proof.
  intros Hc Hd Hl Hdeb.
  rewrite scan_columns_cons, Hdeb, filtered_low by exact Hc.
  set (v := visited io row col s).
  set (k := col + row * 10) in *.
  assert (Hvd : isKeyDown v = down) by exact Hd.
  assert (Hvk : thisKey v = k) by reflexivity.
  assert (Hvl : lastKeyState v = lastKeyState s) by reflexivity.
  destruct down.
  - (* the key went down *)
    unfold andThen. rewrite (key_went_down_fires v);
      [|exact Hvd | rewrite Hvk, Hvl; exact Hl].
    rewrite Hvk, Hvl. cbn [dispatch].
    set (sk := set_lastKeyState (<[k:=true]> (lastKeyState s)) v).
    assert (Hp : isKeyDown (fst (press k sk)) = true).
    { change (isKeyDown (run (press k) sk) = true).
      rewrite (scan_view_isKeyDown _ _ (press_keeps_scan k sk)).
      exact Hvd. }
    rewrite !(key_went_up_idle _ Hp). cbn [fst snd app]. reflexivity.
  - (* the key went up *)
    unfold andThen.
    assert (Hidle : key_went_down v = (v, [])).
    { unfold key_went_down, when, ifc, skip. now rewrite Hvd. }
    rewrite !Hidle. cbn [fst snd app dispatch].
    assert (Hfire : key_went_up v
      = release k (set_lastKeyState (<[k:=false]> (lastKeyState s)) v)).
    { unfold key_went_up, when, ifc. rewrite Hvd, Hvk, Hvl, Hl.
      cbn [negb andb]. unfold andThen, assign, reading. cbn [fst snd app].
      rewrite Hvk, Hvl. symmetry. apply surjective_pairing. }
    rewrite !Hfire. reflexivity.
Qed.

Lemma columns_around col :
  col < 8 -> seq 0 9 = seq 0 col ++ col :: seq (S col) (7 - col) ++ [8].
Proof.
  intros Hc. do 8 (destruct col as [|col]; [reflexivity|]). lia.
Qed.

Lemma rows_around row :
  row < 8 -> seq 0 8 = seq 0 row ++ row :: seq (S row) (7 - row).
Proof.
  intros Hr. do 8 (destruct row as [|row]; [reflexivity|]). lia.
Qed.

Lemma scan_columns_changed_row io row col down s :
  col < 8 ->
  reads_down io row col = down ->
  lastKeyState s !!! (col + row * 10) = negb down ->
  debouncing (millis_cell io row col) (visited io row col s) = false ->
  (forall c, c < 8 -> c <> col -> cell_unchanged io (lastKeyState s) row c) ->
  reads_down io 6 8 = lastKeyState s !!! 68 ->
  scan_columns io row (seq 0 9) s
  = (visited io row 8
       (run (dispatch down (col + row * 10))
          (set_lastKeyState (<[col + row * 10 := down]> (lastKeyState s))
             (visited io row col s))),
     calls (dispatch down (col + row * 10))
       (set_lastKeyState (<[col + row * 10 := down]> (lastKeyState s))
          (visited io row col s))).
Proof.
  intros Hc Hd Hl Hdeb Hq H68.
  rewrite (columns_around col Hc).
  rewrite scan_columns_skip_unchanged.
  2:{ apply Forall_forall. intros c Hin. apply elem_of_seq in Hin.
      split; [lia | apply Hq; lia]. }
  rewrite (scan_columns_changed_cell io row col _ down) by assumption.
  set (k := col + row * 10) in *.
  set (sk := set_lastKeyState (<[k:=down]> (lastKeyState s))
               (visited io row col s)).
  assert (Hlp : lastKeyState (run (dispatch down k) sk)
                = <[k:=down]> (lastKeyState s))
    by apply (scan_view_lastKeyState _ _ (dispatch_keeps_scan_view down k sk)).
  rewrite (cmd_eta (_ ;; _)), run_andThen, calls_andThen.
  unfold run at 1, calls at 2.
  rewrite scan_columns_rest_unchanged.
  - cbn [fst snd]. now rewrite app_nil_r.
  - apply Forall_forall. intros c Hin. apply elem_of_seq in Hin.
    split; [lia|]. unfold cell_unchanged. rewrite Hlp.
    rewrite list_lookup_total_insert_ne by (subst k; lia).
    apply Hq; lia.
  - rewrite Hlp, list_lookup_total_insert_ne by (subst k; lia). exact H68.
Qed.

Lemma outside_scan_visited io row col l s1 s2 :
  outside_scan s1 = outside_scan s2 ->
  outside_scan (set_lastKeyState l (visited io row col s1))
  = outside_scan (set_lastKeyState l s2).
Proof.
  destruct s1, s2. unfold outside_scan, modifier_view, config_view. cbn.
  intros H. injection H. intros. subst. reflexivity.
Qed.

Lemma outside_scan_bookkeeping l k b s :
  outside_scan (set_lastDebounceTime l (set_isKeyDown b (set_thisKey k s)))
  = outside_scan s.
Proof. reflexivity. Qed.

Lemma scan_row_changed io row col down s :
  col < 8 ->
  reads_down io row col = down ->
  lastKeyState s !!! (col + row * 10) = negb down ->
  debouncing (millis_cell io row col) (visited io row col s) = false ->
  (forall c, c < 8 -> c <> col -> cell_unchanged io (lastKeyState s) row c) ->
  reads_down io 6 8 = lastKeyState s !!! 68 ->
  let sk := set_lastKeyState (<[col + row * 10 := down]> (lastKeyState s))
              (visited io row col s) in
  keyboard (calls (scan_row io row) s)
  = keyboard (calls (dispatch down (col + row * 10)) sk)
  /\ outside_scan (run (scan_row io row) s)
     = outside_scan (run (dispatch down (col + row * 10)) sk).
Proof.
  intros Hc Hd Hl Hdeb Hq H68. cbv zeta.
  pose proof (scan_columns_changed_row io row col down s Hc Hd Hl Hdeb Hq H68)
    as Hrow.
  apply (f_equal fst) in Hrow as Hr. apply (f_equal snd) in Hrow as Hcs.
  cbn [fst snd] in Hr, Hcs.
  fold (run (scan_columns io row (seq 0 9)) s) in Hr.
  fold (calls (scan_columns io row (seq 0 9)) s) in Hcs.
  unfold scan_row.
  rewrite !calls_andThen, !run_andThen, !run_call, !calls_call, run_assign,
    calls_assign, Hr, Hcs.
  split.
  - rewrite !keyboard_app. cbn [keyboard List.filter is_keyboard app].
    now rewrite app_nil_r.
  - reflexivity.
Qed.

(** X14.  One key changes.  Let a pass read one cell of columns 0 to 7
    differently from what is recorded for it, every other scanned cell as
    recorded, with that cell not being debounced.  Then the pass makes the
    keyboard calls of one dispatch for that position ([press] if it reads
    down, [release] if up), made in a state that is the one before the
    pass with the new reading recorded, up to the bookkeeping of the scan;
    and the pass ends in the state that this dispatch leaves, again up to
    the bookkeeping of the scan. *)
Theorem one_change_one_dispatch io s row col down :
  row < 8 ->
  col < 8 ->
  reads_down io row col = down ->
  lastKeyState s !!! (col + row * 10) = negb down ->
  (forall r c, r < 8 -> c < 8 -> (r <> row \/ c <> col) ->
     cell_unchanged io (lastKeyState s) r c) ->
  reads_down io 6 8 = lastKeyState s !!! 68 ->
  debouncing (millis_cell io row col) (set_thisKey (col + row * 10) s) = false ->
  exists s0,
    outside_scan s0
    = outside_scan
        (set_lastKeyState (<[col + row * 10 := down]> (lastKeyState s)) s)
    /\ keyboard (calls (loop io) s)
       = keyboard (calls (dispatch down (col + row * 10)) s0)
    /\ outside_scan (run (loop io) s)
       = outside_scan (run (dispatch down (col + row * 10)) s0).
Proof.
  intros Hrow Hcol Hd Hl Hq H68 Hdeb.
  set (k := col + row * 10) in *.
  assert (Hk8 : k mod 10 <> 8).
  { subst k. rewrite Nat.Div0.mod_add, Nat.mod_small; lia. }
  set (s1 := set_isKeyDown false (set_thisKey 0 s)).
  (* the rows before *)
  destruct (scan_rows_idle io (seq 0 row) s1) as (Hk1 & _ & Ho1).
  { intros r Hr c Hc. apply elem_of_seq in Hr. apply Hq; lia. }
  { exact H68. }
  set (s2 := run (scan_rows io (seq 0 row)) s1) in *.
  pose proof (outside_scan_lastKeyState _ _ Ho1) as Hl2.
  change (lastKeyState s1) with (lastKeyState s) in Hl2.
  (* the row of the key *)
  destruct (scan_row_changed io row col down s2) as [Hk2 Ho2];
    try assumption.
  { rewrite Hl2. exact Hl. }
  { rewrite <- Hdeb. apply debouncing_depends; [reflexivity|].
    change (lastDebounceTime s2 !!! k = lastDebounceTime s1 !!! k).
    now apply scan_rows_stamp. }
  { intros c Hc Hne. rewrite Hl2. apply Hq; lia. }
  { now rewrite Hl2. }
  fold k in Hk2, Ho2. rewrite Hl2 in Hk2, Ho2.
  set (sk := set_lastKeyState (<[k:=down]> (lastKeyState s))
               (visited io row col s2)) in *.
  set (s3 := run (scan_row io row) s2) in *.
  assert (Hl3 : lastKeyState s3 = <[k:=down]> (lastKeyState s)).
  { rewrite (outside_scan_lastKeyState _ _ Ho2).
    apply (scan_view_lastKeyState _ _ (dispatch_keeps_scan_view down k sk)). }
  (* the rows after *)
  destruct (scan_rows_idle io (seq (S row) (7 - row)) s3) as (Hk3 & _ & Ho3).
  { intros r Hr c Hc. apply elem_of_seq in Hr. rewrite Hl3.
    rewrite list_lookup_total_insert_ne by (subst k; lia).
    apply Hq; lia. }
  { rewrite Hl3, list_lookup_total_insert_ne by (subst k; lia). exact H68. }
  exists sk. split; [|split].
  - subst sk. apply outside_scan_visited. exact Ho1.
  - unfold loop.
    rewrite !calls_andThen, ?run_andThen, !calls_assign, ?run_assign.
    cbn [app]. fold s1. rewrite (rows_around row Hrow).
    rewrite calls_scan_rows_app, keyboard_app. fold s2. rewrite Hk1.
    cbn [scan_rows app]. rewrite calls_andThen, keyboard_app. fold s3.
    now rewrite Hk2, Hk3, app_nil_r.
  - unfold loop. rewrite !run_andThen, !run_assign. fold s1.
    rewrite (rows_around row Hrow), run_scan_rows_app. fold s2.
    cbn [scan_rows]. rewrite run_andThen. fold s3.
    now rewrite Ho3, Ho2.
Qed.

Lemma one_change_one_dispatch_witness :
  let s := run (loop (matrix (only [17]) 2000)) (booted 1) in
  let io := matrix (only [17; 23]) 2010 in
  2 < 8 /\ 3 < 8 /\ reads_down io 2 3 = true /\
  lastKeyState s !!! (3 + 2 * 10) = negb true /\
  (forall r c, r < 8 -> c < 8 -> (r <> 2 \/ c <> 3) ->
     cell_unchanged io (lastKeyState s) r c) /\
  reads_down io 6 8 = lastKeyState s !!! 68 /\
  debouncing (millis_cell io 2 3) (set_thisKey (3 + 2 * 10) s) = false /\
  keyboard (calls (loop io) s) = [KbPress (Chr "&")] /\
  exists s0,
    keyboard (calls (loop io) s) = keyboard (calls (dispatch true 23) s0).
Proof.
  cbv zeta.
  set (s := run (loop (matrix (only [17]) 2000)) (booted 1)).
  assert (H1 : 2 < 8) by lia.
  assert (H2 : 3 < 8) by lia.
  assert (H3 : reads_down (matrix (only [17; 23]) 2010) 2 3 = true)
    by (vm_compute; reflexivity).
  assert (H4 : lastKeyState s !!! (3 + 2 * 10) = negb true)
    by (vm_compute; reflexivity).
  assert (H5 : forall r c, r < 8 -> c < 8 -> (r <> 2 \/ c <> 3) ->
            cell_unchanged (matrix (only [17; 23]) 2010) (lastKeyState s) r c).
  { intros r c Hr Hc Hne.
    do 8 (destruct r as [|r];
      [do 8 (destruct c as [|c];
         [first [vm_compute; reflexivity | exfalso; lia]|]); lia|]).
    lia. }
  assert (H6 : reads_down (matrix (only [17; 23]) 2010) 6 8
               = lastKeyState s !!! 68) by (vm_compute; reflexivity).
  assert (H7 : debouncing (millis_cell (matrix (only [17; 23]) 2010) 2 3)
                 (set_thisKey (3 + 2 * 10) s) = false)
    by (vm_compute; reflexivity).
  repeat (split; [assumption|]).
  split; [vm_compute; reflexivity|].
  destruct (one_change_one_dispatch _ s 2 3 true H1 H2 H3 H4 H5 H6 H7)
    as (s0 & _ & Hk & _).
  exists s0. exact Hk.
Defined.

(** ** Stores to the EEPROM in a pass *)

Lemma andThen_assoc (a b c : cmd) s : ((a ;; b) ;; c) s = (a ;; b ;; c) s.
Proof. unfold andThen. cbn [fst snd]. now rewrite app_assoc. Qed.

(** What the two edge tests of a cell do together. *)
Lemma cell_step v :
  (key_went_down ;; key_went_up) v
  = if Bool.eqb (isKeyDown v) (lastKeyState v !!! thisKey v) then (v, [])
    else dispatch (isKeyDown v) (thisKey v)
           (set_lastKeyState (<[thisKey v := isKeyDown v]> (lastKeyState v)) v).
Proof.
  destruct (isKeyDown v) eqn:Hd, (lastKeyState v !!! thisKey v) eqn:Hl;
    cbn [Bool.eqb dispatch].
  - unfold andThen. rewrite key_went_down_quiet by congruence.
    cbn [fst snd]. rewrite key_went_up_quiet by congruence. reflexivity.
  - unfold andThen. rewrite (key_went_down_fires v Hd Hl).
    set (sk := set_lastKeyState _ v).
    assert (Hp : isKeyDown (fst (press (thisKey v) sk)) = true).
    { change (isKeyDown (run (press (thisKey v)) sk) = true).
      rewrite (scan_view_isKeyDown _ _ (press_keeps_scan _ sk)). exact Hd. }
    rewrite !(key_went_up_idle _ Hp). cbn [fst snd].
    rewrite app_nil_r. symmetry. apply surjective_pairing.
  - unfold andThen.
    assert (Hidle : key_went_down v = (v, [])).
    { unfold key_went_down, when, ifc, skip. now rewrite Hd. }
    rewrite !Hidle. cbn [fst snd app].
    unfold key_went_up, when, ifc. rewrite Hd, Hl. cbn [negb andb].
    unfold andThen, assign, reading. cbn [fst snd app].
    symmetry. apply surjective_pairing.
  - unfold andThen. rewrite key_went_down_quiet by congruence.
    cbn [fst snd]. rewrite key_went_up_quiet by congruence. reflexivity.
Qed.

Lemma scan_columns_app io row cols1 cols2 s :
  Forall (fun c => c < 8) cols1 ->
  scan_columns io row (cols1 ++ cols2) s
  = (scan_columns io row cols1 ;; scan_columns io row cols2) s.
Proof.
  intros Hlow. revert s. induction Hlow as [|col rest Hc _ IH]; intros s.
  - cbn [app scan_columns]. unfold andThen, skip. cbn [fst snd app].
    apply surjective_pairing.
  - cbn [app].
    change ((scan_columns io row (col :: rest) ;; scan_columns io row cols2) s)
      with (let r1 := scan_columns io row (col :: rest) s in
            let r2 := scan_columns io row cols2 (fst r1) in
            (fst r2, snd r1 ++ snd r2)).
    cbv zeta. rewrite !scan_columns_cons, filtered_low by exact Hc.
    destruct (debouncing _ _).
    + rewrite IH. reflexivity.
    + unfold andThen. cbn [fst snd]. rewrite !IH. unfold andThen.
      cbn [fst snd]. now rewrite !app_assoc.
Qed.

Lemma no_store_dispatch down key : key <> 4 -> no_store (dispatch down key).
Proof.
  intros Hne. destruct down; [now apply no_store_press | apply no_store_release].
Qed.

Lemma dispatch_keeps_config down key :
  key <> 4 -> keeps config_view (dispatch down key).
Proof.
  intros Hne. destruct down;
    [now apply press_keeps_config | apply release_keeps_config].
Qed.

Lemma scan_columns_cell io row col rest s :
  filtered (visited io row col s) = false ->
  debouncing (millis_cell io row col) (visited io row col s) = false ->
  scan_columns io row (col :: rest) s
  = ((key_went_down ;; key_went_up) ;; scan_columns io row rest)
      (visited io row col s).
Proof.
  intros Hf Hd. rewrite scan_columns_cons, Hf, Hd.
  symmetry. apply andThen_assoc.
Qed.

(** Cells other than F1 store nothing and leave the configuration alone. *)
Lemma scan_columns_away io row cols s :
  (forall col, col ∈ cols -> col + row * 10 <> 4) ->
  eeprom_writes (calls (scan_columns io row cols) s) = []
  /\ config_view (run (scan_columns io row cols) s) = config_view s.
Proof.
  revert s. induction cols as [|col rest IH]; intros s Hne;
    [split; reflexivity|].
  assert (Hrest : forall c, c ∈ rest -> c + row * 10 <> 4)
    by (intros c Hc; apply Hne; now right).
  assert (Hcol : col + row * 10 <> 4) by (apply Hne; left).
  set (v := visited io row col s).
  destruct (filtered v) eqn:Hf.
  { unfold calls, run. rewrite scan_columns_cons. fold v. rewrite Hf.
    split; reflexivity. }
  destruct (debouncing (millis_cell io row col) v) eqn:Hd.
  { unfold calls, run. rewrite scan_columns_cons. fold v. rewrite Hf, Hd.
    apply (IH v Hrest). }
  unfold calls, run. rewrite scan_columns_cell by assumption. fold v.
  unfold andThen at 1 3. rewrite cell_step.
  destruct (Bool.eqb _ _).
  { cbn [fst snd app]. apply (IH v Hrest). }
  set (sk := set_lastKeyState _ v).
  change (thisKey v) with (col + row * 10).
  set (d := dispatch (isKeyDown v) (col + row * 10)).
  fold (run d sk). fold (calls d sk).
  destruct (IH (run d sk) Hrest) as [He Hc].
  cbn [fst snd]. fold (calls (scan_columns io row rest) (run d sk)).
  fold (run (scan_columns io row rest) (run d sk)).
  rewrite eeprom_writes_app, He, Hc.
  unfold d. rewrite (no_store_dispatch _ _ Hcol sk).
  rewrite (dispatch_keeps_config _ _ Hcol sk). split; reflexivity.
Qed.

Lemma scan_rows_away io rows s :
  (forall row, row ∈ rows -> 0 < row) ->
  eeprom_writes (calls (scan_rows io rows) s) = []
  /\ config_view (run (scan_rows io rows) s) = config_view s.
Proof.
  revert s. induction rows as [|row rest IH]; intros s Hpos;
    [split; reflexivity|].
  assert (Hrow : 0 < row) by (apply Hpos; left).
  destruct (scan_columns_away io row (seq 0 9) s) as [He Hc];
    [intros; lia|].
  set (s1 := run (scan_row io row) s).
  assert (He1 : eeprom_writes (calls (scan_row io row) s) = []).
  { unfold scan_row.
    rewrite !calls_andThen, ?run_andThen, !run_call, !eeprom_writes_app, He.
    reflexivity. }
  assert (Hc1 : config_view s1 = config_view s).
  { unfold s1, scan_row. rewrite !run_andThen, !run_call, run_assign.
    exact Hc. }
  destruct (IH s1) as [He2 Hc2]; [intros; apply Hpos; now right|].
  cbn [scan_rows]. rewrite calls_andThen, run_andThen, eeprom_writes_app.
  fold s1. rewrite He1, He2, Hc2, Hc1. split; reflexivity.
Qed.

Lemma run_cell_step v :
  run key_went_up (run key_went_down v)
  = if Bool.eqb (isKeyDown v) (lastKeyState v !!! thisKey v) then v
    else run (dispatch (isKeyDown v) (thisKey v))
           (set_lastKeyState (<[thisKey v := isKeyDown v]> (lastKeyState v)) v).
Proof.
  change (run key_went_up (run key_went_down v))
    with (fst ((key_went_down ;; key_went_up) v)).
  rewrite cell_step. destruct (Bool.eqb _ _); reflexivity.
Qed.

(** The cells before F1 in its row leave alone what decides whether the
    press of F1 rotates the target. *)
Lemma scan_columns_before io cols s :
  Forall (fun c => c < 4) cols ->
  cmdrPressed (run (scan_columns io 0 cols) s) = cmdrPressed s
  /\ lastKeyState (run (scan_columns io 0 cols) s) !!! 4
     = lastKeyState s !!! 4.
Proof.
  intros Hlow. revert s. induction Hlow as [|col rest Hc _ IH]; intros s;
    [split; reflexivity|].
  cbv beta in Hc.
  rewrite run_scan_columns_cons, filtered_low by lia.
  set (v := visited io 0 col s).
  destruct (debouncing (millis_cell io 0 col) v); [apply (IH v)|].
  rewrite run_cell_step.
  destruct (Bool.eqb _ _); [apply (IH v)|].
  change (thisKey v) with (col + 0 * 10).
  set (sk := set_lastKeyState _ v).
  set (d := dispatch (isKeyDown v) (col + 0 * 10)).
  destruct (IH (run d sk)) as [Hcm Hl]. rewrite Hcm, Hl.
  assert (Hm : modifier_view (run d sk) = modifier_view sk).
  { unfold d. destruct (isKeyDown v); cbn [dispatch];
      [apply press_keeps_modifiers | apply release_keeps_modifiers]; lia. }
  assert (Hs : scan_view (run d sk) = scan_view sk)
    by apply dispatch_keeps_scan_view.
  split.
  - apply (f_equal snd) in Hm. exact Hm.
  - rewrite (scan_view_lastKeyState _ _ Hs). subst sk.
    cbn [lastKeyState set_lastKeyState].
    apply list_lookup_total_insert_ne. lia.
Qed.

Lemma calls_scan_columns_cons io row col rest s :
  calls (scan_columns io row (col :: rest)) s =
  (if filtered (visited io row col s) then []
   else if debouncing (millis_cell io row col) (visited io row col s)
        then calls (scan_columns io row rest) (visited io row col s)
        else (calls key_went_down (visited io row col s)
              ++ calls key_went_up (run key_went_down (visited io row col s)))
             ++ calls (scan_columns io row rest)
                  (run key_went_up (run key_went_down (visited io row col s)))).
Proof.
  unfold calls at 1. rewrite scan_columns_cons.
  destruct (filtered _); [reflexivity|].
  destruct (debouncing _ _); [reflexivity|].
  fold (calls (key_went_down ;; key_went_up ;; scan_columns io row rest)
          (visited io row col s)).
  rewrite !calls_andThen, ?run_andThen. now rewrite app_assoc.
Qed.

Lemma calls_cell_step v :
  calls key_went_down v ++ calls key_went_up (run key_went_down v)
  = if Bool.eqb (isKeyDown v) (lastKeyState v !!! thisKey v) then []
    else calls (dispatch (isKeyDown v) (thisKey v))
           (set_lastKeyState (<[thisKey v := isKeyDown v]> (lastKeyState v)) v).
Proof.
  change (calls key_went_down v ++ calls key_went_up (run key_went_down v))
    with (snd ((key_went_down ;; key_went_up) v)).
  rewrite cell_step. destruct (Bool.eqb _ _); reflexivity.
Qed.

(** The cell of F1. *)
Lemma scan_F1_cell io s :
  eeprom_writes (calls (scan_columns io 0 [4]) s)
  = if cycle_trigger io s
    then [(0, (target (run (scan_columns io 0 [4%nat]) s) mod 256)%Z)] else [].
Proof.
  rewrite calls_scan_columns_cons, run_scan_columns_cons.
  rewrite filtered_low by lia.
  set (v := visited io 0 4 s).
  assert (Hdeb : debouncing (millis_cell io 0 4) v
                 = debouncing (millis_cell io 0 4) (set_thisKey 4 s))
    by reflexivity.
  unfold cycle_trigger. rewrite <- Hdeb.
  destruct (debouncing (millis_cell io 0 4) v).
  { now rewrite andb_false_r. }
  rewrite andb_true_r, calls_cell_step, run_cell_step.
  change (isKeyDown v) with (reads_down io 0 4).
  change (lastKeyState v) with (lastKeyState s).
  change (thisKey v) with 4.
  cbn [scan_columns]. rewrite run_skip, calls_skip, app_nil_r.
  destruct (reads_down io 0 4) eqn:Hd, (lastKeyState s !!! 4) eqn:Hl;
    cbn [Bool.eqb negb andb dispatch]; try reflexivity.
  - (* the press of F1 *)
    set (sk := set_lastKeyState _ v).
    change (cmdrPressed s) with (cmdrPressed sk).
    destruct (cmdrPressed sk) eqn:Hc.
    + unfold calls, run. rewrite (press_F1_commodore sk Hc).
      apply cycle_target_stores.
    + apply no_store_press_F1, Hc.
  - (* the release of F1 *)
    apply no_store_release.
Qed.

Lemma cycle_trigger_depends io s s' :
  lastKeyState s' !!! 4 = lastKeyState s !!! 4 ->
  cmdrPressed s' = cmdrPressed s ->
  lastDebounceTime s' = lastDebounceTime s ->
  cycle_trigger io s' = cycle_trigger io s.
Proof.
  intros Hl Hc Hs. unfold cycle_trigger, debouncing.
  cbn [thisKey lastDebounceTime set_thisKey]. now rewrite Hl, Hc, Hs.
Qed.

(** The row of F1. *)
Lemma scan_F1_row io s :
  eeprom_writes (calls (scan_columns io 0 (seq 0 9)) s)
  = if cycle_trigger io s
    then [(0, (target (run (scan_columns io 0 (seq 0 9)) s) mod 256)%Z)]
    else [].
Proof.
  change (seq 0 9) with ([0; 1; 2; 3] ++ [4] ++ [5; 6; 7; 8]).
  set (c1 := scan_columns io 0 [0; 1; 2; 3]).
  set (c2 := scan_columns io 0 [4]).
  set (c3 := scan_columns io 0 [5; 6; 7; 8]).
  assert (Heq : scan_columns io 0 ([0; 1; 2; 3] ++ [4] ++ [5; 6; 7; 8]) s
                = (c1 ;; c2 ;; c3) s).
  { rewrite scan_columns_app by (repeat constructor; lia).
    unfold andThen at 1 3. fold c1.
    rewrite scan_columns_app by (repeat constructor; lia). reflexivity. }
  unfold calls, run. rewrite Heq.
  fold (calls (c1 ;; c2 ;; c3) s). fold (run (c1 ;; c2 ;; c3) s).
  rewrite !calls_andThen, !run_andThen, !eeprom_writes_app.
  destruct (scan_columns_away io 0 [0; 1; 2; 3] s) as [He1 _].
  { intros col Hin.
    repeat (apply elem_of_cons in Hin as [->|Hin]; [lia|]). inversion Hin. }
  destruct (scan_columns_before io [0; 1; 2; 3] s) as [Hc1 Hl1];
    [repeat constructor; lia|].
  fold c1 in He1, Hc1, Hl1. set (s1 := run c1 s) in *.
  destruct (scan_columns_away io 0 [5; 6; 7; 8] (run c2 s1)) as [He3 Hc3].
  { intros col Hin.
    repeat (apply elem_of_cons in Hin as [->|Hin]; [lia|]). inversion Hin. }
  fold c3 in He3, Hc3.
  rewrite He1, He3, app_nil_r. cbn [app].
  apply (f_equal (fun v => fst (fst v))) in Hc3. cbn [config_view fst] in Hc3.
  rewrite Hc3. unfold c2. rewrite scan_F1_cell.
  rewrite (cycle_trigger_depends io s s1); [reflexivity | exact Hl1 | exact Hc1 |].
  apply scan_columns_keeps_stamps.
Qed.

(** A pass stores to the EEPROM exactly when it dispatches the press of F1
    with Commodore held, and then once. *)
Lemma loop_stores io s :
  eeprom_writes (calls (loop io) s)
  = if cycle_trigger io s
    then [(0, (target (run (loop io) s) mod 256)%Z)] else [].
Proof.
  unfold loop. rewrite !calls_andThen, !run_andThen, !calls_assign, !run_assign.
  cbn [app]. set (s0 := set_isKeyDown false (set_thisKey 0 s)).
  change (cycle_trigger io s) with (cycle_trigger io s0).
  change (seq 0 8) with (0 :: seq 1 7). cbn [scan_rows].
  rewrite calls_andThen, run_andThen, eeprom_writes_app.
  set (s1 := run (scan_row io 0) s0).
  destruct (scan_rows_away io (seq 1 7) s1) as [He Hc].
  { intros row Hin. apply elem_of_seq in Hin. lia. }
  rewrite He, app_nil_r.
  apply (f_equal (fun v => fst (fst v))) in Hc. cbn [config_view fst] in Hc.
  rewrite Hc. unfold s1, scan_row.
  rewrite !calls_andThen, !run_andThen, !run_call, !calls_call, run_assign,
    calls_assign, !eeprom_writes_app.
  cbn [eeprom_writes omap app target set_lastDebounceTime].
  rewrite !app_nil_r. apply scan_F1_row.
Qed.

Lemma setup_stores led s :
  eeprom_writes (calls (setup led) s)
  = if (1 <=? eeprom s !!! 0%nat)%Z && (eeprom s !!! 0%nat <=? MAXTARGETS)%Z
    then [] else [(0, 1%Z)].
Proof.
  destruct (Z.leb_spec 1 (eeprom s !!! 0)), (Z.leb_spec (eeprom s !!! 0) MAXTARGETS);
    cbn [andb].
  - apply (setup_valid led s (eeprom s !!! 0) eq_refl). split; assumption.
  - apply (setup_invalid led s (eeprom s !!! 0) eq_refl).
    unfold valid_target. lia.
  - apply (setup_invalid led s (eeprom s !!! 0) eq_refl).
    unfold valid_target. lia.
  - apply (setup_invalid led s (eeprom s !!! 0) eq_refl).
    unfold valid_target. lia.
Qed.

(** C8, as the program has it.  The EEPROM is stored to once by every
    press of F1 with Commodore held, with the target that the press leaves,
    whether or not that target differs from the one before.  Nothing else
    that is dispatched stores anything: no other press and no release.  A
    pass of [loop] stores exactly when it dispatches that press (F1 is read
    down, is recorded as up and is not being debounced, and the Commodore
    flag is set), and then once; in particular a pass that finds F1 held
    from before stores nothing.  [setup] stores only when the byte it loads
    is not a target, and then the default target 1. *)
Theorem eeprom_written_per_trigger :
  (forall key s,
     eeprom_writes (calls (press key) s)
     = if (key =? 4) && cmdrPressed s
       then [(0, (target (run (press key) s) mod 256)%Z)] else [])
  /\ (forall key s, eeprom_writes (calls (release key) s) = [])
  /\ (forall io s,
        eeprom_writes (calls (loop io) s)
        = if cycle_trigger io s
          then [(0, (target (run (loop io) s) mod 256)%Z)] else [])
  /\ (forall io s,
        lastKeyState s !!! 4 = true ->
        eeprom_writes (calls (loop io) s) = [])
  /\ (forall led s,
        eeprom_writes (calls (setup led) s)
        = if (1 <=? eeprom s !!! 0%nat)%Z && (eeprom s !!! 0%nat <=? MAXTARGETS)%Z
          then [] else [(0, 1%Z)]).
Proof.
  split; [|split; [|split; [|split]]].
  - intros key s. destruct (Nat.eqb_spec key 4) as [->|Hne]; cbn [andb].
    + destruct (cmdrPressed s) eqn:Hc.
      * pose proof (cycle_target_stores s) as H.
        unfold calls, run in *.
        rewrite press_F1_commodore by assumption. exact H.
      * apply no_store_press_F1, Hc.
    + apply no_store_press, Hne.
  - intros key s. apply no_store_release.
  - apply loop_stores.
  - intros io s Hheld. rewrite loop_stores. unfold cycle_trigger.
    rewrite Hheld, andb_false_r. reflexivity.
  - apply setup_stores.
Qed.

Lemma eeprom_written_per_trigger_witness :
  let s1 := run (loop (matrix (only [75]) 2000)) (booted 1) in
  let io := matrix (only [75; 4]) 2010 in
  let s2 := run (loop io) s1 in
  cycle_trigger io s1 = true /\
  eeprom_writes (calls (loop io) s1) = [(0, 2%Z)] /\
  lastKeyState s2 !!! 4 = true /\
  eeprom_writes (calls (loop (matrix (only [75; 4]) 2020)) s2) = [].
Proof.
  cbv zeta.
  set (s1 := run (loop (matrix (only [75]) 2000)) (booted 1)).
  set (io := matrix (only [75; 4]) 2010).
  set (s2 := run (loop io) s1).
  assert (Ht : cycle_trigger io s1 = true) by (vm_compute; reflexivity).
  assert (Hh : lastKeyState s2 !!! 4 = true) by (vm_compute; reflexivity).
  destruct eeprom_written_per_trigger as (_ & _ & Hloop & Hheld & _).
  split; [exact Ht | split; [| split; [exact Hh |]]].
  - rewrite Hloop, Ht. vm_compute. reflexivity.
  - exact (Hheld _ s2 Hh).
Defined.

(** C8 fails as stated: with the target at 1, Commodore+Ctrl+F1 leaves the
    target at 1 and stores it all the same. *)
Lemma store_without_change :
  let s := set_ctrlPressed true (set_cmdrPressed true (booted 1)) in
  target (run (press 4) s) = target s
  /\ eeprom_writes (calls (press 4) s) = [(0, 1%Z)]
  /\ ~ writes_only_on_change (press 4) s.
Proof.
  cbv zeta.
  assert (Ht : target (run (press 4)
                  (set_ctrlPressed true (set_cmdrPressed true (booted 1))))
               = target (set_ctrlPressed true (set_cmdrPressed true (booted 1))))
    by (vm_compute; reflexivity).
  split; [exact Ht | split; [vm_compute; reflexivity |]].
  intros H. specialize (H Ht). vm_compute in H. discriminate.
Qed.

(** ** The time a pass takes *)

Lemma total_delay_nonneg l : Forall delay_ok l -> (0 <= total_delay l)%Z.
Proof.
  induction 1 as [|e l He _ IH]; [reflexivity|].
  rewrite total_delay_cons. destruct e; cbn in He; lia.
Qed.

Ltac delays_tac :=
  unfold press, press_digit, press_ascii_alt, press_ascii_unshifted,
    press_keymap, release, release_key, release_digit, release_ascii_alt,
    release_keymap, restore_shift, unshift, latch, unlatch, cycle_target,
    rotate_target, blinkLED, blink_once, allowBlink, setKeymap,
    BootKeyboard_press, BootKeyboard_release, BootKeyboard_releaseAll;
  cbv beta iota;
  repeat first
    [ apply respects_andThen | apply respects_ifc | apply respects_when
    | apply respects_reading; intro | apply respects_times
    | apply respects_skip
    | apply respects_call; cbn; first [exact I | unfold BLINK_RATE; lia]
    | apply respects_assign; intros; exact I
    | intros ? ?; split; [exact I | repeat constructor] ].

Lemma press_delays key : respects (fun _ => True) delay_ok (press key).
Proof. do 78 (destruct key as [|key]; [delays_tac|]). delays_tac. Qed.

Lemma release_delays key : respects (fun _ => True) delay_ok (release key).
Proof. do 78 (destruct key as [|key]; [delays_tac|]). delays_tac. Qed.

Lemma scan_columns_delays io row s :
  row < 8 -> Forall delay_ok (calls (scan_columns io row (seq 0 9)) s).
Proof.
  intros Hr.
  apply (scan_columns_respects (fun _ => True) delay_ok); try easy.
  - intros key _. apply press_delays.
  - intros key _. apply release_delays.
  - cbn [seq]. repeat constructor; lia.
Qed.

Lemma scan_row_delay io row s :
  row < 8 -> (1 <= total_delay (calls (scan_row io row) s))%Z.
Proof.
  intros Hr. unfold scan_row.
  rewrite !calls_andThen, !total_delay_app, !calls_call, calls_assign.
  pose proof (total_delay_nonneg _ (scan_columns_delays io row
    (run (call (DigitalWrite (rowPinMap !!! row) false))
       (run (call (PinMode (rowPinMap !!! row) OUTPUT)) s)) Hr)) as Hc.
  cbn [total_delay foldr] in *. lia.
Qed.

Lemma scan_rows_delay io rows s :
  Forall (fun row => row < 8) rows ->
  (Z.of_nat (length rows) <= total_delay (calls (scan_rows io rows) s))%Z.
Proof.
  intros Hrows. revert s. induction Hrows as [|row rest Hr _ IH]; intros s;
    [reflexivity|].
  cbn [scan_rows length]. rewrite calls_andThen, total_delay_app.
  specialize (IH (run (scan_row io row) s)).
  pose proof (scan_row_delay io row s Hr). lia.
Qed.

(** X15.  A pass takes its time.  Whatever is read and dispatched, the calls
    of one pass of [loop] ask [delay] for at least 8 ms in total: 1 ms for
    each row, and no call of [delay] is given a negative time. *)
Theorem pass_takes_8_ms io s : (8 <= total_delay (calls (loop io) s))%Z.
Proof.
  unfold loop. rewrite !calls_andThen, !calls_assign. cbn [app].
  pose proof (scan_rows_delay io (seq 0 8)
                (run (assign (set_isKeyDown false))
                   (run (assign (set_thisKey 0)) s))) as H.
  cbn [length seq] in H. apply H. repeat constructor; lia.
Qed.

(** ** Positions that are not scanned *)

Lemma key_went_down_records k s :
  thisKey s <> k ->
  lastKeyState (run key_went_down s) !!! k = lastKeyState s !!! k.
Proof.
  intros Hne. unfold key_went_down. rewrite run_when.
  destruct (_ && _); [|reflexivity].
  rewrite run_andThen, run_assign, run_reading.
  rewrite (scan_view_lastKeyState _ _ (press_keeps_scan _ _)).
  cbn [lastKeyState set_lastKeyState thisKey].
  now apply list_lookup_total_insert_ne.
Qed.

Lemma key_went_up_records k s :
  thisKey s <> k ->
  lastKeyState (run key_went_up s) !!! k = lastKeyState s !!! k.
Proof.
  intros Hne. unfold key_went_up. rewrite run_when.
  destruct (_ && _); [|reflexivity].
  rewrite run_andThen, run_assign, run_reading.
  rewrite (scan_view_lastKeyState _ _ (release_keeps_scan _ _)).
  cbn [lastKeyState set_lastKeyState thisKey].
  now apply list_lookup_total_insert_ne.
Qed.

Lemma scan_columns_records io row cols k s :
  row < 8 -> Forall (fun col => col < 9) cols ->
  scanned k = false ->
  lastKeyState (run (scan_columns io row cols) s) !!! k
  = lastKeyState s !!! k.
Proof.
  intros Hr Hcols Hk. revert s.
  induction Hcols as [|col rest Hc _ IH]; intros s; [reflexivity|].
  rewrite run_scan_columns_cons.
  destruct (filtered _) eqn:Hf; [reflexivity|].
  destruct (debouncing _ _); rewrite IH; [reflexivity|].
  assert (Hne : col + row * 10 <> k).
  { intros <-. rewrite (cell_scanned io row col s Hr Hc Hf) in Hk.
    discriminate. }
  rewrite key_went_up_records, key_went_down_records; try reflexivity.
  - exact Hne.
  - rewrite key_went_down_keeps_thisKey. exact Hne.
Qed.

Lemma scan_rows_records io rows k s :
  Forall (fun row => row < 8) rows ->
  scanned k = false ->
  lastKeyState (run (scan_rows io rows) s) !!! k = lastKeyState s !!! k.
Proof.
  intros Hrows Hk. revert s.
  induction Hrows as [|row rest Hr _ IH]; intros s; [reflexivity|].
  cbn [scan_rows]. rewrite run_andThen, IH. unfold scan_row.
  rewrite !run_andThen, !run_call, run_assign.
  cbn [lastKeyState set_lastDebounceTime].
  apply scan_columns_records; [exact Hr | | exact Hk].
  cbn [seq]. repeat constructor; lia.
Qed.

Lemma loops_records ios k s :
  scanned k = false ->
  lastKeyState (run (loops ios) s) !!! k = lastKeyState s !!! k.
Proof.
  intros Hk. revert s. induction ios as [|io rest IH]; intros s;
    [reflexivity|].
  cbn [loops]. rewrite run_andThen, IH. unfold loop.
  rewrite !run_andThen, !run_assign, scan_rows_records; try assumption.
  - reflexivity.
  - cbn [seq]. repeat constructor; lia.
Qed.

Lemma setup_lastKeyState led s :
  lastKeyState (run (setup led) s) = replicate 80 false.
Proof.
  unfold setup. rewrite run_andThen, run_andThen, setup_tail_run.
  change (lastKeyState (run setKeymap
            (run load_target (run (setup_pins led) s))))
    with (lastKeyState (run load_target (run (setup_pins led) s))).
  rewrite (proj1 (load_target_frame _)).
  apply setup_pins_effects.
Qed.

(** X16.  Positions that are not scanned are never recorded.  Whatever the
    pins read, no number of passes changes what [lastKeyState] holds for a
    position of column 8 other than RESTORE (or of column 9): the readings
    that a grounded RESTORE line causes on the other rows leave no trace.
    After [setup] such a position is recorded as up for ever. *)
Theorem unscanned_never_recorded led rom ios ios' k s :
  k < 80 ->
  scanned k = false ->
  lastKeyState (run (loops ios') s) !!! k = lastKeyState s !!! k
  /\ lastKeyState (run (sketch led ios) (power_on rom)) !!! k = false.
Proof.
  intros Hk Hs. split; [now apply loops_records|].
  unfold sketch. rewrite run_andThen, loops_records by assumption.
  rewrite setup_lastKeyState. now apply lookup_total_replicate_2.
Qed.

Lemma unscanned_never_recorded_witness :
  let ios := [matrix (only [8; 18; 28; 38; 48; 58; 68; 78]) 2000] in
  38 < 80 /\ scanned 38 = false /\
  lastKeyState (run (sketch true ios) (power_on blank_rom)) !!! 38 = false /\
  lastKeyState (run (sketch true ios) (power_on blank_rom)) !!! 68 = true.
Proof.
  cbv zeta.
  assert (H1 : 38 < 80) by lia.
  assert (H2 : scanned 38 = false) by reflexivity.
  split; [exact H1 | split; [exact H2 | split]].
  - exact (proj2 (unscanned_never_recorded true blank_rom
             [matrix (only [8; 18; 28; 38; 48; 58; 68; 78]) 2000] []
             38 (power_on blank_rom) H1 H2)).
  - vm_compute. reflexivity.
Defined.

(** ** The clock before its rollover *)

Lemma to_ulong_to_long y : to_ulong (to_long y) = to_ulong y.
Proof.
  unfold to_ulong, to_long.
  rewrite Zminus_mod_idemp_l. f_equal. lia.
Qed.

Lemma debouncing_over t now s :
  lastDebounceTime s !!! thisKey s = to_long t ->
  (0 <= t)%Z -> (t + debounceDelay <= now < 2 ^ 32)%Z ->
  debouncing now s = false.
Proof.
  intros Hs Ht Hnow. unfold debouncing, debounceDelay in *. rewrite Hs.
  rewrite to_ulong_to_long.
  assert (E : to_ulong (to_long t + 5) = (t + 5)%Z).
  { unfold to_ulong, to_long.
    rewrite (Z.mod_eq (t + 2 ^ 31) (2 ^ 32)) by lia.
    replace (t + 2 ^ 31 - 2 ^ 32 * ((t + 2 ^ 31) / 2 ^ 32) - 2 ^ 31 + 5)%Z
      with (t + 5 + - ((t + 2 ^ 31) / 2 ^ 32) * 2 ^ 32)%Z by lia.
    rewrite Z_mod_plus_full. apply Z.mod_small. lia. }
  rewrite E. unfold to_ulong. rewrite Z.mod_small by lia.
  apply Z.ltb_ge. lia.
Qed.

(** What a clock that ticks says about the readings of one pass. *)
Lemma ticks_pass t io rest :
  ticks t (clock_reads io ++ rest) = true ->
  (forall row col, row < 8 -> col < 8 ->
     (t <= millis_cell io row col <= millis_row io 7)%Z)
  /\ (t + 6 <= millis_cell io 6 8 <= millis_row io 6)%Z
  /\ (0 <= millis_row io 6 - t <= millis_row io 7 - t)%Z
  /\ ticks (millis_row io 7 + 1) rest = true.
Proof.
  intros H.
  cbn [clock_reads mbind list_bind seq fmap list_fmap app Nat.eqb ticks] in H.
  repeat match type of H with
         | (_ && _ = true) =>
             let H1 := fresh "T" in
             apply andb_prop in H as [H1 H]; apply Z.leb_le in H1
         end.
  split; [|split; [|split]].
  - intros row col Hr Hc.
    do 8 (destruct row as [|row];
      [do 8 (destruct col as [|col]; [cbn [Z.of_nat]; lia|]); lia|]).
    lia.
  - lia.
  - lia.
  - exact H.
Qed.

(** Cells that are not visited keep what is recorded for them. *)
Lemma scan_columns_elsewhere io row cols k s :
  (forall col, col ∈ cols -> col + row * 10 <> k) ->
  lastKeyState (run (scan_columns io row cols) s) !!! k
  = lastKeyState s !!! k.
Proof.
  revert s. induction cols as [|col rest IH]; intros s Hne; [reflexivity|].
  assert (Hrest : forall c, c ∈ rest -> c + row * 10 <> k)
    by (intros c Hc; apply Hne; now right).
  assert (Hcol : col + row * 10 <> k) by (apply Hne; left).
  rewrite run_scan_columns_cons.
  destruct (filtered _); [reflexivity|].
  destruct (debouncing _ _); rewrite IH by exact Hrest; [reflexivity|].
  rewrite key_went_up_records, key_went_down_records; try reflexivity.
  - exact Hcol.
  - rewrite key_went_down_keeps_thisKey. exact Hcol.
Qed.

Lemma scan_row_lastKeyState io row s :
  lastKeyState (run (scan_row io row) s)
  = lastKeyState (run (scan_columns io row (seq 0 9)) s).
Proof.
  unfold scan_row. rewrite !run_andThen, !run_call, run_assign. reflexivity.
Qed.

Lemma scan_rows_elsewhere io rows k s :
  (forall row, row ∈ rows -> k / 10 <> row) ->
  lastKeyState (run (scan_rows io rows) s) !!! k = lastKeyState s !!! k.
Proof.
  revert s. induction rows as [|row rest IH]; intros s Hne; [reflexivity|].
  cbn [scan_rows]. rewrite run_andThen, IH by (intros; apply Hne; now right).
  rewrite scan_row_lastKeyState. apply scan_columns_elsewhere.
  intros col Hin <-. apply elem_of_seq in Hin.
  apply (Hne row); [left|].
  rewrite Nat.div_add, Nat.div_small by lia. reflexivity.
Qed.

Lemma cell_step_length v :
  length (lastKeyState (run key_went_up (run key_went_down v)))
  = length (lastKeyState v).
Proof.
  rewrite run_cell_step. destruct (Bool.eqb _ _); [reflexivity|].
  rewrite (scan_view_lastKeyState _ _ (dispatch_keeps_scan_view _ _ _)).
  apply length_insert.
Qed.

Lemma scan_columns_length io row cols s :
  length (lastKeyState (run (scan_columns io row cols) s))
  = length (lastKeyState s).
Proof.
  revert s. induction cols as [|col rest IH]; intros s; [reflexivity|].
  rewrite run_scan_columns_cons.
  destruct (filtered _); [unfold visited; reflexivity|].
  destruct (debouncing _ _); rewrite IH; [unfold visited; reflexivity|].
  rewrite cell_step_length. unfold visited. reflexivity.
Qed.

Lemma scan_rows_length io rows s :
  length (lastKeyState (run (scan_rows io rows) s)) = length (lastKeyState s).
Proof.
  revert s. induction rows as [|row rest IH]; intros s; [reflexivity|].
  cbn [scan_rows]. rewrite run_andThen, IH, scan_row_lastKeyState.
  apply scan_columns_length.
Qed.

(** The cell that is tested while it is not being debounced is recorded as
    it is read, whatever it was before. *)
Lemma cell_step_records v :
  thisKey v < length (lastKeyState v) ->
  lastKeyState (run key_went_up (run key_went_down v)) !!! thisKey v
  = isKeyDown v.
Proof.
  intros Hlen. rewrite run_cell_step.
  destruct (Bool.eqb _ _) eqn:He.
  - symmetry. apply Bool.eqb_prop, He.
  - rewrite (scan_view_lastKeyState _ _ (dispatch_keeps_scan_view _ _ _)).
    cbn [lastKeyState set_lastKeyState].
    now apply list_lookup_total_insert_eq.
Qed.

Lemma scan_columns_sample io row col s :
  col < 9 ->
  filtered (visited io row col s) = false ->
  col + row * 10 < length (lastKeyState s) ->
  debouncing (millis_cell io row col) (set_thisKey (col + row * 10) s) = false ->
  lastKeyState (run (scan_columns io row (seq 0 9)) s) !!! (col + row * 10)
  = reads_down io row col.
Proof.
  intros Hc Hf Hlen Hdeb.
  assert (Hsplit : seq 0 9 = seq 0 col ++ col :: seq (S col) (8 - col)).
  { do 9 (destruct col as [|col]; [reflexivity|]). lia. }
  rewrite Hsplit.
  assert (Hrun : run (scan_columns io row
                        (seq 0 col ++ col :: seq (S col) (8 - col))) s
                 = run (scan_columns io row (col :: seq (S col) (8 - col)))
                     (run (scan_columns io row (seq 0 col)) s)).
  { unfold run at 1. rewrite scan_columns_app.
    - reflexivity.
    - apply Forall_forall. intros c Hin. apply elem_of_seq in Hin.
      destruct (Nat.eq_dec col 8) as [->|]; lia. }
  rewrite Hrun. set (s1 := run (scan_columns io row (seq 0 col)) s).
  rewrite run_scan_columns_cons.
  assert (Hf1 : filtered (visited io row col s1) = false)
    by (rewrite filtered_visited in *; exact Hf).
  assert (Hd1 : debouncing (millis_cell io row col) (visited io row col s1)
                = false).
  { rewrite <- Hdeb. apply debouncing_depends; [reflexivity|].
    change (lastDebounceTime s1 !!! (col + row * 10)
            = lastDebounceTime s !!! (col + row * 10)).
    unfold s1. now rewrite scan_columns_keeps_stamps. }
  rewrite Hf1, Hd1.
  rewrite scan_columns_elsewhere.
  2:{ intros c Hin. apply elem_of_seq in Hin. lia. }
  set (v := visited io row col s1).
  change (col + row * 10) with (thisKey v).
  rewrite cell_step_records; [reflexivity|].
  change (col + row * 10 < length (lastKeyState s1)).
  unfold s1. now rewrite scan_columns_length.
Qed.

Lemma scan_rows_stamp_away io rows k s :
  (forall row, row ∈ rows -> row * 10 + 8 <> k) ->
  lastDebounceTime (run (scan_rows io rows) s) !!! k
  = lastDebounceTime s !!! k.
Proof.
  revert s. induction rows as [|row rest IH]; intros s Hne; [reflexivity|].
  cbn [scan_rows]. rewrite run_andThen, IH by (intros; apply Hne; now right).
  rewrite scan_row_stamps. apply list_lookup_total_insert_ne.
  apply Hne. left.
Qed.

(** A sample that is taken while its position is not being debounced is
    recorded by the pass, whatever else the pass reads and dispatches. *)
Lemma loop_sample io s row col :
  row < 8 ->
  col < 8 \/ (row = 6 /\ col = 8) ->
  length (lastKeyState s) = 80 ->
  debouncing (millis_cell io row col) (set_thisKey (col + row * 10) s) = false ->
  lastKeyState (run (loop io) s) !!! (col + row * 10) = reads_down io row col.
Proof.
  intros Hrow Hcol Hlen Hdeb.
  set (k := col + row * 10) in *.
  assert (Hc9 : col < 9) by lia.
  assert (Hdiv : k / 10 = row).
  { subst k. rewrite Nat.div_add, Nat.div_small by lia. reflexivity. }
  unfold loop. rewrite !run_andThen, !run_assign.
  set (s0 := set_isKeyDown false (set_thisKey 0 s)).
  rewrite (rows_around row Hrow), run_scan_rows_app.
  set (s1 := run (scan_rows io (seq 0 row)) s0).
  cbn [scan_rows]. rewrite run_andThen.
  rewrite scan_rows_elsewhere.
  2:{ intros r Hin. apply elem_of_seq in Hin. lia. }
  rewrite scan_row_lastKeyState. apply scan_columns_sample.
  - exact Hc9.
  - rewrite filtered_visited.
    destruct Hcol as [Hlow | [-> ->]]; [|reflexivity].
    rewrite Nat.mod_small by lia.
    destruct (Nat.eqb_spec col 8); [lia | reflexivity].
  - unfold s1. rewrite scan_rows_length. fold k.
    change (k < length (lastKeyState s)). rewrite Hlen. subst k. lia.
  - rewrite <- Hdeb. apply debouncing_depends; [reflexivity|].
    change (lastDebounceTime s1 !!! k = lastDebounceTime s0 !!! k).
    unfold s1. apply scan_rows_stamp_away.
    intros r Hin. apply elem_of_seq in Hin. subst k. lia.
Qed.

Lemma scan_rows_stamps_length io rows s :
  length (lastDebounceTime (run (scan_rows io rows) s))
  = length (lastDebounceTime s).
Proof.
  revert s. induction rows as [|row rest IH]; intros s; [reflexivity|].
  cbn [scan_rows]. rewrite run_andThen, IH, scan_row_stamps.
  apply length_insert.
Qed.

Lemma loop_stamp_RESTORE io s :
  68 < length (lastDebounceTime s) ->
  lastDebounceTime (run (loop io) s) !!! 68 = to_long (millis_row io 6).
Proof.
  intros Hlen. unfold loop. rewrite !run_andThen, !run_assign.
  set (s0 := set_isKeyDown false (set_thisKey 0 s)).
  change (seq 0 8) with (seq 0 6 ++ [6; 7]).
  rewrite run_scan_rows_app.
  set (s1 := run (scan_rows io (seq 0 6)) s0).
  cbn [scan_rows]. rewrite !run_andThen, run_skip.
  rewrite scan_row_stamps, list_lookup_total_insert_ne by lia.
  rewrite scan_row_stamps. apply list_lookup_total_insert_eq.
  unfold s1. now rewrite scan_rows_stamps_length.
Qed.

Lemma loop_stamps_behind t io rest s :
  (0 <= t)%Z ->
  stamps_behind t s ->
  ticks t (clock_reads io ++ rest) = true ->
  stamps_behind (millis_row io 7 + 1) (run (loop io) s).
Proof.
  intros Ht (Hlen & Hlow & _) Hticks.
  destruct (ticks_pass _ _ _ Hticks) as (_ & _ & H6 & _).
  split; [|split].
  - unfold loop. rewrite !run_andThen, !run_assign.
    rewrite scan_rows_stamps_length. exact Hlen.
  - intros k Hk80 Hk. rewrite loop_stamp by exact Hk. now apply Hlow.
  - exists (millis_row io 6). split; [lia|].
    apply loop_stamp_RESTORE. rewrite Hlen. lia.
Qed.

Lemma run_loops_app ios1 ios2 s :
  run (loops (ios1 ++ ios2)) s = run (loops ios2) (run (loops ios1) s).
Proof.
  revert s. induction ios1 as [|io rest IH]; intros s; [reflexivity|].
  cbn [app loops]. now rewrite !run_andThen, IH.
Qed.

Lemma loop_lastKeyState_length io s :
  length (lastKeyState (run (loop io) s)) = length (lastKeyState s).
Proof.
  unfold loop. rewrite !run_andThen, !run_assign.
  now rewrite scan_rows_length.
Qed.

(** A run whose clock ticks keeps every stamp behind the clock. *)
Lemma loops_steady ios t tail s :
  (0 <= t)%Z ->
  stamps_behind t s ->
  length (lastKeyState s) = 80 ->
  ticks t ((ios ≫= clock_reads) ++ tail) = true ->
  exists t', (t <= t')%Z /\ stamps_behind t' (run (loops ios) s)
             /\ length (lastKeyState (run (loops ios) s)) = 80
             /\ ticks t' tail = true.
Proof.
  revert t s. induction ios as [|io rest IH]; intros t s Ht Hs Hl Hticks.
  - exists t. split; [lia|]. split; [exact Hs|]. split; [exact Hl|].
    exact Hticks.
  - change ((io :: rest) ≫= clock_reads)
      with (clock_reads io ++ (rest ≫= clock_reads)) in Hticks.
    rewrite <- app_assoc in Hticks.
    pose proof (loop_stamps_behind t io _ s Ht Hs Hticks) as Hs'.
    destruct (ticks_pass _ _ _ Hticks) as (_ & _ & H6 & Hrest).
    destruct (IH (millis_row io 7 + 1)%Z (run (loop io) s))
      as (t' & Ht' & Hs'' & Hl' & Htail); try assumption.
    + lia.
    + now rewrite loop_lastKeyState_length.
    + exists t'. cbn [loops]. rewrite run_andThen.
      split; [lia|]. split; [exact Hs''|]. split; [exact Hl'|]. exact Htail.
Qed.

(** X17.  Before the clock rolls over, no sample is held back.  Take a run
    whose clock ticks: its readings never go back, and the first reading of
    a row comes 1 ms or more after the reading that ended the row before,
    the [delay(1)] of [loop].  Let its first pass begin 5 ms or more after
    power-on and its last pass end before [millis()] rolls over at 2^32 ms.
    Then after the last pass every scanned position is recorded as that
    pass read it, whatever was recorded before: the debounce test let the
    sample through.  Two samples of one position are a whole pass apart,
    which is 8 ms or more, and the stamps are behind the clock by more than
    the debounce delay whenever they are tested. *)
Theorem sample_recorded_before_rollover led rom ios io t row col :
  (debounceDelay <= t)%Z ->
  clocked t (ios ++ [io]) = true ->
  before_rollover io ->
  row < 8 -> col < 9 ->
  scanned (col + row * 10) = true ->
  lastKeyState (run (sketch led (ios ++ [io])) (power_on rom))
    !!! (col + row * 10)
  = reads_down io row col.
Proof.
  intros Ht Hclock Hroll Hrow Hcol Hscan.
  unfold debounceDelay in Ht. unfold before_rollover in Hroll.
  assert (Hwhere : col < 8 \/ (row = 6 /\ col = 8)).
  { destruct (Nat.eq_dec col 8) as [->|]; [right | left; lia].
    unfold scanned in Hscan.
    rewrite Nat.Div0.mod_add in Hscan.
    change (8 mod 10 <? 8) with false in Hscan.
    apply andb_prop in Hscan as [_ Hscan]. cbn [orb] in Hscan.
    apply Nat.eqb_eq in Hscan. lia. }
  set (s0 := run (setup led) (power_on rom)).
  assert (Hs0 : stamps_behind t s0).
  { assert (E : lastDebounceTime s0 = replicate 80 0%Z)
      by apply setup_keeps_stamps.
    split; [|split].
    - rewrite E. apply length_replicate.
    - intros k Hk80 Hk. rewrite E. now apply lookup_total_replicate_2.
    - exists 0%Z. split; [lia|]. rewrite E. reflexivity. }
  assert (Hl0 : length (lastKeyState s0) = 80).
  { unfold s0. rewrite setup_lastKeyState. apply length_replicate. }
  unfold clocked in Hclock. rewrite bind_app in Hclock.
  destruct (loops_steady ios t _ s0 ltac:(lia) Hs0 Hl0 Hclock)
    as (t' & Ht' & (Hlen & Hlow & t68 & Ht68 & H68) & Hl' & Hticks).
  change ([io] ≫= clock_reads) with (clock_reads io ++ []) in Hticks.
  destruct (ticks_pass _ _ _ Hticks) as (Hcells & Hrestore & Hrow6 & _).
  unfold sketch. rewrite run_andThen, run_loops_app. fold s0.
  set (s1 := run (loops ios) s0) in *.
  cbn [loops]. rewrite run_andThen, run_skip.
  apply loop_sample; try assumption.
  destruct Hwhere as [Hlow8 | [-> ->]].
  - apply (debouncing_over 0).
    + cbn [thisKey lastDebounceTime set_thisKey]. rewrite Hlow; [reflexivity | lia |].
      rewrite Nat.Div0.mod_add, Nat.mod_small; lia.
    + lia.
    + unfold debounceDelay. specialize (Hcells row col Hrow Hlow8). lia.
  - apply (debouncing_over t68).
    + exact H68.
    + lia.
    + unfold debounceDelay. lia.
Qed.

Lemma sample_recorded_before_rollover_witness :
  let ios := [timed (only [17]) 1000; timed (only [17; 23]) 1008] in
  let io := timed (only [23]) 1016 in
  (debounceDelay <= 1000)%Z /\ clocked 1000 (ios ++ [io]) = true /\
  before_rollover io /\ 2 < 8 /\ 3 < 9 /\ scanned (3 + 2 * 10) = true /\
  lastKeyState (run (sketch true (ios ++ [io])) (power_on (rom_with 4)))
    !!! (3 + 2 * 10) = true.
Proof.
  cbv zeta.
  assert (H1 : (debounceDelay <= 1000)%Z) by (vm_compute; discriminate).
  assert (H2 : clocked 1000 ([timed (only [17]) 1000;
                               timed (only [17; 23]) 1008]
                              ++ [timed (only [23]) 1016]) = true)
    by (vm_compute; reflexivity).
  assert (H3 : before_rollover (timed (only [23]) 1016))
    by (vm_compute; reflexivity).
  assert (H4 : 2 < 8) by lia.
  assert (H5 : 3 < 9) by lia.
  assert (H6 : scanned (3 + 2 * 10) = true) by reflexivity.
  repeat (split; [assumption|]).
  exact (sample_recorded_before_rollover true (rom_with 4) _ _ 1000 2 3
           H1 H2 H3 H4 H5 H6).
Defined.

(** ** The rollover of the clock *)

Lemma reads_down_matrix down now row col :
  col < 9 -> reads_down (matrix down now) row col = down (col + row * 10).
Proof.
  intros Hc. unfold reads_down, matrix. cbn [digitalRead].
  do 9 (destruct col as [|col]; [apply negb_involutive|]). lia.
Qed.

Lemma reads_down_timed down t0 row col :
  col < 9 -> reads_down (timed down t0) row col = down (col + row * 10).
Proof. apply reads_down_matrix. Qed.

Lemma untouched_reads io row col : untouched io -> reads_down io row col = false.
Proof. intros H. unfold reads_down. now rewrite H. Qed.

Lemma untouched_timed t0 : untouched (timed (only []) t0).
Proof.
  intros row pin. unfold timed, matrix. cbn [digitalRead].
  destruct (col_of_pin pin); reflexivity.
Qed.

(** A pass over an untouched keyboard on which no key is recorded down. *)
Lemma loop_untouched io s :
  untouched io ->
  lastKeyState s = replicate 80 false ->
  keyboard (calls (loop io) s) = []
  /\ outside_scan (run (loop io) s) = outside_scan s.
Proof.
  intros Hio Hup. unfold loop.
  rewrite !calls_andThen, !run_andThen, !calls_assign, !run_assign.
  cbn [app].
  destruct (scan_rows_idle io (seq 0 8)
              (set_isKeyDown false (set_thisKey 0 s))) as (Hk & _ & Ho).
  - intros row Hr col Hc. apply elem_of_seq in Hr.
    rewrite untouched_reads by exact Hio.
    cbn [lastKeyState set_isKeyDown set_thisKey]. rewrite Hup.
    symmetry. apply lookup_total_replicate_2. lia.
  - rewrite untouched_reads by exact Hio.
    cbn [lastKeyState set_isKeyDown set_thisKey]. rewrite Hup.
    symmetry. apply lookup_total_replicate_2. lia.
  - rewrite Hk, Ho. split; reflexivity.
Qed.

(** A row in which one cell changed while it is being debounced. *)
Lemma scan_columns_debounced_row io row col s :
  col < 8 ->
  debouncing (millis_cell io row col) (visited io row col s) = true ->
  (forall c, c < 8 -> c <> col -> cell_unchanged io (lastKeyState s) row c) ->
  reads_down io 6 8 = lastKeyState s !!! 68 ->
  scan_columns io row (seq 0 9) s = (visited io row 8 s, []).
Proof.
  intros Hc Hdeb Hq H68.
  rewrite (columns_around col Hc).
  rewrite scan_columns_skip_unchanged.
  2:{ apply Forall_forall. intros c Hin. apply elem_of_seq in Hin.
      split; [lia | apply Hq; lia]. }
  rewrite scan_columns_cons, filtered_low, Hdeb by exact Hc.
  rewrite scan_columns_rest_unchanged.
  - reflexivity.
  - apply Forall_forall. intros c Hin. apply elem_of_seq in Hin.
    split; [lia | apply Hq; lia].
  - exact H68.
Qed.

Lemma scan_row_debounced io row col s :
  col < 8 ->
  debouncing (millis_cell io row col) (visited io row col s) = true ->
  (forall c, c < 8 -> c <> col -> cell_unchanged io (lastKeyState s) row c) ->
  reads_down io 6 8 = lastKeyState s !!! 68 ->
  keyboard (calls (scan_row io row) s) = []
  /\ outside_scan (run (scan_row io row) s) = outside_scan s.
Proof.
  intros Hc Hdeb Hq H68. unfold scan_row.
  rewrite !calls_andThen, !run_andThen, !run_call, !calls_call, run_assign,
    calls_assign.
  unfold run, calls.
  rewrite (scan_columns_debounced_row io row col) by assumption.
  cbn [fst snd]. split; reflexivity.
Qed.

(** A pass in which one cell changed while it is being debounced: the
    change is not dispatched and not recorded. *)
Lemma loop_debounced io s row col :
  row < 8 ->
  col < 8 ->
  debouncing (millis_cell io row col) (set_thisKey (col + row * 10) s) = true ->
  (forall r c, r < 8 -> c < 8 -> (r <> row \/ c <> col) ->
     cell_unchanged io (lastKeyState s) r c) ->
  reads_down io 6 8 = lastKeyState s !!! 68 ->
  keyboard (calls (loop io) s) = []
  /\ outside_scan (run (loop io) s) = outside_scan s.
Proof.
  intros Hrow Hcol Hdeb Hq H68.
  set (k := col + row * 10) in *.
  assert (Hk8 : k mod 10 <> 8).
  { subst k. rewrite Nat.Div0.mod_add, Nat.mod_small; lia. }
  set (s1 := set_isKeyDown false (set_thisKey 0 s)).
  destruct (scan_rows_idle io (seq 0 row) s1) as (Hk1 & _ & Ho1).
  { intros r Hr c Hc. apply elem_of_seq in Hr. apply Hq; lia. }
  { exact H68. }
  set (s2 := run (scan_rows io (seq 0 row)) s1) in *.
  pose proof (outside_scan_lastKeyState _ _ Ho1) as Hl2.
  change (lastKeyState s1) with (lastKeyState s) in Hl2.
  destruct (scan_row_debounced io row col s2) as [Hk2 Ho2];
    try assumption.
  { rewrite <- Hdeb. apply debouncing_depends; [reflexivity|].
    change (lastDebounceTime s2 !!! k = lastDebounceTime s1 !!! k).
    now apply scan_rows_stamp. }
  { intros c Hc Hne. rewrite Hl2. apply Hq; lia. }
  { now rewrite Hl2. }
  set (s3 := run (scan_row io row) s2) in *.
  pose proof (outside_scan_lastKeyState _ _ Ho2) as Hl3.
  destruct (scan_rows_idle io (seq (S row) (7 - row)) s3) as (Hk3 & _ & Ho3).
  { intros r Hr c Hc. apply elem_of_seq in Hr. rewrite Hl3, Hl2.
    apply Hq; lia. }
  { now rewrite Hl3, Hl2. }
  split.
  - unfold loop.
    rewrite !calls_andThen, ?run_andThen, !calls_assign, ?run_assign.
    cbn [app]. fold s1. rewrite (rows_around row Hrow).
    rewrite calls_scan_rows_app, keyboard_app. fold s2. rewrite Hk1.
    cbn [scan_rows app]. rewrite calls_andThen, keyboard_app. fold s3.
    now rewrite Hk2, Hk3.
  - unfold loop. rewrite !run_andThen, !run_assign. fold s1.
    rewrite (rows_around row Hrow), run_scan_rows_app. fold s2.
    cbn [scan_rows]. rewrite run_andThen. fold s3.
    now rewrite Ho3, Ho2, Ho1.
Qed.

(** The window that the debounce test gives a position outside column 8:
    the first milliseconds after [millis()] is 0, whatever the position has
    done. *)
Lemma debouncing_low_columns led rom ios now k :
  k < 80 -> k mod 10 <> 8 ->
  debouncing now (set_thisKey k (run (sketch led ios) (power_on rom)))
  = (to_ulong now <? debounceDelay)%Z.
Proof.
  intros Hk Hcol. unfold debouncing.
  cbn [thisKey lastDebounceTime set_thisKey].
  rewrite sketch_stamp by assumption. reflexivity.
Qed.

(** C1 at its failing input.  After [setup] and any number of passes, the
    debounce test holds for a position outside column 8 exactly when
    [millis()] returns less than 5: the window does not start at the last
    accepted transition of the position, it is the first 5 ms after the
    clock passes 0.  Now let the run leave no key held when [millis()] is
    about to roll over, 2^32 ms after power-on.  Position 23 is read down
    in the pass that tests it at 2^32 + 1 ms, when [millis()] returns 1,
    and read up in the next pass, 8 ms later; the rows are read 1 ms apart,
    as the [delay(1)] of [loop] has it.  The first sample is taken to be
    inside the debounce window and the second reads what is recorded:
    neither a press nor a release reaches the keyboard. *)
Theorem keystroke_lost_at_rollover led rom ios :
  let s := run (sketch led ios) (power_on rom) in
  let down := timed (only [23]) (2 ^ 32 - 1) in
  let up := timed (only []) (2 ^ 32 + 7) in
  lastKeyState s = replicate 80 false ->
  (forall now k, k < 80 -> k mod 10 <> 8 ->
     debouncing now (set_thisKey k s) = (to_ulong now <? debounceDelay)%Z)
  /\ clocked (2 ^ 32 - 1) [down; up] = true
  /\ reads_down down 2 3 = true /\ millis_cell down 2 3 = (2 ^ 32 + 1)%Z
  /\ reads_down up 2 3 = false /\ millis_cell up 2 3 = (2 ^ 32 + 9)%Z
  /\ debouncing (millis_cell down 2 3) (set_thisKey 23 s) = true
  /\ keyboard (calls (loops [down; up]) s) = []
  /\ lastKeyState (run (loops [down; up]) s) = replicate 80 false.
Proof.
  cbv zeta. intros Hup.
  set (s := run (sketch led ios) (power_on rom)) in *.
  set (down := timed (only [23]) (2 ^ 32 - 1)).
  set (up := timed (only []) (2 ^ 32 + 7)).
  assert (Hwin : forall now k, k < 80 -> k mod 10 <> 8 ->
            debouncing now (set_thisKey k s)
            = (to_ulong now <? debounceDelay)%Z)
    by (intros; now apply debouncing_low_columns).
  assert (Hdeb : debouncing (millis_cell down 2 3) (set_thisKey 23 s) = true).
  { rewrite Hwin; [reflexivity | lia | vm_compute; discriminate]. }
  destruct (loop_debounced down s 2 3) as [Hk1 Ho1];
    [lia | lia | exact Hdeb | | |].
  { intros r c Hr Hc Hne. unfold cell_unchanged, down.
    rewrite reads_down_timed, Hup, lookup_total_replicate_2 by lia.
    apply bool_decide_eq_false. rewrite list_elem_of_singleton. lia. }
  { unfold down. rewrite reads_down_timed, Hup by lia. reflexivity. }
  pose proof (outside_scan_lastKeyState _ _ Ho1) as Hl1.
  destruct (loop_untouched up (run (loop down) s)) as [Hk2 Ho2];
    [apply untouched_timed | now rewrite Hl1 |].
  pose proof (outside_scan_lastKeyState _ _ Ho2) as Hl2.
  split; [exact Hwin|].
  repeat (split; [first [reflexivity | exact Hdeb]|]).
  cbn [loops].
  rewrite !calls_andThen, !run_andThen, calls_skip, run_skip, !keyboard_app.
  rewrite Hk1, Hk2, Hl2, Hl1. split; [reflexivity | exact Hup].
Qed.

Lemma keystroke_lost_at_rollover_witness :
  let ios := [timed (only [23]) 1200; timed (only []) 1208] in
  let s := run (sketch true ios) (power_on (rom_with 4)) in
  lastKeyState s = replicate 80 false /\
  keyboard (calls (sketch true ios) (power_on (rom_with 4)))
  = [KbReleaseAll; KbPress (Chr "6"); KbRelease (Chr "6")] /\
  keyboard (calls (loops [timed (only [23]) (2 ^ 32 - 1);
                          timed (only []) (2 ^ 32 + 7)]) s) = [] /\
  keyboard (calls (loops [timed (only [23]) (2 ^ 32 + 4);
                          timed (only []) (2 ^ 32 + 12)]) s)
  = [KbPress (Chr "6"); KbRelease (Chr "6")].
Proof.
  cbv zeta.
  assert (H : lastKeyState
                (run (sketch true [timed (only [23]) 1200;
                                   timed (only []) 1208])
                   (power_on (rom_with 4))) = replicate 80 false)
    by (vm_compute; reflexivity).
  split; [exact H | split; [vm_compute; reflexivity | split]].
  - exact (proj1 (proj2 (proj2 (proj2 (proj2 (proj2 (proj2 (proj2
      (keystroke_lost_at_rollover true (rom_with 4) _ H))))))))).
  - vm_compute. reflexivity.
Defined.
